(** * Random_Chat_Generator: a shallow embedding of [generate_chats_v0.4.py]

    The Python module draws every random decision from the process-wide
    [random] source.  Here that source is an explicit tape carried in a
    [World] value and threaded through a state-and-exception monad [M].

    Numbers: Python [int] is [Z]; Python [float] is idealised as an exact
    rational [Q] (no rounding, no infinities).  A [datetime] is a rational
    number of seconds on a fixed time line and a [timedelta] a rational
    number of seconds, so the microsecond rounding of [timedelta] is not
    modelled. *)

From Stdlib Require Import String Ascii DecimalString.
From Stdlib Require Import ZArith QArith Qround Bool Lia Lqa List.
From Stdlib Require Import Sorted Permutation.
Import ListNotations.

#[local] Set Warnings "-register-all".

Local Open Scope Z_scope.

(** ** The Python runtime the module relies on *)

Module Py.

(** The exceptions the modelled code can raise. *)
Inductive exn : Type :=
| ZeroDivisionError
| ValueError
| IndexError
| KeyError
| TypeError
| AttributeError
| RecursionError.

(** Everything the code reads from outside its arguments: the entropy the
    [random] module consumes cell by cell, the deviates behind
    [random.gauss], the identifiers [uuid.uuid4] hands out and the wall
    clock of [datetime.now]. *)
Record World : Type := mkWorld {
  entropy : nat -> Z;
  cursor : nat;
  normal_src : nat -> Q;
  normal_cursor : nat;
  uuid_src : nat -> string;
  uuid_cursor : nat;
  clock : Q
}.

Inductive outcome (A : Type) : Type :=
| Ok (a : A) (w : World)
| Raise (e : exn).
Arguments Ok {A} a w.
Arguments Raise {A} e.

Definition M (A : Type) : Type := World -> outcome A.

Definition ret {A} (a : A) : M A := fun w => Ok a w.

Definition bind {A B} (m : M A) (k : A -> M B) : M B :=
  fun w => match m w with
           | Ok a w' => k a w'
           | Raise e => Raise e
           end.

Definition raise {A} (e : exn) : M A := fun _ => Raise e.

(** A pure computation that may raise, run inside [M]. *)
Definition lift {A} (r : exn + A) : M A :=
  match r with
  | inl e => raise e
  | inr a => ret a
  end.

Definition next_cell : M Z :=
  fun w => Ok (entropy w (cursor w))
              (mkWorld (entropy w) (S (cursor w)) (normal_src w)
                       (normal_cursor w) (uuid_src w) (uuid_cursor w) (clock w)).

(** [random.random()]: a 53-bit integer over [2**53], so a float in [0, 1). *)
Definition random_random : M Q :=
  bind next_cell (fun z => ret (Qmake (z mod 2 ^ 53) (2 ^ 53)%positive)).

(** [random.uniform(a, b)] is [a + (b - a) * random()]. *)
Definition random_uniform (a b : Q) : M Q :=
  bind random_random (fun u => ret (a + (b - a) * u)%Q).

(** [Random._randbelow(n)] for [n > 0]: some integer in [0, n). *)
Definition randbelow (n : Z) : M Z :=
  bind next_cell (fun z => ret (z mod n)).

(** [random.choice(seq)] is [seq[_randbelow(len(seq))]]; an empty sequence
    raises [IndexError]. *)
Definition random_choice {A} (seq : list A) : M A :=
  match seq with
  | [] => raise IndexError
  | x :: _ =>
      bind (randbelow (Z.of_nat (length seq)))
           (fun i => ret (nth (Z.to_nat i) seq x))
  end.

(** [random.randint(a, b)] is [randrange(a, b + 1)]; an empty range raises
    [ValueError]. *)
Definition random_randint (a b : Z) : M Z :=
  if b + 1 - a <=? 0 then raise ValueError
  else bind (randbelow (b + 1 - a)) (fun k => ret (a + k)).

(** [random.gauss(mu, sigma)] is [mu + z * sigma] for a standard normal
    deviate [z]; the deviate is read from the world. *)
Definition random_gauss (mu sigma : Q) : M Q :=
  fun w => Ok (mu + normal_src w (normal_cursor w) * sigma)%Q
              (mkWorld (entropy w) (cursor w) (normal_src w)
                       (S (normal_cursor w)) (uuid_src w) (uuid_cursor w) (clock w)).

(** [bisect.bisect_right(a, x, 0, hi)] on a sorted list: the number of
    entries among the first [hi] that are at most [x]. *)
Fixpoint bisect_right (a : list Q) (x : Q) (hi : nat) : nat :=
  match hi, a with
  | S hi', y :: a' => if Qle_bool y x then S (bisect_right a' x hi') else O
  | _, _ => O
  end.

(** [itertools.accumulate(weights)]. *)
Fixpoint accumulate (acc : Q) (weights : list Q) : list Q :=
  match weights with
  | [] => []
  | x :: rest => (acc + x)%Q :: accumulate (acc + x)%Q rest
  end.

(** [random.choices(population, weights=weights, k=1)[0]]. *)
Definition random_choices1 {A} (population : list A) (weights : list Q) : M A :=
  match population with
  | [] => raise IndexError
  | x :: _ =>
      if negb (Nat.eqb (length weights) (length population)) then raise ValueError
      else
        let cum_weights := accumulate 0 weights in
        let total := last cum_weights 0%Q in
        if Qle_bool total 0 then raise ValueError
        else
          let hi := (length population - 1)%nat in
          bind random_random
               (fun u => ret (nth (bisect_right cum_weights (u * total)%Q hi) population x))
  end.

(** [str(uuid.uuid4())]. *)
Definition uuid4_str : M string :=
  fun w => Ok (uuid_src w (uuid_cursor w))
              (mkWorld (entropy w) (cursor w) (normal_src w) (normal_cursor w)
                       (uuid_src w) (S (uuid_cursor w)) (clock w)).

(** [datetime.now()]. *)
Definition datetime_now : M Q := fun w => Ok (clock w) w.

(** [x < y] on floats. *)
Definition Qltb (x y : Q) : bool := negb (Qle_bool y x).

(** [a / b], true division. *)
Definition truediv (a b : Q) : exn + Q :=
  if Qeq_bool b 0 then inl ZeroDivisionError else inr (a / b)%Q.

(** [a // b], floor division of integers. *)
Definition floordiv (a b : Z) : exn + Z :=
  if b =? 0 then inl ZeroDivisionError else inr (a / b).

(** [int(x)] of a float: truncation towards zero. *)
Definition int_of_float (x : Q) : Z := Z.quot (Qnum x) (Zpos (Qden x)).

(** [max(x, y)] of two numbers: the first argument wins a tie. *)
Definition max2 (x y : Q) : Q := if Qltb x y then y else x.

(** [sum(xs)]: a left fold that starts from [0]. *)
Definition sum (xs : list Q) : Q := fold_left Qplus xs 0%Q.

(** [xs[:n]]; a negative [n] counts from the end. *)
Definition slice_to {A} (xs : list A) (n : Z) : list A :=
  if 0 <=? n then firstn (Z.to_nat n) xs
  else firstn (Z.to_nat (Z.of_nat (length xs) + n)) xs.

(** [xs[i]]; a negative [i] counts from the end. *)
Definition getitem {A} (xs : list A) (i : Z) : exn + A :=
  let j := if i <? 0 then i + Z.of_nat (length xs) else i in
  if j <? 0 then inl IndexError
  else match nth_error xs (Z.to_nat j) with
       | Some x => inr x
       | None => inl IndexError
       end.

(** [list(range(start, stop, step))]. *)
Definition range3 (start stop step : Z) : exn + list Z :=
  if step =? 0 then inl ValueError
  else
    let n := if 0 <? step then (stop - start + step - 1) / step
             else (start - stop - step - 1) / (- step) in
    inr (map (fun i => start + Z.of_nat i * step) (seq 0 (Z.to_nat n))).

(** [for _ in range(n): acc = body(acc)]. *)
Fixpoint for_range {A} (n : nat) (body : A -> M A) (acc : A) : M A :=
  match n with
  | O => ret acc
  | S k => bind (body acc) (for_range k body)
  end.

(** [[f(x) for x in xs]] where [f] may raise. *)
Fixpoint comprehension {A B} (f : A -> exn + B) (xs : list A) : exn + list B :=
  match xs with
  | [] => inr []
  | x :: rest =>
      match f x with
      | inl e => inl e
      | inr y =>
          match comprehension f rest with
          | inl e => inl e
          | inr ys => inr (y :: ys)
          end
      end
  end.

(** [d[key]] on a dict kept in insertion order. *)
Fixpoint dict_get {V} (d : list (string * V)) (key : string) : exn + V :=
  match d with
  | [] => inl KeyError
  | (k, v) :: rest => if String.eqb k key then inr v else dict_get rest key
  end.

(** [str(n)] of an integer. *)
Definition str_of_int (n : Z) : string := NilZero.string_of_int (Z.to_int n).

(** A value whose run-time type the code leaves open: an [int] or a tuple. *)
Inductive pyobj : Type :=
| PyInt (n : Z)
| PyTuple (items : list pyobj).

(** [o[i]]. *)
Definition subscript (o : pyobj) (i : Z) : exn + pyobj :=
  match o with
  | PyInt _ => inl TypeError
  | PyTuple items => getitem items i
  end.

(** [str(o)], as an f-string field formats it. *)
Fixpoint str_of_obj (o : pyobj) : string :=
  match o with
  | PyInt n => str_of_int n
  | PyTuple items =>
      let fix commas (l : list pyobj) : string :=
        match l with
        | [] => EmptyString
        | [x] => str_of_obj x
        | x :: rest => (str_of_obj x ++ ", " ++ commas rest)%string
        end in
      match items with
      | [] => "()"%string
      | [x] => ("(" ++ str_of_obj x ++ ",)")%string
      | _ => ("(" ++ commas items ++ ")")%string
      end
  end.

(** [s.replace(c, '')] for a one-character [c]. *)
Definition remove_char (c : ascii) (s : list ascii) : list ascii :=
  filter (fun x => negb (Ascii.eqb x c)) s.

(** [timedelta(days=, hours=, minutes=, seconds=, milliseconds=)], in seconds. *)
Definition timedelta (days hours minutes seconds milliseconds : Z) : Q :=
  (inject_Z (days * 86400 + hours * 3600 + minutes * 60 + seconds)
   + inject_Z milliseconds / 1000)%Q.

(** [d[key]] and [key in d] for a dict with integer keys. *)
Fixpoint dict_get_int {V} (d : list (Z * V)) (key : Z) : exn + V :=
  match d with
  | [] => inl KeyError
  | (k, v) :: rest => if k =? key then inr v else dict_get_int rest key
  end.

Definition dict_mem_int {V} (d : list (Z * V)) (key : Z) : bool :=
  existsb (fun kv => fst kv =? key) d.

(** [s.replace(old, new)] for a non-empty [old]: the occurrences are taken
    from the left and do not overlap.  [skip] counts the characters of a
    matched occurrence that are still to be dropped. *)
Fixpoint replace_from (old new : string) (skip : nat) (s : string) : string :=
  match s with
  | EmptyString => EmptyString
  | String c rest =>
      match skip with
      | S k => replace_from old new k rest
      | O =>
          if prefix old s
          then (new ++ replace_from old new (String.length old - 1) rest)%string
          else String c (replace_from old new O rest)
      end
  end.

Definition str_replace (old new s : string) : string := replace_from old new 0 s.

(** [d[key] = v] on a dict kept in insertion order: an existing key keeps
    its place and takes the new value. *)
Fixpoint dict_set {V} (d : list (string * V)) (key : string) (v : V) : list (string * V) :=
  match d with
  | [] => [(key, v)]
  | (k, x) :: rest =>
      if String.eqb k key then (k, v) :: rest else (k, x) :: dict_set rest key v
  end.

(** [for x in xs: acc = body(acc, x)]. *)
Fixpoint for_each {A B} (xs : list A) (body : B -> A -> M B) (acc : B) : M B :=
  match xs with
  | [] => ret acc
  | x :: rest => bind (body acc x) (for_each rest body)
  end.

End Py.

Import Py.

Declare Scope py_scope.
Delimit Scope py_scope with py.
Notation "x <- m ;; k" := (bind m (fun x => k))
  (at level 61, m at next level, right associativity) : py_scope.
Local Open Scope py_scope.

(** ** The dataclasses *)

Module Exhibit.
(** [exhibit_number] is annotated [int]; the record holds whatever object
    the constructor is given. *)
Record t : Type := mk {
  uuid : string;
  case_id : string;
  exhibit_number : pyobj;
  police_number : string;
  extraction_date : Q;
  name : string
}.
End Exhibit.

Module Attachment.
Record t : Type := mk {
  uuid : string;
  type : string;
  file_name : string;
  file_location : string;
  message_uuid : string;
  sender_uuid : string
}.
End Attachment.

Module Message.
(** [send_datetime] is annotated [datetime]; the constructor is also given
    [None], so the field is optional here. *)
Record t : Type := mk {
  sender_uuid : string;
  uuid : string;
  has_attachment : bool;
  send_datetime : option Q;
  sent_status : bool;
  text : string;
  delivered_datetime : option Q;
  delivered_status : bool;
  read_datetime : option Q;
  read_status : bool;
  deleted_datetime : option Q;
  deleted_status : bool;
  platform_name : string;
  exhibit_uuid : string
}.
End Message.

Module CaseData.
Record t : Type := mk {
  file_number : string;
  case_number : string;
  operation_name : string;
  start_date : Q;
  end_date : Q;
  exhibits_used : list string;
  notes : string
}.
End CaseData.

(** ** generator_config

    [from generator_config import *] brings in constants of a module that is
    not part of the sources; the ones the modelled functions read are the
    fields of a parameter record. *)

Module Config.

Record type_config : Type := mkTypeConfig {
  files : list string;
  path : string
}.

Record t : Type := mk {
  STYLE_ID_TO_COLOR : list (Z * string);
  ATTACHMENT_LIKELIHOOD : Q;
  SENT_LIKELIHOOD : Q;
  DELIVERED_LIKELIHOOD : Q;
  READ_LIKELIHOOD : Q;
  DELETED_LIKELIHOOD : Q;
  MESSAGE_TIMING : list (string * (Z * Z));
  ATTACHMENT_TYPES : list (string * type_config);
  MESSAGE_TEXTS : list string
}.

End Config.

(** The constants of [generator_config] that the other generators read. *)
Module Catalog.

Record t : Type := mk {
  PLATFORMS : list string;
  FIRST_NAMES : list string;
  LAST_NAMES : list string;
  PLATFORM_ALIAS_SEEDS : list string;
  ALIAS_SUFFIXES : list string;
  STYLE_ID_TO_AVATAR : list (Z * string);
  MAX_PARTICIPANTS : Z;
  OPERATION_NAMES : list string
}.

End Catalog.

Module Participant.
Record t : Type := mk {
  name : string;
  alias : string;
  platform : string;
  avatars : list (string * string);
  uuid : string;
  color : string;
  style_id : Z
}.
End Participant.

(** ** class DateTimeGenerator *)

Module DateTimeGenerator.

(** [random_datetime(start, end)]. *)
Definition random_datetime (start end_ : Q) : M Q :=
  let delta := (end_ - start)%Q in
  random_seconds <- random_randint 0 (int_of_float delta) ;;
  ret (start + inject_Z random_seconds)%Q.

(** [datetime(2023, 1, 1)] and [datetime(2024, 12, 31, 23, 59, 59)], in
    seconds since 1970-01-01T00:00:00. *)
Definition start_range : Q := 1672531200.
Definition end_range : Q := 1735689599.

(** [generate_datetime_range()]. *)
Definition generate_datetime_range : M (Q * Q) :=
  start <- random_datetime start_range end_range ;;
  end_ <- random_datetime start end_range ;;
  ret (start, end_).

End DateTimeGenerator.

(** ** class ParticipantGenerator *)

Module ParticipantGenerator.

(** [generate_distant_style_ids(n)]. *)
Definition generate_distant_style_ids (cfg : Config.t) (n : Z) : exn + list Z :=
  let available_ids := map fst (Config.STYLE_ID_TO_COLOR cfg) in
  if Z.of_nat (length available_ids) <? n then inl ValueError
  else
    match floordiv (Z.of_nat (length available_ids)) n with
    | inl e => inl e
    | inr step =>
        match range3 0 (Z.of_nat (length available_ids)) step with
        | inl e => inl e
        | inr selected_indices =>
            match comprehension (getitem available_ids) selected_indices with
            | inl e => inl e
            | inr ids => inr (slice_to ids n)
            end
        end
    end.

(** [generate_participant_name()]. *)
Definition generate_participant_name (cat : Catalog.t) : M (string * string) :=
  first <- random_choice (Catalog.FIRST_NAMES cat) ;;
  last <- random_choice (Catalog.LAST_NAMES cat) ;;
  let name := (first ++ " " ++ last)%string in
  alias <- random_choice (Catalog.PLATFORM_ALIAS_SEEDS cat) ;;
  add_suffix <- random_choice [true; false] ;;
  alias <-
    (if add_suffix then
       numbered <- random_choice [true; false] ;;
       if numbered then
         k <- random_randint 1 1000 ;;
         ret (alias ++ "_" ++ str_of_int k)%string
       else
         underscored <- random_choice [true; false] ;;
         if underscored then ret ("__" ++ alias ++ "__")%string
         else
           suffixed <- random_choice [true; false] ;;
           if suffixed then
             suffix <- random_choice (Catalog.ALIAS_SUFFIXES cat) ;;
             ret (alias ++ suffix)%string
           else ret alias
     else ret alias) ;;
  ret (name, alias).

(** [generate_participant(style_id)]. *)
Definition generate_participant (cfg : Config.t) (cat : Catalog.t) (style_id : option Z)
  : M Participant.t :=
  names <- generate_participant_name cat ;;
  style_id <-
    match style_id with
    | Some s =>
        if dict_mem_int (Config.STYLE_ID_TO_COLOR cfg) s then ret s
        else random_choice (map fst (Config.STYLE_ID_TO_COLOR cfg))
    | None => random_choice (map fst (Config.STYLE_ID_TO_COLOR cfg))
    end ;;
  avatar_base <- lift (dict_get_int (Catalog.STYLE_ID_TO_AVATAR cat) style_id) ;;
  let avatars :=
    [("left", str_replace ".png" "_l.png" avatar_base);
     ("right", str_replace ".png" "_r.png" avatar_base);
     ("center", str_replace ".png" "_c.png" avatar_base)]%string in
  platform <- random_choice (Catalog.PLATFORMS cat) ;;
  new_uuid <- uuid4_str ;;
  color <- lift (dict_get_int (Config.STYLE_ID_TO_COLOR cfg) style_id) ;;
  ret (Participant.mk (fst names) (snd names) platform avatars new_uuid color style_id).

End ParticipantGenerator.

(** ** class ExhibitGenerator *)

Module ExhibitGenerator.

Definition ascii_letters : string :=
  "abcdefghijklmnopqrstuvwxyzABCDEFGHIJKLMNOPQRSTUVWXYZ".
Definition digits : string := "0123456789".

Definition allowed_chars : list ascii :=
  remove_char "0" (remove_char "O" (remove_char "l" (remove_char "I"
    (list_ascii_of_string (ascii_letters ++ digits))))).

(** [generate_random_exhibit_ID()]. *)
Definition generate_random_exhibit_ID : M string :=
  chars <- for_range 6 (fun acc => c <- random_choice allowed_chars ;; ret (acc ++ [c])) [] ;;
  ret (string_of_list_ascii chars).

(** [generate_exhibit(case_data)].  The assignment to [exhibit_number] ends
    in a comma, so the name is bound to a one-element tuple. *)
Definition generate_exhibit (case_data : CaseData.t) : M Exhibit.t :=
  exhibit_uuid <- uuid4_str ;;
  police_id <- generate_random_exhibit_ID ;;
  k <- random_randint 1 20 ;;
  let exhibit_number := PyTuple [PyInt k] in
  now <- datetime_now ;;
  days <- random_randint 1 5 ;;
  hours <- random_randint 1 24 ;;
  minutes <- random_randint 1 61 ;;
  seconds <- random_randint 1 61 ;;
  milliseconds <- random_randint 1 1001 ;;
  let extraction_date := (now - timedelta days hours minutes seconds milliseconds)%Q in
  first <- lift (subscript exhibit_number 0) ;;
  ret (Exhibit.mk exhibit_uuid
                  (CaseData.case_number case_data)
                  exhibit_number
                  police_id
                  extraction_date
                  (CaseData.case_number case_data ++ "_" ++ str_of_obj first
                   ++ " (" ++ police_id ++ ")")%string).

End ExhibitGenerator.

(** ** class AttachmentGenerator *)

Module AttachmentGenerator.

Section Join.
(** [os.path.join] of the platform the script runs on. *)
Variable os_path_join : string -> string -> string.

(** [generate_attachment(attachment_type, message_uuid, sender_uuid)]. *)
Definition generate_attachment (cfg : Config.t)
    (attachment_type message_uuid sender_uuid : string) : M Attachment.t :=
  type_config <- lift (dict_get (Config.ATTACHMENT_TYPES cfg) attachment_type) ;;
  file_name <- random_choice (Config.files type_config) ;;
  let file_location := os_path_join (Config.path type_config) file_name in
  new_uuid <- uuid4_str ;;
  ret (Attachment.mk new_uuid attachment_type file_name file_location
                     message_uuid sender_uuid).
End Join.

End AttachmentGenerator.

(** ** class MessageGenerator *)

Module MessageGenerator.

(** The locals [generate_random_points] sets before its loop. *)
Definition over_run_count : Z := 10.
Definition fuzz_range_min : Q := 1.

Definition fuzz_range_max (duration : Q) (count : Z) : Q :=
  (duration - inject_Z (count + over_run_count * 2))%Q.

Definition count_with_overrun (count : Z) : Z := count + over_run_count.

Definition mean_response_time (duration : Q) (count : Z) : exn + Q :=
  truediv duration (inject_Z (count_with_overrun count)).

(** The conditional expression of the loop body, once [fuzz] and the coin
    are drawn. *)
Definition fuzzed_time (mean fuzz : Q) (coin : bool) : Q :=
  if coin then (mean + fuzz)%Q else max2 (mean - fuzz)%Q 1%Q.

(** One iteration of the [for] loop of [generate_random_points]. *)
Definition point_step (duration : Q) (count : Z) (mean : Q) (points : list Q)
  : M (list Q) :=
  fuzz <- random_uniform fuzz_range_min (fuzz_range_max duration count) ;;
  coin <- random_choice [true; false] ;;
  ret (points ++ [fuzzed_time mean fuzz coin]).

(** The working list: the body of [generate_random_points] up to the end of
    its [for] loop. *)
Definition working_points (duration : Q) (count : Z) : M (list Q) :=
  mean <- lift (mean_response_time duration count) ;;
  for_range (Z.to_nat (count_with_overrun count + over_run_count))
            (point_step duration count mean) [].

(** One pass through the body, up to and including [points = points[:count]]. *)
Definition attempt (duration : Q) (count : Z) : M (list Q) :=
  points <- working_points duration count ;;
  ret (slice_to points count).

(** [generate_random_points(duration, count)].  [depth] is the number of
    nested calls the interpreter still allows; the function itself sets no
    bound on its retries. *)
Fixpoint generate_random_points (depth : nat) (duration : Q) (count : Z)
  : M (list Q) :=
  match depth with
  | O => raise RecursionError
  | S depth' =>
      points <- attempt duration count ;;
      if Qltb duration (sum points) then ret points
      else generate_random_points depth' duration count
  end.

(** [generate_random_message_datetimes(start, end, count)]. *)
Definition generate_random_message_datetimes (depth : nat) (start end_ : Q) (count : Z)
  : M (list Q) :=
  let time_difference := int_of_float (end_ - start)%Q in
  deltas <- generate_random_points depth (inject_Z time_difference) count ;;
  ret (map (fun delta => (start + delta)%Q) deltas).

(** [weighted_random_message_count()]. *)
Definition weighted_random_message_count : M Z :=
  weighted_choice <- random_choices1 [1; 2] [(1 # 2)%Q; (1 # 2)%Q] ;;
  if weighted_choice =? 1 then
    random_choices1 [1; 2; 3; 4] [(3 # 10)%Q; (3 # 10)%Q; (2 # 10)%Q; (2 # 10)%Q]
  else
    x <- random_gauss 25 10 ;;
    let normal_choice := int_of_float x in
    ret (Z.max 1 (Z.min 50 normal_choice)).

(** [generate_message_timeline(start, end, message_count)].  A [datetime]
    is always truthy, so [not start] holds only for [None]; [not
    message_count] holds for [None] and for [0].  The progress line the
    function prints is not modelled. *)
Definition generate_message_timeline (depth : nat) (start end_ : option Q)
    (message_count : option Z) : M (list Q) :=
  range <- match start, end_ with
           | Some s, Some e => ret (s, e)
           | _, _ => DateTimeGenerator.generate_datetime_range
           end ;;
  message_count <- match message_count with
                   | Some c => if c =? 0 then weighted_random_message_count else ret c
                   | None => weighted_random_message_count
                   end ;;
  generate_random_message_datetimes depth (fst range) (snd range) message_count.

(** The three "status, then delayed instant" steps of [generate_message]
    share one shape: when the status holds, look the delay range up and add
    a random delay to [ref_dt]; otherwise the instant stays [None]. *)
Definition delayed_datetime (cfg : Config.t) (status : bool) (key : string) (ref_dt : Q)
  : M (option Q) :=
  if status then
    range <- lift (dict_get (Config.MESSAGE_TIMING cfg) key) ;;
    delay <- random_randint (fst range) (snd range) ;;
    ret (Some (ref_dt + inject_Z delay)%Q)
  else ret None.

(** [status and random.random() < likelihood]: the draw happens only when
    [status] holds. *)
Definition and_chance (status : bool) (likelihood : Q) : M bool :=
  if status then u <- random_random ;; ret (Qltb u likelihood)
  else ret false.

Section Join.
Variable os_path_join : string -> string -> string.

(** [generate_message(ref_dt, participant_uuid, exhibit_uuid, platform_name)]. *)
Definition generate_message (cfg : Config.t) (ref_dt : Q)
    (participant_uuid exhibit_uuid platform_name : string)
  : M (Message.t * list Attachment.t) :=
  message_uuid <- uuid4_str ;;
  u1 <- random_random ;;
  let has_attachment := Qltb u1 (Config.ATTACHMENT_LIKELIHOOD cfg) in
  u2 <- random_random ;;
  let sent_status := Qltb u2 (Config.SENT_LIKELIHOOD cfg) in
  let send_datetime := if sent_status then Some ref_dt else None in
  delivered_status <- and_chance sent_status (Config.DELIVERED_LIKELIHOOD cfg) ;;
  delivered_datetime <- delayed_datetime cfg delivered_status "DELIVERY_DELAY" ref_dt ;;
  read_status <- and_chance delivered_status (Config.READ_LIKELIHOOD cfg) ;;
  read_datetime <- delayed_datetime cfg read_status "READ_DELAY" ref_dt ;;
  u3 <- random_random ;;
  let deleted_status := Qltb u3 (Config.DELETED_LIKELIHOOD cfg) in
  deleted_datetime <- delayed_datetime cfg deleted_status "DELETE_DELAY" ref_dt ;;
  attachments <-
    (if has_attachment then
       attachment_count <- random_randint 1 4 ;;
       for_range (Z.to_nat attachment_count)
         (fun acc =>
            attachment_type <- random_choice (map fst (Config.ATTACHMENT_TYPES cfg)) ;;
            a <- AttachmentGenerator.generate_attachment os_path_join cfg
                   attachment_type message_uuid participant_uuid ;;
            ret (acc ++ [a]))
         []
     else ret []) ;;
  text <- random_choice (Config.MESSAGE_TEXTS cfg) ;;
  ret (Message.mk participant_uuid message_uuid has_attachment send_datetime
                  sent_status text delivered_datetime delivered_status
                  read_datetime read_status deleted_datetime deleted_status
                  platform_name exhibit_uuid,
       attachments).
End Join.

End MessageGenerator.

(** ** class ChatBuilder: how the generated messages are ordered and keyed *)

Module ChatBuilder.

(** The key of [self.messages.sort(key=lambda x: x.send_datetime)]. *)
Definition sort_key (x : Message.t) : option Q := Message.send_datetime x.

(** [a < b] between two sort keys, as [list.sort] evaluates it: [None] is
    not ordered against anything. *)
Definition key_lt (a b : option Q) : exn + bool :=
  match a, b with
  | Some x, Some y => inr (Qltb x y)
  | _, _ => inl TypeError
  end.

Section Iso.
(** [datetime.isoformat]. *)
Variable isoformat : Q -> string.

(** The key [msg.send_datetime.isoformat()] of the ["messages"] dict that
    [save] builds. *)
Definition save_key (msg : Message.t) : exn + string :=
  match Message.send_datetime msg with
  | Some dt => inr (isoformat dt)
  | None => inl AttributeError
  end.
End Iso.

(** The attributes of a [ChatBuilder] once [initialize_chat] has chosen the
    platform.  [save_time], [save_root] and the directory [__init__] creates
    belong to the file system and are not modelled. *)
Record t : Type := mk {
  platform : string;
  participants : list (string * Participant.t);
  exhibits : list (string * Exhibit.t);
  attachments : list Attachment.t;
  messages : list Message.t;
  case_data : option CaseData.t
}.

(** The [params] dict: a key that is absent is [None]. *)
Record params : Type := mkParams {
  p_platform : option string;
  p_participants : option (list (string * Participant.t));
  p_case_data : option CaseData.t;
  p_exhibits : option (list (string * Exhibit.t));
  p_messages : option (list Message.t)
}.

Definition no_params : params := mkParams None None None None None.

(** [list.sort(key=...)] on the messages: a stable sort that compares keys
    with [<] and stops at the first comparison that raises.  Each message is
    put after the messages already placed that are not later than it. *)
Fixpoint insert_message (m : Message.t) (sorted : list Message.t)
  : exn + list Message.t :=
  match sorted with
  | [] => inr [m]
  | x :: rest =>
      match key_lt (sort_key m) (sort_key x) with
      | inl e => inl e
      | inr true => inr (m :: x :: rest)
      | inr false =>
          match insert_message m rest with
          | inl e => inl e
          | inr placed => inr (x :: placed)
          end
      end
  end.

Definition sort_messages (msgs : list Message.t) : exn + list Message.t :=
  fold_left (fun acc m => match acc with
                          | inl e => inl e
                          | inr sorted => insert_message m sorted
                          end)
            msgs (inr []).

(** [_generate_participants(params)]. *)
Definition _generate_participants (cfg : Config.t) (cat : Catalog.t) (ps : params)
    (self : t) : M t :=
  match p_participants ps with
  | None =>
      num_participants <- random_randint 2 (Catalog.MAX_PARTICIPANTS cat) ;;
      style_ids <- lift (ParticipantGenerator.generate_distant_style_ids cfg
                           num_participants) ;;
      entries <- for_each style_ids
                   (fun acc style_id =>
                      key <- uuid4_str ;;
                      p <- ParticipantGenerator.generate_participant cfg cat
                             (Some style_id) ;;
                      ret (dict_set acc key p))
                   [] ;;
      ret (mk (platform self) entries (exhibits self) (attachments self)
              (messages self) (case_data self))
  | Some given =>
      ret (mk (platform self) given (exhibits self) (attachments self)
              (messages self) (case_data self))
  end.

(** [_generate_case_data(params)]. *)
Definition _generate_case_data (cat : Catalog.t) (ps : params) (self : t) : M t :=
  match p_case_data ps with
  | None =>
      range <- DateTimeGenerator.generate_datetime_range ;;
      a <- random_randint 230000 240000 ;;
      b <- random_randint 1000 9999 ;;
      c <- random_randint 24000 24400 ;;
      operation_name <- random_choice (Catalog.OPERATION_NAMES cat) ;;
      ret (mk (platform self) (participants self) (exhibits self) (attachments self)
              (messages self)
              (Some (CaseData.mk (str_of_int a ++ "/" ++ str_of_int b)%string
                                 ("HTCG" ++ str_of_int c)%string
                                 operation_name (fst range) (snd range) [] "")))
  | Some given =>
      ret (mk (platform self) (participants self) (exhibits self) (attachments self)
              (messages self) (Some given))
  end.

(** [_generate_exhibits(params)].  Without a case an exhibit cannot be
    built: [case_data.case_number] raises [AttributeError] on [None]. *)
Definition _generate_exhibits (ps : params) (self : t) : M t :=
  match p_exhibits ps with
  | None =>
      for_range (length (participants self))
        (fun self =>
           match case_data self with
           | None => raise AttributeError
           | Some cd =>
               exhibit <- ExhibitGenerator.generate_exhibit cd ;;
               ret (mk (platform self) (participants self)
                       (dict_set (exhibits self) (Exhibit.uuid exhibit) exhibit)
                       (attachments self) (messages self)
                       (Some (CaseData.mk
                                (CaseData.file_number cd) (CaseData.case_number cd)
                                (CaseData.operation_name cd) (CaseData.start_date cd)
                                (CaseData.end_date cd)
                                (CaseData.exhibits_used cd ++ [Exhibit.name exhibit])
                                (CaseData.notes cd))))
           end)
        self
  | Some given =>
      ret (mk (platform self) (participants self) given (attachments self)
              (messages self) (case_data self))
  end.

Section Join.
Variable os_path_join : string -> string -> string.

(** [_generate_messages(params)]. *)
Definition _generate_messages (cfg : Config.t) (depth : nat) (ps : params) (self : t)
  : M t :=
  match p_messages ps with
  | None =>
      timeline <- MessageGenerator.generate_message_timeline depth None None None ;;
      self <- for_each timeline
                (fun self ref_dt =>
                   participant_uuid <- random_choice (map fst (participants self)) ;;
                   exhibit_uuid <- random_choice (map fst (exhibits self)) ;;
                   generated <- MessageGenerator.generate_message os_path_join cfg ref_dt
                                  participant_uuid exhibit_uuid (platform self) ;;
                   ret (mk (platform self) (participants self) (exhibits self)
                           (attachments self ++ snd generated)
                           (messages self ++ [fst generated])
                           (case_data self)))
                self ;;
      sorted <- lift (sort_messages (messages self)) ;;
      ret (mk (platform self) (participants self) (exhibits self) (attachments self)
              sorted (case_data self))
  | Some given =>
      ret (mk (platform self) (participants self) (exhibits self) (attachments self)
              given (case_data self))
  end.

(** [initialize_chat(params)], from the attributes [__init__] sets.  The
    default of [params.get('platform', ...)] is evaluated whether or not the
    key is there.  The progress lines the method prints are not modelled. *)
Definition initialize_chat (cfg : Config.t) (cat : Catalog.t) (depth : nat)
    (ps : option params) : M t :=
  let ps := match ps with Some given => given | None => no_params end in
  default <- random_choice (Catalog.PLATFORMS cat) ;;
  let chosen := match p_platform ps with Some given => given | None => default end in
  self <- _generate_participants cfg cat ps (mk chosen [] [] [] [] None) ;;
  self <- _generate_case_data cat ps self ;;
  self <- _generate_exhibits ps self ;;
  _generate_messages cfg depth ps self.
End Join.

Section Save.
Variable isoformat : Q -> string.

(** The ["messages"] entry of the dict [save] builds:
    [{msg.send_datetime.isoformat(): asdict(msg) for msg in self.messages}]. *)
Definition save_messages (msgs : list Message.t) : exn + list (string * Message.t) :=
  fold_left (fun acc msg =>
               match acc with
               | inl e => inl e
               | inr d =>
                   match save_key isoformat msg with
                   | inl e => inl e
                   | inr key => inr (dict_set d key msg)
                   end
               end)
            msgs (inr []).
End Save.

End ChatBuilder.

Import MessageGenerator.

(** ** Vocabulary of the statements *)

(** The float [random.random()] reads from cell [i] of the entropy. *)
Definition unit_draw (w : World) (i : nat) : Q :=
  Qmake (entropy w i mod 2 ^ 53) (2 ^ 53)%positive.

(** The outcome of the [k]-th pass (counting from 0) through the body of
    [generate_random_points] when the passes before it were all retried. *)
Fixpoint nth_attempt (duration : Q) (count : Z) (k : nat) : M (list Q) :=
  match k with
  | O => attempt duration count
  | S k' => _ <- attempt duration count ;; nth_attempt duration count k'
  end.

(** The shape of every candidate offset of a pass, whatever is drawn. *)
Definition candidate (duration : Q) (count : Z) (p : Q) : Prop :=
  exists u coin,
    (0 <= u)%Q /\ (u < 1)%Q /\
    p = fuzzed_time (duration / inject_Z (count + 10))%Q
          (fuzz_range_min + (fuzz_range_max duration count - fuzz_range_min) * u)%Q coin.

(** Every pass yields a truncated list, and none has a sum above [duration]. *)
Definition never_accepted (duration : Q) (count : Z) : Prop :=
  forall w, exists pts w',
    attempt duration count w = Ok pts w' /\ (sum pts <= duration)%Q.

(** The mean spacing as the specification words it:
    [effective_count = count + M] and [mean = duration / (effective_count + M)]. *)
Definition spec_mean (duration : Q) (count : Z) : Q :=
  let M := 10 in
  let effective_count := count + M in
  (duration / inject_Z (effective_count + M))%Q.

(** A world whose first entropy cell is the largest 53-bit value and whose
    other cells are zero. *)
Definition high_then_zero : World :=
  mkWorld (fun n => match n with O => 2 ^ 53 - 1 | _ => 0 end) 0
          (fun _ => 0%Q) 0 (fun _ => EmptyString) 0 0%Q.

(** A world whose cell 42 is the largest 53-bit value and whose other cells
    are zero: [generate_random_points(86400, 1)] reads cells 0 to 41 in its
    first pass and cells 42 to 83 in its second. *)
Definition high_in_second_pass : World :=
  mkWorld (fun n => if Nat.eqb n 42 then 2 ^ 53 - 1 else 0) 0
          (fun _ => 0%Q) 0 (fun _ => EmptyString) 0 0%Q.

(** A world whose entropy cells all hold the largest 53-bit value. *)
Definition all_high : World :=
  mkWorld (fun _ => 2 ^ 53 - 1) 0 (fun _ => 0%Q) 0 (fun _ => EmptyString) 0 0%Q.

(** A configuration to run the functions on: three styles, likelihoods
    strictly between 0 and 1, one attachment type and one message text. *)
Definition sample_config : Config.t :=
  Config.mk
    [(1, "#ff0000"); (2, "#00ff00"); (3, "#0000ff")]%string
    (3 # 10) (9 # 10) (8 # 10) (7 # 10) (1 # 10)
    [("DELIVERY_DELAY", (1, 60)); ("READ_DELAY", (60, 3600));
     ("DELETE_DELAY", (3600, 86400))]%string
    [("image", Config.mkTypeConfig ["a.png"]%string "attachments/images")]%string
    ["hello"]%string.

Definition sample_case : CaseData.t :=
  CaseData.mk "230001/1000" "HTCG24001" "Op" 0 0 [] "".

(** [m] returns from every world. *)
Definition total {A} (m : M A) : Prop :=
  forall w, exists a w', m w = Ok a w'.

(** A world whose entropy cells all hold [2 ** 53 - 2]: every [random()]
    is just below 1 and every coin of [random.choice([True, False])] is
    [True]. *)
Definition high_even : World :=
  mkWorld (fun _ => 2 ^ 53 - 2) 0 (fun _ => 0%Q) 0 (fun _ => EmptyString) 0 0%Q.

(** What a "status, then delayed instant" step of [generate_message] leaves:
    no instant when the status is false, and otherwise [ref_dt] plus a whole
    number of seconds taken from the range [MESSAGE_TIMING[key]]. *)
Definition delay_outcome (cfg : Config.t) (status : bool) (key : string) (ref_dt : Q)
    (instant : option Q) : Prop :=
  match status with
  | false => instant = None
  | true =>
      exists lo hi k,
        dict_get (Config.MESSAGE_TIMING cfg) key = inr (lo, hi) /\
        lo <= k <= hi /\
        instant = Some (ref_dt + inject_Z k)%Q
  end.

(** An attachment of a configured type, with a file of that type, placed
    under the type's path and tied to a message and its sender. *)
Definition attachment_of (os_path_join : string -> string -> string) (cfg : Config.t)
    (message_uuid sender_uuid : string) (a : Attachment.t) : Prop :=
  exists type_config,
    dict_get (Config.ATTACHMENT_TYPES cfg) (Attachment.type a) = inr type_config /\
    In (Attachment.file_name a) (Config.files type_config) /\
    Attachment.file_location a
      = os_path_join (Config.path type_config) (Attachment.file_name a) /\
    Attachment.message_uuid a = message_uuid /\
    Attachment.sender_uuid a = sender_uuid.

(** A world whose entropy cells are all zero: every [random()] is 0, every
    [randint] its lower bound and every [choice] the first element. *)
Definition all_zero : World :=
  mkWorld (fun _ => 0) 0 (fun _ => 0%Q) 0 (fun n => str_of_int (Z.of_nat n)) 0 0%Q.

(** [sample_config] without message texts. *)
Definition textless_config : Config.t :=
  Config.mk (Config.STYLE_ID_TO_COLOR sample_config)
    (Config.ATTACHMENT_LIKELIHOOD sample_config) (Config.SENT_LIKELIHOOD sample_config)
    (Config.DELIVERED_LIKELIHOOD sample_config) (Config.READ_LIKELIHOOD sample_config)
    (Config.DELETED_LIKELIHOOD sample_config) (Config.MESSAGE_TIMING sample_config)
    (Config.ATTACHMENT_TYPES sample_config) [].

(** [m] leaves the wall clock as it found it. *)
Definition keeps_clock {A} (m : M A) : Prop :=
  forall w a w', m w = Ok a w' -> clock w' = clock w.

(** A catalog to run the participant generator on. *)
Definition sample_catalog : Catalog.t :=
  Catalog.mk
    ["WhatsApp"; "Signal"]%string
    ["Ada"; "Grace"]%string
    ["Lovelace"; "Hopper"]%string
    ["nightowl"; "kiwi"]%string
    ["_nz"; "99"]%string
    [(1, "avatars/red.png"); (2, "avatars/green.png"); (3, "avatars/blue.png")]%string
    3
    ["Tui"; "Kea"]%string.

(** [s] has no dot. *)
Definition dotless (s : string) : Prop := ~ In "."%char (list_ascii_of_string s).

(** [a] was sent, [b] was sent, and [a] was not sent after [b]. *)
Definition not_later (a b : Message.t) : Prop :=
  match Message.send_datetime a, Message.send_datetime b with
  | Some x, Some y => (x <= y)%Q
  | _, _ => False
  end.

(** The message has a send time. *)
Definition has_send_time (m : Message.t) : Prop := Message.send_datetime m <> None.

(** [m] draws no identifier: it leaves the [uuid4] source where it was. *)
Definition keeps_uuids {A} (m : M A) : Prop :=
  forall w a w', m w = Ok a w' ->
    uuid_src w' = uuid_src w /\ uuid_cursor w' = uuid_cursor w.

(** [self'] differs from [self] in its participants only, and so on for the
    other attributes a [_generate_...] method assigns. *)
Definition same_but_participants (self self' : ChatBuilder.t) : Prop :=
  ChatBuilder.platform self' = ChatBuilder.platform self /\
  ChatBuilder.exhibits self' = ChatBuilder.exhibits self /\
  ChatBuilder.attachments self' = ChatBuilder.attachments self /\
  ChatBuilder.messages self' = ChatBuilder.messages self /\
  ChatBuilder.case_data self' = ChatBuilder.case_data self.

Definition same_but_case_data (self self' : ChatBuilder.t) : Prop :=
  ChatBuilder.platform self' = ChatBuilder.platform self /\
  ChatBuilder.participants self' = ChatBuilder.participants self /\
  ChatBuilder.exhibits self' = ChatBuilder.exhibits self /\
  ChatBuilder.attachments self' = ChatBuilder.attachments self /\
  ChatBuilder.messages self' = ChatBuilder.messages self.

(** A case as [_generate_case_data] makes it up. *)
Definition generated_case (cat : Catalog.t) (cd : CaseData.t) : Prop :=
  (exists a b, 230000 <= a <= 240000 /\ 1000 <= b <= 9999 /\
     CaseData.file_number cd = (str_of_int a ++ "/" ++ str_of_int b)%string) /\
  (exists c, 24000 <= c <= 24400 /\
     CaseData.case_number cd = ("HTCG" ++ str_of_int c)%string) /\
  In (CaseData.operation_name cd) (Catalog.OPERATION_NAMES cat) /\
  (DateTimeGenerator.start_range <= CaseData.start_date cd)%Q /\
  (CaseData.start_date cd <= CaseData.end_date cd)%Q /\
  (CaseData.end_date cd <= DateTimeGenerator.end_range)%Q /\
  CaseData.exhibits_used cd = [] /\
  CaseData.notes cd = EmptyString.

Definition same_but_exhibits_and_case (self self' : ChatBuilder.t) : Prop :=
  ChatBuilder.platform self' = ChatBuilder.platform self /\
  ChatBuilder.participants self' = ChatBuilder.participants self /\
  ChatBuilder.attachments self' = ChatBuilder.attachments self /\
  ChatBuilder.messages self' = ChatBuilder.messages self.

(** [cd] after [names] were appended to its [exhibits_used]. *)
Definition extend_case (cd : CaseData.t) (names : list string) : CaseData.t :=
  CaseData.mk (CaseData.file_number cd) (CaseData.case_number cd)
              (CaseData.operation_name cd) (CaseData.start_date cd)
              (CaseData.end_date cd) (CaseData.exhibits_used cd ++ names)
              (CaseData.notes cd).

(** The name of an exhibit of the case [cd]. *)
Definition exhibit_name_of (cd : CaseData.t) (n : string) : Prop :=
  exists k police_id,
    1 <= k <= 20 /\
    n = (CaseData.case_number cd ++ "_" ++ str_of_int k ++ " (" ++ police_id ++ ")")%string.

(** An entry of the exhibits dict: one that was there before, or an exhibit
    of the case [cd] stored under its own identifier. *)
Definition exhibit_entry (cd : CaseData.t) (before : list (string * Exhibit.t))
    (entry : string * Exhibit.t) : Prop :=
  In entry before \/
  (fst entry = Exhibit.uuid (snd entry) /\
   Exhibit.case_id (snd entry) = CaseData.case_number cd).

(** An entry of the participants dict as [_generate_participants] builds
    it from the world [w]: the key is one [uuid4] draw, the participant's own
    identifier the next one, and the participant has a configured style with
    its colour. *)
Definition participant_entry (cfg : Config.t) (w : World)
    (entry : string * Participant.t) : Prop :=
  exists i,
    fst entry = uuid_src w i /\
    Participant.uuid (snd entry) = uuid_src w (S i) /\
    In (Participant.style_id (snd entry)) (map fst (Config.STYLE_ID_TO_COLOR cfg)) /\
    dict_get_int (Config.STYLE_ID_TO_COLOR cfg) (Participant.style_id (snd entry))
      = inr (Participant.color (snd entry)).

(** [uuid4] never hands out the same identifier twice. *)
Definition distinct_uuids (w : World) : Prop :=
  forall i j, uuid_src w i = uuid_src w j -> i = j.

(** A message of the chat [self]: sent by one of its participants, tied to
    one of its exhibits, on its platform. *)
Definition message_of (self : ChatBuilder.t) (m : Message.t) : Prop :=
  In (Message.sender_uuid m) (map fst (ChatBuilder.participants self)) /\
  In (Message.exhibit_uuid m) (map fst (ChatBuilder.exhibits self)) /\
  Message.platform_name m = ChatBuilder.platform self.

(** An attachment that belongs to one of the messages [msgs]. *)
Definition attached_to (msgs : list Message.t) (a : Attachment.t) : Prop :=
  exists m,
    In m msgs /\
    Attachment.message_uuid a = Message.uuid m /\
    Attachment.sender_uuid a = Message.sender_uuid m.

(** A world whose cells are zero except cell 49, which holds [0.9 * 2 ** 53]
    rounded down: [initialize_chat] on [sample_config] and [sample_catalog]
    reads that cell when it draws the small message count, and draws 4. *)
Definition four_messages : World :=
  mkWorld (fun n => if Nat.eqb n 49 then 8106479329266892 else 0) 0
          (fun _ => 0%Q) 0 (fun n => str_of_int (Z.of_nat n)) 0 0%Q.

(** The whole seconds of an instant, as text: a stand-in for [isoformat]. *)
Definition seconds_text (t : Q) : string := str_of_int (int_of_float t).

(** * Properties *)

(** ** The monad *)

Lemma bind_Ok_inv {A B} (m : M A) (k : A -> M B) w b w' :
  bind m k w = Ok b w' ->
  exists a w1, m w = Ok a w1 /\ k a w1 = Ok b w'.
Proof.
  unfold bind. destruct (m w) as [a w1|e]; [|discriminate].
  intros H. exists a, w1. auto.
Qed.

Lemma bind_Ok {A B} (m : M A) (k : A -> M B) w a w1 :
  m w = Ok a w1 -> bind m k w = k a w1.
Proof. unfold bind. now intros ->. Qed.

Lemma bind_Raise {A B} (m : M A) (k : A -> M B) w e :
  m w = Raise e -> bind m k w = Raise e.
Proof. unfold bind. now intros ->. Qed.

Lemma ret_Ok_inv {A} (a b : A) w w' : ret a w = Ok b w' -> a = b /\ w = w'.
Proof. unfold ret. intros H. now inversion H. Qed.

Ltac bind_inv H :=
  cbv beta zeta in H;
  let a := fresh "a" in
  let w := fresh "w" in
  let E := fresh "E" in
  apply bind_Ok_inv in H; destruct H as (a & w & E & H).

(** An invariant indexed by the number of iterations already run. *)
Lemma for_range_invariant {A} (body : A -> M A) (P : nat -> A -> Prop) :
  (forall i a w a' w', P i a -> body a w = Ok a' w' -> P (S i) a') ->
  forall n i acc w r w',
    P i acc -> for_range n body acc w = Ok r w' -> P (n + i)%nat r.
Proof.
  intros Hstep. induction n as [|n IH]; intros i acc w r w' Hacc Hrun; simpl in *.
  - apply ret_Ok_inv in Hrun as [<- _]. exact Hacc.
  - bind_inv Hrun. replace (S (n + i)) with (n + S i)%nat by lia.
    eapply IH; eauto.
Qed.

(** A loop whose body always returns always returns. *)
Lemma for_range_total {A} (body : A -> M A) :
  (forall a w, exists a' w', body a w = Ok a' w') ->
  forall n acc w, exists r w', for_range n body acc w = Ok r w'.
Proof.
  intros Hbody. induction n as [|n IH]; intros acc w; simpl.
  - now exists acc, w.
  - destruct (Hbody acc w) as (a' & w1 & E).
    rewrite (bind_Ok _ _ _ _ _ E). apply IH.
Qed.

(** ** Floats *)

Lemma Qltb_true x y : Qltb x y = true <-> (x < y)%Q.
Proof.
  unfold Qltb. rewrite negb_true_iff. split.
  - intros H. apply Qnot_le_lt. intros Hle.
    apply Qle_bool_iff in Hle. congruence.
  - intros H. destruct (Qle_bool y x) eqn:E; [|reflexivity].
    apply Qle_bool_iff in E. exfalso. apply (Qlt_not_le _ _ H E).
Qed.

Lemma Qltb_false x y : Qltb x y = false <-> (y <= x)%Q.
Proof.
  unfold Qltb. rewrite negb_false_iff. apply Qle_bool_iff.
Qed.

Lemma unit_draw_range w i : (0 <= unit_draw w i)%Q /\ (unit_draw w i < 1)%Q.
Proof.
  unfold unit_draw, Qle, Qlt. simpl.
  pose proof (Z.mod_pos_bound (entropy w i) (2 ^ 53) ltac:(reflexivity)) as [H0 H1].
  change (Z.pos (2 ^ 53)) with (2 ^ 53). lia.
Qed.

Lemma random_random_spec w u w' :
  random_random w = Ok u w' ->
  u = unit_draw w (cursor w) /\ cursor w' = S (cursor w) /\ entropy w' = entropy w.
Proof.
  unfold random_random, bind, next_cell, ret.
  intros H. inversion H; subst. simpl. auto.
Qed.

(** ** generate_random_points: one pass *)

Lemma mean_response_time_defined d c :
  c + 10 <> 0 -> mean_response_time d c = inr (d / inject_Z (c + 10))%Q.
Proof.
  intros Hc. unfold mean_response_time, truediv, count_with_overrun, over_run_count.
  destruct (Qeq_bool (inject_Z (c + 10)) 0) eqn:E; [|reflexivity].
  apply Qeq_bool_iff in E. unfold Qeq in E. simpl in E. lia.
Qed.

Lemma mean_response_time_undefined d c :
  c + 10 = 0 -> mean_response_time d c = inl ZeroDivisionError.
Proof.
  intros Hc. unfold mean_response_time, truediv, count_with_overrun, over_run_count.
  now rewrite Hc.
Qed.

(** What one iteration appends. *)
Lemma point_step_spec d c mean points w points' w' :
  point_step d c mean points w = Ok points' w' ->
  exists u coin,
    (0 <= u)%Q /\ (u < 1)%Q /\
    points' = points ++
      [fuzzed_time mean (fuzz_range_min + (fuzz_range_max d c - fuzz_range_min) * u)%Q coin].
Proof.
  unfold point_step, random_uniform. intros H.
  bind_inv H. bind_inv E. apply random_random_spec in E0 as (-> & _ & _).
  apply ret_Ok_inv in E as [<- <-]. bind_inv H.
  apply ret_Ok_inv in H as [<- _].
  destruct (unit_draw_range w (cursor w)) as [H0 H1].
  eexists _, _. repeat split; eauto.
Qed.

Lemma point_step_total d c mean points w :
  exists points' w', point_step d c mean points w = Ok points' w'.
Proof.
  unfold point_step, random_uniform, random_random, random_choice, randbelow,
    bind, next_cell, ret.
  eexists _, _. reflexivity.
Qed.

Lemma working_points_spec d c w pts w' :
  working_points d c w = Ok pts w' ->
  c + 10 <> 0 /\ length pts = Z.to_nat (c + 20) /\ Forall (candidate d c) pts.
Proof.
  unfold working_points. intros H. bind_inv H.
  destruct (Z.eq_dec (c + 10) 0) as [Hz|Hz].
  { rewrite (mean_response_time_undefined _ _ Hz) in E. discriminate. }
  rewrite (mean_response_time_defined _ _ Hz) in E.
  apply ret_Ok_inv in E as [<- <-]. split; [exact Hz|].
  pose proof (for_range_invariant
                (point_step d c (d / inject_Z (c + 10))%Q)
                (fun i l => length l = i /\ Forall (candidate d c) l)) as Hinv.
  specialize (Hinv ltac:(
    intros i l w1 l' w2 [Hlen Hall] Hs;
    apply point_step_spec in Hs as (u & coin & H0 & H1 & ->);
    split;
    [ rewrite length_app; simpl; lia
    | apply Forall_app; split; [exact Hall|];
      constructor; [exists u, coin; auto | constructor] ])).
  specialize (Hinv _ 0%nat [] w pts w' (conj eq_refl (Forall_nil _)) H).
  destruct Hinv as [Hlen Hall]. split; [|exact Hall].
  rewrite Hlen. unfold count_with_overrun, over_run_count.
  rewrite Nat.add_0_r. f_equal. lia.
Qed.

Lemma working_points_total d c w :
  c + 10 <> 0 -> exists pts w', working_points d c w = Ok pts w'.
Proof.
  intros Hz. unfold working_points.
  rewrite (mean_response_time_defined _ _ Hz). simpl.
  unfold bind at 1. simpl.
  apply for_range_total. intros a w1. apply point_step_total.
Qed.

Lemma firstn_incl {A} (n : nat) (xs : list A) x : In x (firstn n xs) -> In x xs.
Proof.
  intros H. rewrite <- (firstn_skipn n xs). apply in_or_app. now left.
Qed.

Lemma slice_to_nonneg {A} (xs : list A) n :
  0 <= n -> slice_to xs n = firstn (Z.to_nat n) xs.
Proof.
  intros Hn. unfold slice_to. destruct (0 <=? n) eqn:E; [reflexivity|lia].
Qed.

Lemma attempt_spec d c w l w' :
  attempt d c w = Ok l w' ->
  exists pts, working_points d c w = Ok pts w' /\ l = slice_to pts c.
Proof.
  unfold attempt. intros H. bind_inv H.
  apply ret_Ok_inv in H as [<- <-]. eauto.
Qed.

Lemma attempt_total d c w :
  c + 10 <> 0 -> exists l w', attempt d c w = Ok l w'.
Proof.
  intros Hz. destruct (working_points_total d c w Hz) as (pts & w' & E).
  unfold attempt. rewrite (bind_Ok _ _ _ _ _ E). eexists _, _. reflexivity.
Qed.

Lemma attempt_length d c w l w' :
  0 <= c -> attempt d c w = Ok l w' -> Z.of_nat (length l) = c.
Proof.
  intros Hc H. apply attempt_spec in H as (pts & Hw & ->).
  apply working_points_spec in Hw as (_ & Hlen & _).
  rewrite slice_to_nonneg by exact Hc.
  rewrite length_firstn, Hlen. lia.
Qed.

Lemma attempt_candidates d c w l w' :
  0 <= c -> attempt d c w = Ok l w' -> Forall (candidate d c) l.
Proof.
  intros Hc H. apply attempt_spec in H as (pts & Hw & ->).
  apply working_points_spec in Hw as (_ & _ & Hall).
  rewrite slice_to_nonneg by exact Hc.
  rewrite Forall_forall in *. intros x Hx. apply Hall.
  eapply firstn_incl; eauto.
Qed.

(** ** generate_random_points: the retry *)

Lemma generate_random_points_accept depth d c w pts w' :
  attempt d c w = Ok pts w' -> (d < sum pts)%Q ->
  generate_random_points (S depth) d c w = Ok pts w'.
Proof.
  intros E Hs. simpl. rewrite (bind_Ok _ _ _ _ _ E).
  apply Qltb_true in Hs. now rewrite Hs.
Qed.

Lemma generate_random_points_reject depth d c w pts w' :
  attempt d c w = Ok pts w' -> (sum pts <= d)%Q ->
  generate_random_points (S depth) d c w = generate_random_points depth d c w'.
Proof.
  intros E Hs. simpl. rewrite (bind_Ok _ _ _ _ _ E).
  apply Qltb_false in Hs. now rewrite Hs.
Qed.

Lemma generate_random_points_returns depth d c : forall w l w',
  generate_random_points depth d c w = Ok l w' ->
  exists k, (k < depth)%nat /\ nth_attempt d c k w = Ok l w' /\ (d < sum l)%Q /\
    forall j lj wj, (j < k)%nat -> nth_attempt d c j w = Ok lj wj -> (sum lj <= d)%Q.
Proof.
  induction depth as [|depth IH]; intros w l w' H; [discriminate|].
  simpl in H. bind_inv H.
  destruct (Qltb d (sum a)) eqn:Hacc.
  - apply ret_Ok_inv in H as [<- <-]. exists 0%nat.
    repeat split; [lia|exact E|now apply Qltb_true|intros; lia].
  - apply IH in H as (k & Hk & Hnth & Hsum & Hbefore).
    exists (S k). repeat split; [lia| |exact Hsum|].
    + simpl. now rewrite (bind_Ok _ _ _ _ _ E).
    + intros [|j] lj wj Hj Hn; simpl in Hn.
      * rewrite E in Hn. inversion Hn; subst. now apply Qltb_false.
      * rewrite (bind_Ok _ _ _ _ _ E) in Hn. eapply Hbefore; [|exact Hn]. lia.
Qed.

Lemma generate_random_points_first_accepted d c : forall k depth w l w',
  (k < depth)%nat -> nth_attempt d c k w = Ok l w' -> (d < sum l)%Q ->
  (forall j lj wj, (j < k)%nat -> nth_attempt d c j w = Ok lj wj -> (sum lj <= d)%Q) ->
  generate_random_points depth d c w = Ok l w'.
Proof.
  induction k as [|k IH]; intros depth w l w' Hk Hnth Hsum Hbefore;
    (destruct depth as [|depth]; [lia|]).
  - simpl in Hnth. now apply generate_random_points_accept.
  - simpl in Hnth. bind_inv Hnth.
    rewrite (generate_random_points_reject _ _ _ _ _ _ E).
    + apply IH; [lia|exact Hnth|exact Hsum|].
      intros j lj wj Hj Hn. apply (Hbefore (S j) lj wj); [lia|].
      simpl. now rewrite (bind_Ok _ _ _ _ _ E).
    + apply (Hbefore 0%nat a w0); [lia|exact E].
Qed.

Lemma nth_attempt_is_attempt d c : forall k w l w',
  nth_attempt d c k w = Ok l w' -> exists w1, attempt d c w1 = Ok l w'.
Proof.
  induction k as [|k IH]; intros w l w' H; simpl in H.
  - now exists w.
  - bind_inv H. eapply IH; eauto.
Qed.

Lemma generate_random_points_is_attempt depth d c w l w' :
  generate_random_points depth d c w = Ok l w' ->
  exists w1, attempt d c w1 = Ok l w' /\ (d < sum l)%Q.
Proof.
  intros H. apply generate_random_points_returns in H as (k & _ & Hn & Hs & _).
  apply nth_attempt_is_attempt in Hn as (w1 & E). eauto.
Qed.

(** C1: [generate_random_points] returns the truncated list of a pass
    exactly when that list sums to strictly more than [duration]; a list
    that sums to at most [duration] is dropped and the whole procedure runs
    again on the same arguments.  So a call returns [l] iff [l] is the list of
    the first pass whose sum exceeds [duration], every earlier pass having
    been retried. *)
Theorem generate_random_points_polarity (d : Q) (c : Z) (depth : nat) (w : World) :
  (forall pts w', attempt d c w = Ok pts w' -> (d < sum pts)%Q ->
     generate_random_points (S depth) d c w = Ok pts w') /\
  (forall pts w', attempt d c w = Ok pts w' -> (sum pts <= d)%Q ->
     generate_random_points (S depth) d c w = generate_random_points depth d c w') /\
  (forall l w',
     generate_random_points depth d c w = Ok l w' <->
     exists k, (k < depth)%nat /\ nth_attempt d c k w = Ok l w' /\ (d < sum l)%Q /\
       forall j lj wj, (j < k)%nat -> nth_attempt d c j w = Ok lj wj -> (sum lj <= d)%Q).
Proof.
  split; [|split].
  - intros pts w'. apply generate_random_points_accept.
  - intros pts w'. apply generate_random_points_reject.
  - intros l w'. split.
    + apply generate_random_points_returns.
    + intros (k & Hk & Hn & Hs & Hb).
      eapply generate_random_points_first_accepted; eauto.
Qed.

(** C6: whenever [generate_random_points] returns for a count that is not
    negative, the returned list has exactly [count] entries: it is the first
    [count] entries of a working list of [count + 2 * 10] candidates, cut
    before the sum is checked. *)
Theorem generate_random_points_length (d : Q) (c : Z) (depth : nat) (w : World)
    (l : list Q) (w' : World) :
  0 <= c ->
  generate_random_points depth d c w = Ok l w' ->
  Z.of_nat (length l) = c /\
  exists w1 pts,
    working_points d c w1 = Ok pts w' /\
    Z.of_nat (length pts) = c + 2 * 10 /\
    l = firstn (Z.to_nat c) pts.
Proof.
  intros Hc H. apply generate_random_points_is_attempt in H as (w1 & E & _).
  split; [eapply attempt_length; eauto|].
  apply attempt_spec in E as (pts & Hw & ->). exists w1, pts.
  split; [exact Hw|]. split.
  - apply working_points_spec in Hw as (_ & Hlen & _). rewrite Hlen. lia.
  - now apply slice_to_nonneg.
Qed.

Lemma generate_random_points_length_witness :
  exists l w',
    generate_random_points 1 86400 4 high_then_zero = Ok l w' /\
    Z.of_nat (length l) = 4.
Proof.
  eexists. eexists. split.
  - vm_compute. reflexivity.
  - eapply (generate_random_points_length 86400 4 1 high_then_zero).
    + lia.
    + vm_compute. reflexivity.
Defined.

(** C5 (as the code has it): in every pass the mean spacing is
    [duration / (count + 10)], the denominator being [count_with_overrun];
    [count + 2 * 10] is the number of candidates the loop draws, each built
    from that mean and a fuzz between [fuzz_range_min] and [fuzz_range_max]. *)
Theorem working_points_mean (d : Q) (c : Z) (w : World) (pts : list Q) (w' : World) :
  working_points d c w = Ok pts w' ->
  mean_response_time d c = inr (d / inject_Z (c + 10))%Q /\
  length pts = Z.to_nat (c + 2 * 10) /\
  Forall (candidate d c) pts.
Proof.
  intros H. apply working_points_spec in H as (Hz & Hlen & Hall).
  split; [now apply mean_response_time_defined|]. split; assumption.
Qed.

Lemma working_points_mean_witness :
  exists pts w',
    working_points 60 10 high_then_zero = Ok pts w' /\
    mean_response_time 60 10 = inr (60 / inject_Z (10 + 10))%Q /\
    length pts = 30%nat.
Proof.
  eexists. eexists. split.
  - vm_compute. reflexivity.
  - split.
    + eapply (working_points_mean 60 10 high_then_zero). vm_compute. reflexivity.
    + reflexivity.
Defined.

(** C5 (as the specification words it) fails: for [duration = 60] and
    [count = 10] the code's mean is [60 / 20 = 3], not [60 / 30 = 2]. *)
Lemma mean_is_not_spec_mean :
  exists m, mean_response_time 60 10 = inr m /\ (m == 3)%Q /\ ~ (m == spec_mean 60 10)%Q.
Proof.
  eexists. split; [reflexivity|]. split; [reflexivity|]. discriminate.
Qed.

(** ** Inputs on which no pass is ever accepted *)

Lemma sum_singleton p : (sum [p] == p)%Q.
Proof. unfold sum. simpl. lra. Qed.

Lemma length_one {A} (l : list A) : Z.of_nat (length l) = 1 -> exists x, l = [x].
Proof.
  destruct l as [|x [|y l]]; simpl; intros H; try lia. now exists x.
Qed.

Lemma candidate_100_1_bound p : candidate 100 1 p -> (p <= 100)%Q.
Proof.
  intros (u & coin & H0 & H1 & ->).
  unfold fuzz_range_min, fuzz_range_max, over_run_count.
  change (inject_Z (1 + 10)) with 11%Q. change (inject_Z (1 + 10 * 2)) with 21%Q.
  assert (Hm : (100 / 11 == 100 # 11)%Q) by reflexivity.
  destruct coin; unfold fuzzed_time.
  - rewrite Hm. clear Hm. lra.
  - unfold max2. destruct (Qltb _ _); [clear Hm; lra|].
    rewrite Hm. clear Hm. lra.
Qed.

Lemma never_accepted_100_1 : never_accepted 100 1.
Proof.
  intros w. destruct (attempt_total 100 1 w ltac:(lia)) as (l & w' & E).
  exists l, w'. split; [exact E|].
  assert (Hc : 0 <= 1) by lia.
  pose proof (attempt_length _ _ _ _ _ Hc E) as Hlen.
  pose proof (attempt_candidates _ _ _ _ _ Hc E) as Hall.
  apply length_one in Hlen as (p & ->).
  rewrite sum_singleton. apply candidate_100_1_bound.
  now inversion Hall.
Qed.

Lemma never_accepted_never_returns d c :
  never_accepted d c ->
  forall depth w, generate_random_points depth d c w = Raise RecursionError.
Proof.
  intros Hnever. induction depth as [|depth IH]; intros w; [reflexivity|].
  destruct (Hnever w) as (pts & w' & E & Hs).
  rewrite (generate_random_points_reject _ _ _ _ _ _ E Hs). apply IH.
Qed.

(** C4: some valid inputs can never be accepted ([duration = 100],
    [count = 1] is one: every pass yields a list that sums to at most 100),
    and on every input that can never be accepted the function never
    returns: whatever is drawn and however deep the interpreter lets the
    recursion go, each call retries until the depth is used up. *)
Theorem generate_random_points_retries_forever :
  (exists d c, (0 <= d)%Q /\ 0 < c /\ never_accepted d c) /\
  (forall d c, never_accepted d c ->
     forall depth w, generate_random_points depth d c w = Raise RecursionError).
Proof.
  split.
  - exists 100%Q, 1. split; [lra|]. split; [lia|]. exact never_accepted_100_1.
  - exact never_accepted_never_returns.
Qed.

(** ** Offsets and instants outside the window *)

(** With [count = 1] the accepted list is a single offset, and the
    acceptance test makes it exceed [duration]. *)
Lemma single_offset_exceeds_duration d depth w l w' :
  generate_random_points depth d 1 w = Ok l w' ->
  exists p, l = [p] /\ (d < p)%Q.
Proof.
  intros H. apply generate_random_points_is_attempt in H as (w1 & E & Hs).
  apply attempt_length in E; [|lia].
  apply length_one in E as (p & ->). exists p. split; [reflexivity|].
  now rewrite sum_singleton in Hs.
Qed.

Lemma overflowing_pass :
  exists l w', attempt 86400 1 high_then_zero = Ok l w' /\ (86400 < sum l)%Q.
Proof. eexists. eexists. split; vm_compute; reflexivity. Qed.

Lemma overflowing_run depth :
  exists p w',
    generate_random_points (S depth) 86400 1 high_then_zero = Ok [p] w' /\
    (86400 < p)%Q.
Proof.
  destruct overflowing_pass as (l & w' & E & Hs).
  pose proof (generate_random_points_accept depth _ _ _ _ _ E Hs) as Hrun.
  destruct (single_offset_exceeds_duration _ _ _ _ _ Hrun) as (p & -> & Hp).
  exists p, w'. auto.
Qed.

(** C2 (the code at [duration = 86400], [count = 1]): the call returns a
    single offset that is larger than [duration], so outside [[1, duration]]. *)
Theorem generate_random_points_offset_above_duration :
  forall depth, exists p w',
    generate_random_points (S depth) 86400 1 high_then_zero = Ok [p] w' /\
    ~ ((1 <= p)%Q /\ (p <= 86400)%Q).
Proof.
  intros depth. destruct (overflowing_run depth) as (p & w' & E & Hp).
  exists p, w'. split; [exact E|]. intros [_ Hle].
  apply (Qlt_not_le _ _ Hp Hle).
Qed.

(** C3 (the code at [start] = 2023-01-01T00:00:00, [end] = 2023-01-02T00:00:00
    in epoch seconds, [count = 1]): the timeline has one instant, and it lies
    after [end]. *)
Theorem generate_random_message_datetimes_after_end :
  forall depth, exists t w',
    generate_random_message_datetimes (S depth) 1672531200 1672617600 1 high_then_zero
      = Ok [t] w' /\
    (1672617600 < t)%Q.
Proof.
  intros depth. destruct (overflowing_run depth) as (p & w' & E & Hp).
  exists (1672531200 + p)%Q, w'. split.
  - unfold generate_random_message_datetimes.
    change (inject_Z (int_of_float (1672617600 - 1672531200))) with 86400%Q.
    now rewrite (bind_Ok _ _ _ _ _ E).
  - lra.
Qed.

(** With [count = 1] every timeline that is returned has its instant after
    [end], whatever is drawn. *)
Lemma single_instant_after_end depth start end_ w l w' :
  (start <= end_)%Q ->
  generate_random_message_datetimes depth start end_ 1 w = Ok l w' ->
  exists t, l = [t] /\ (inject_Z (int_of_float (end_ - start)) < t - start)%Q.
Proof.
  intros Hse H. unfold generate_random_message_datetimes in H. bind_inv H.
  apply ret_Ok_inv in H as [<- _].
  apply single_offset_exceeds_duration in E as (p & -> & Hp).
  exists (start + p)%Q. split; [reflexivity|]. lra.
Qed.

(** ** generate_distant_style_ids *)

Lemma getitem_in_range {A} (xs : list A) (i : Z) (d : A) :
  0 <= i < Z.of_nat (length xs) -> getitem xs i = inr (nth (Z.to_nat i) xs d).
Proof.
  intros [H0 H1]. unfold getitem.
  destruct (i <? 0) eqn:E; [lia|]. rewrite E.
  rewrite (nth_error_nth' xs d) by lia. reflexivity.
Qed.

Lemma comprehension_total {A B} (f : A -> exn + B) (g : A -> B) (xs : list A) :
  (forall x, In x xs -> f x = inr (g x)) -> comprehension f xs = inr (map g xs).
Proof.
  induction xs as [|x xs IH]; intros H; simpl; [reflexivity|].
  rewrite (H x (or_introl eq_refl)), IH; [reflexivity|].
  intros y Hy. apply H. now right.
Qed.

Lemma firstn_seq_le (n m s : nat) : (n <= m)%nat -> firstn n (seq s m) = seq s n.
Proof.
  revert m s. induction n as [|n IH]; intros m s H; [reflexivity|].
  destruct m as [|m]; [lia|]. simpl. f_equal. apply IH. lia.
Qed.

(** The list the function returns for [1 <= n <= len]: the identifiers at
    positions [0], [step], [2 * step], ... with [step = len // n]. *)
Lemma generate_distant_style_ids_value cfg n :
  let available_ids := map fst (Config.STYLE_ID_TO_COLOR cfg) in
  let len := Z.of_nat (length available_ids) in
  1 <= n <= len ->
  ParticipantGenerator.generate_distant_style_ids cfg n
  = inr (map (fun i => nth (Z.to_nat (0 + Z.of_nat i * (len / n))) available_ids 0)
             (seq 0 (Z.to_nat n))).
Proof.
  intros available_ids len [Hn1 Hn2].
  unfold ParticipantGenerator.generate_distant_style_ids.
  fold available_ids. fold len.
  destruct (len <? n) eqn:E; [lia|]. clear E.
  unfold floordiv. destruct (n =? 0) eqn:E; [lia|]. clear E.
  assert (Hstep : 0 < len / n) by (apply Z.div_str_pos; lia).
  assert (Hmul : n * (len / n) <= len) by (apply Z.mul_div_le; lia).
  unfold range3. destruct (len / n =? 0) eqn:E; [lia|]. clear E.
  destruct (0 <? len / n) eqn:E; [|lia]. clear E.
  set (step := len / n) in *.
  set (m := Z.to_nat ((len - 0 + step - 1) / step)).
  assert (Hm : Z.of_nat m * step <= len + step - 1).
  { unfold m. rewrite Z2Nat.id by (apply Z.div_pos; lia).
    rewrite Z.mul_comm. replace (len - 0 + step - 1) with (len + step - 1) by lia.
    apply Z.mul_div_le. lia. }
  assert (Hnm : (Z.to_nat n <= m)%nat).
  { unfold m. apply Z2Nat.inj_le; [lia|apply Z.div_pos; lia|].
    apply Z.div_le_lower_bound; lia. }
  rewrite (comprehension_total _ (fun j => nth (Z.to_nat j) available_ids 0)).
  - rewrite slice_to_nonneg by lia.
    rewrite map_map, firstn_map, firstn_seq_le by exact Hnm. reflexivity.
  - intros j Hj. apply in_map_iff in Hj as (i & <- & Hi).
    apply in_seq in Hi. apply getitem_in_range. fold len. nia.
Qed.

(** C8 (as the code has it): a request for more identifiers than there are
    raises [ValueError] at once; for [1 <= n <= len] the call returns exactly
    [n] identifiers, all of them available ones: those at positions
    [i * (len // n)] for [i < n]. *)
Theorem generate_distant_style_ids_spec (cfg : Config.t) (n : Z) :
  (Z.of_nat (length (map fst (Config.STYLE_ID_TO_COLOR cfg))) < n ->
     ParticipantGenerator.generate_distant_style_ids cfg n = inl ValueError) /\
  (1 <= n <= Z.of_nat (length (map fst (Config.STYLE_ID_TO_COLOR cfg))) ->
     exists ids,
       ParticipantGenerator.generate_distant_style_ids cfg n = inr ids /\
       Z.of_nat (length ids) = n /\
       (forall x, In x ids -> In x (map fst (Config.STYLE_ID_TO_COLOR cfg))) /\
       (forall i, (i < Z.to_nat n)%nat ->
          nth_error ids i =
          nth_error (map fst (Config.STYLE_ID_TO_COLOR cfg))
            (i * Z.to_nat (Z.of_nat (length (map fst (Config.STYLE_ID_TO_COLOR cfg))) / n)))).
Proof.
  set (available_ids := map fst (Config.STYLE_ID_TO_COLOR cfg)).
  set (len := Z.of_nat (length available_ids)).
  split.
  - intros H. unfold ParticipantGenerator.generate_distant_style_ids.
    fold available_ids. fold len.
    destruct (len <? n) eqn:E; [reflexivity|lia].
  - intros H. rewrite (generate_distant_style_ids_value cfg n H).
    fold available_ids. fold len. eexists. split; [reflexivity|].
    assert (Hstep : 0 < len / n) by (apply Z.div_str_pos; lia).
    assert (Hmul : n * (len / n) <= len) by (apply Z.mul_div_le; lia).
    assert (Hpos : forall i, (i < Z.to_nat n)%nat ->
                     (Z.to_nat (0 + Z.of_nat i * (len / n)) < length available_ids)%nat).
    { intros i Hi. apply Nat2Z.inj_lt. rewrite Z2Nat.id by nia. fold len. nia. }
    split; [|split].
    + rewrite length_map, length_seq. lia.
    + intros x Hx. apply in_map_iff in Hx as (i & <- & Hi).
      apply in_seq in Hi. apply nth_In. apply Hpos. lia.
    + intros i Hi.
      rewrite nth_error_map, nth_error_nth' with (d := 0%nat) by (rewrite length_seq; lia).
      rewrite seq_nth by lia. simpl option_map.
      replace (i * Z.to_nat (len / n))%nat with (Z.to_nat (0 + Z.of_nat (0 + i) * (len / n)))
        by (rewrite Z2Nat.inj_add, Z2Nat.inj_mul, Nat2Z.id by lia; simpl; lia).
      symmetry. apply nth_error_nth'. apply (Hpos (0 + i)%nat). lia.
Qed.

(** C8 (as stated) fails at [n = 0], which is at most the number of
    available identifiers: the call raises [ZeroDivisionError] instead of
    returning an empty list. *)
Lemma generate_distant_style_ids_zero :
  0 <= Z.of_nat (length (map fst (Config.STYLE_ID_TO_COLOR sample_config))) /\
  ParticipantGenerator.generate_distant_style_ids sample_config 0
  = inl ZeroDivisionError.
Proof. split; [simpl; lia|reflexivity]. Qed.

(** ** weighted_random_message_count *)

Lemma bisect_right_le (a : list Q) (x : Q) (hi : nat) : (bisect_right a x hi <= hi)%nat.
Proof.
  revert a. induction hi as [|hi IH]; intros [|y a]; simpl; try lia.
  destruct (Qle_bool y x); [|lia]. specialize (IH a). lia.
Qed.

Lemma random_choices1_spec {A} (population : list A) (weights : list Q) (w : World) :
  population <> [] ->
  length weights = length population ->
  (0 < last (accumulate 0 weights) 0)%Q ->
  exists a w',
    random_choices1 population weights w = Ok a w' /\ In a population /\
    normal_src w' = normal_src w /\ normal_cursor w' = normal_cursor w.
Proof.
  intros Hne Hlen Htotal. destruct population as [|x population]; [congruence|].
  unfold random_choices1. rewrite Hlen, Nat.eqb_refl. simpl negb. cbv iota zeta.
  destruct (Qle_bool (last (accumulate 0 weights) 0) 0)%Q eqn:E.
  { apply Qle_bool_iff in E. exfalso. apply (Qlt_not_le _ _ Htotal E). }
  unfold bind, random_random, next_cell, ret. cbv beta iota.
  eexists. eexists. split; [reflexivity|]. split; [|split; reflexivity].
  apply nth_In.
  match goal with |- (bisect_right ?a ?x ?hi < _)%nat =>
    pose proof (bisect_right_le a x hi) end.
  simpl length in *. lia.
Qed.

(** C7: [weighted_random_message_count] always returns an integer between 1
    and 50: a member of [{1, 2, 3, 4}] from the small discrete branch, or the
    [gauss(25, 10)] draw truncated to an integer and clamped to [[1, 50]]. *)
Theorem weighted_random_message_count_range (w : World) :
  exists n w',
    weighted_random_message_count w = Ok n w' /\
    1 <= n <= 50 /\
    (In n [1; 2; 3; 4] \/
     n = Z.max 1 (Z.min 50 (int_of_float (25 + normal_src w (normal_cursor w) * 10)%Q))).
Proof.
  unfold weighted_random_message_count.
  destruct (random_choices1_spec [1; 2] [(1 # 2)%Q; (1 # 2)%Q] w)
    as (c1 & w1 & E1 & Hin1 & Hsrc & Hcur);
    [discriminate|reflexivity|reflexivity|].
  rewrite (bind_Ok _ _ _ _ _ E1).
  destruct Hin1 as [<-|[<-|[]]]; cbv beta; simpl Z.eqb; cbv iota.
  - destruct (random_choices1_spec [1; 2; 3; 4]
                [(3 # 10)%Q; (3 # 10)%Q; (2 # 10)%Q; (2 # 10)%Q] w1)
      as (n & w2 & E2 & Hin2 & _);
      [discriminate|reflexivity|reflexivity|].
    exists n, w2. split; [exact E2|]. split; [|now left].
    simpl in Hin2. lia.
  - unfold bind, random_gauss, ret. cbv beta iota zeta.
    eexists. eexists. split; [reflexivity|]. rewrite Hsrc, Hcur.
    split; [lia|now right].
Qed.

(** ** generate_exhibit *)

Lemma total_ret {A} (a : A) : total (ret a).
Proof. intros w. now exists a, w. Qed.

Lemma total_bind {A B} (m : M A) (k : A -> M B) :
  total m -> (forall a, total (k a)) -> total (bind m k).
Proof.
  intros Hm Hk w. destruct (Hm w) as (a & w1 & E).
  rewrite (bind_Ok _ _ _ _ _ E). apply Hk.
Qed.

Lemma total_uuid4_str : total uuid4_str.
Proof. intros w. eexists. eexists. reflexivity. Qed.

Lemma total_datetime_now : total datetime_now.
Proof. intros w. eexists. eexists. reflexivity. Qed.

Lemma total_random_choice {A} (seq : list A) : seq <> [] -> total (random_choice seq).
Proof.
  intros Hne w. destruct seq as [|x seq]; [congruence|].
  eexists. eexists. reflexivity.
Qed.

Lemma total_random_randint a b : a <= b -> total (random_randint a b).
Proof.
  intros Hab w. unfold random_randint.
  destruct (b + 1 - a <=? 0) eqn:E; [lia|]. eexists. eexists. reflexivity.
Qed.

Lemma total_for_range {A} (n : nat) (body : A -> M A) (acc : A) :
  (forall a, total (body a)) -> total (for_range n body acc).
Proof. intros Hbody w. now apply for_range_total. Qed.

Lemma random_randint_range a b w k w' :
  random_randint a b w = Ok k w' -> a <= k <= b.
Proof.
  unfold random_randint. destruct (b + 1 - a <=? 0) eqn:E; [discriminate|].
  unfold bind, randbelow, next_cell, ret. intros H. inversion H; subst.
  pose proof (Z.mod_pos_bound (entropy w (cursor w)) (b + 1 - a)). lia.
Qed.

Lemma allowed_chars_nonempty : ExhibitGenerator.allowed_chars <> [].
Proof. intros H. apply (f_equal (@length ascii)) in H. vm_compute in H. discriminate. Qed.

Lemma total_generate_random_exhibit_ID : total ExhibitGenerator.generate_random_exhibit_ID.
Proof.
  unfold ExhibitGenerator.generate_random_exhibit_ID.
  apply total_bind; [|intros; apply total_ret].
  apply total_for_range. intros acc.
  apply total_bind; [|intros; apply total_ret].
  apply total_random_choice, allowed_chars_nonempty.
Qed.

Lemma total_generate_exhibit case_data : total (ExhibitGenerator.generate_exhibit case_data).
Proof.
  unfold ExhibitGenerator.generate_exhibit.
  apply total_bind; [exact total_uuid4_str|intros exhibit_uuid].
  apply total_bind; [exact total_generate_random_exhibit_ID|intros police_id].
  apply total_bind; [apply total_random_randint; lia|intros k].
  apply total_bind; [exact total_datetime_now|intros now].
  do 5 (apply total_bind; [apply total_random_randint; lia|intros ?]).
  apply total_bind; [|intros first; apply total_ret].
  simpl. apply total_ret.
Qed.

Lemma generate_exhibit_returned case_data w e w' :
  ExhibitGenerator.generate_exhibit case_data w = Ok e w' ->
  exists k,
    1 <= k <= 20 /\
    Exhibit.exhibit_number e = PyTuple [PyInt k] /\
    Exhibit.name e =
      (CaseData.case_number case_data ++ "_" ++ str_of_int k
       ++ " (" ++ Exhibit.police_number e ++ ")")%string.
Proof.
  unfold ExhibitGenerator.generate_exhibit. intros H.
  do 9 bind_inv H. simpl in H. apply ret_Ok_inv in H as [<- _].
  exists a1. split; [eapply random_randint_range; eauto|].
  split; reflexivity.
Qed.

(** C10: every [Exhibit] that [generate_exhibit] returns (and it always
    returns one) carries in [exhibit_number] a one-element tuple holding the
    [randint(1, 20)] draw, not an integer, and its name is built from the
    first element of that tuple. *)
Theorem generate_exhibit_number_is_tuple (case_data : CaseData.t) (w : World) :
  exists e w' k,
    ExhibitGenerator.generate_exhibit case_data w = Ok e w' /\
    1 <= k <= 20 /\
    Exhibit.exhibit_number e = PyTuple [PyInt k] /\
    (forall n, Exhibit.exhibit_number e <> PyInt n) /\
    subscript (Exhibit.exhibit_number e) 0 = inr (PyInt k) /\
    Exhibit.name e =
      (CaseData.case_number case_data ++ "_" ++ str_of_int k
       ++ " (" ++ Exhibit.police_number e ++ ")")%string.
Proof.
  destruct (total_generate_exhibit case_data w) as (e & w' & E).
  destruct (generate_exhibit_returned _ _ _ _ E) as (k & Hk & Hnum & Hname).
  exists e, w', k. repeat split; try tauto.
  - intros n Hn. rewrite Hnum in Hn. discriminate.
  - rewrite Hnum. reflexivity.
Qed.

(** ** generate_message *)

Lemma uuid4_str_spec w s w' :
  uuid4_str w = Ok s w' -> cursor w' = cursor w /\ entropy w' = entropy w.
Proof. unfold uuid4_str. intros H. inversion H; subst. simpl. auto. Qed.

(** C9: the message [generate_message] returns has [send_datetime] equal to
    [ref_dt] exactly when [sent_status] is true and [None] otherwise, where
    [sent_status] is decided by the second [random()] draw of the call
    against [SENT_LIKELIHOOD].  An unsent message therefore has no send
    time, although the sort of [_generate_messages] and the dict of [save]
    use [send_datetime] as the key of every message: the sort key is [None]
    and building the [save] key raises [AttributeError]. *)
Theorem generate_message_send_datetime
    (os_path_join : string -> string -> string) (cfg : Config.t) (ref_dt : Q)
    (participant_uuid exhibit_uuid platform_name : string)
    (w : World) (msg : Message.t) (atts : list Attachment.t) (w' : World) :
  generate_message os_path_join cfg ref_dt participant_uuid exhibit_uuid platform_name w
    = Ok (msg, atts) w' ->
  Message.sent_status msg
    = Qltb (unit_draw w (S (cursor w))) (Config.SENT_LIKELIHOOD cfg) /\
  Message.send_datetime msg = (if Message.sent_status msg then Some ref_dt else None) /\
  (Message.send_datetime msg = Some ref_dt <-> Message.sent_status msg = true) /\
  (Message.sent_status msg = false ->
     Message.send_datetime msg = None /\
     ChatBuilder.sort_key msg = None /\
     (forall other, ChatBuilder.key_lt (ChatBuilder.sort_key msg) other = inl TypeError) /\
     forall isoformat, ChatBuilder.save_key isoformat msg = inl AttributeError).
Proof.
  unfold generate_message. intros H.
  do 11 bind_inv H. cbv beta zeta in H.
  apply ret_Ok_inv in H as [H _]. inversion H; subst; clear H. simpl.
  apply uuid4_str_spec in E as [Hc0 He0].
  apply random_random_spec in E0 as (_ & Hc1 & He1).
  apply random_random_spec in E1 as (-> & _ & _).
  assert (Hu : unit_draw w1 (cursor w1) = unit_draw w (S (cursor w))).
  { unfold unit_draw. now rewrite He1, He0, Hc1, Hc0. }
  rewrite Hu. split; [reflexivity|].
  unfold ChatBuilder.sort_key, ChatBuilder.save_key. simpl.
  destruct (Qltb (unit_draw w (S (cursor w))) (Config.SENT_LIKELIHOOD cfg)).
  - split; [reflexivity|]. split; [tauto|]. discriminate.
  - split; [reflexivity|]. split; [split; discriminate|]. auto.
Qed.

Lemma generate_message_send_datetime_witness :
  exists msg atts w',
    generate_message append sample_config 1672531200 "p" "x" "Chat" all_high
      = Ok (msg, atts) w' /\
    Message.sent_status msg = false /\
    Message.send_datetime msg = None.
Proof.
  eexists. eexists. eexists. split; [vm_compute; reflexivity|].
  split; [reflexivity|].
  apply (generate_message_send_datetime append sample_config 1672531200
           "p" "x" "Chat" all_high _ _ _ ltac:(vm_compute; reflexivity)).
  reflexivity.
Defined.

(** ** Concrete runs *)

(** A pass that fits under the duration is retried, the next one, which
    overflows it, is returned. *)
Example generate_random_points_second_pass :
  generate_random_points 1 86400 1 high_in_second_pass = Raise RecursionError /\
  exists p w',
    generate_random_points 2 86400 1 high_in_second_pass = Ok [p] w' /\
    cursor w' = 84%nat /\ (86400 < p)%Q.
Proof.
  split; [vm_compute; reflexivity|].
  eexists. eexists. split; [vm_compute; reflexivity|].
  split; vm_compute; reflexivity.
Qed.

Example generate_distant_style_ids_runs :
  ParticipantGenerator.generate_distant_style_ids sample_config 1 = inr [1] /\
  ParticipantGenerator.generate_distant_style_ids sample_config 2 = inr [1; 2] /\
  ParticipantGenerator.generate_distant_style_ids sample_config 3 = inr [1; 2; 3] /\
  ParticipantGenerator.generate_distant_style_ids sample_config 4 = inl ValueError /\
  ParticipantGenerator.generate_distant_style_ids sample_config (-1) = inr [].
Proof. repeat split. Qed.

Example generate_exhibit_run :
  exists e w',
    ExhibitGenerator.generate_exhibit sample_case high_then_zero = Ok e w' /\
    Exhibit.exhibit_number e = PyTuple [PyInt 1] /\
    Exhibit.police_number e = "Qaaaaa"%string /\
    Exhibit.name e = "HTCG24001_1 (Qaaaaa)"%string.
Proof.
  eexists. eexists. split; [vm_compute; reflexivity|]. repeat split.
Qed.

Example weighted_random_message_count_runs :
  (exists w', weighted_random_message_count high_then_zero = Ok 25 w') /\
  (exists w', weighted_random_message_count
                (mkWorld (fun _ => 0) 0 (fun _ => 0%Q) 0 (fun _ => EmptyString) 0 0%Q)
              = Ok 1 w').
Proof. split; eexists; vm_compute; reflexivity. Qed.

(** * Further properties of the module *)

(** ** random_datetime and generate_datetime_range *)

Lemma int_of_float_nonneg x :
  (0 <= x)%Q -> 0 <= int_of_float x /\ (inject_Z (int_of_float x) <= x)%Q.
Proof.
  destruct x as [n d]. unfold Qle, int_of_float. simpl. intros Hn.
  assert (H0 : 0 <= n) by lia.
  split; [apply Z.quot_pos; lia|].
  pose proof (Z.mul_quot_le n (Z.pos d) H0 ltac:(lia)). lia.
Qed.

Lemma int_of_float_le_minus_one x : (x <= -1)%Q -> int_of_float x <= -1.
Proof.
  destruct x as [n d]. unfold Qle, int_of_float. simpl. intros Hn.
  assert (Hle : n <= - Z.pos d) by lia.
  apply (Z.quot_le_mono _ _ (Z.pos d)) in Hle; [|lia].
  rewrite Z.quot_opp_l, Z.quot_same in Hle by lia. exact Hle.
Qed.

Lemma int_of_float_small_negative x : (-1 < x)%Q -> (x < 0)%Q -> int_of_float x = 0.
Proof.
  destruct x as [n d]. unfold Qlt, int_of_float. simpl. intros H1 H0.
  apply Z.quot_small_iff; lia.
Qed.

Lemma random_randint_returns a b w :
  a <= b -> exists k w', random_randint a b w = Ok k w' /\ a <= k <= b.
Proof.
  intros Hab. destruct (total_random_randint a b Hab w) as (k & w' & E).
  exists k, w'. split; [exact E|]. eapply random_randint_range; eauto.
Qed.

Lemma random_randint_empty a b w : b < a -> random_randint a b w = Raise ValueError.
Proof.
  intros Hab. unfold random_randint. destruct (b + 1 - a <=? 0) eqn:E; [reflexivity|lia].
Qed.



(** X2: when [end] is a second or more before [start], [random_datetime]
    raises [ValueError]; when it is less than a second before [start], the
    call returns [start] itself, which is after [end]. *)
Theorem random_datetime_reversed (start end_ : Q) (w : World) :
  ((end_ - start <= -1)%Q ->
     DateTimeGenerator.random_datetime start end_ w = Raise ValueError) /\
  ((-1 < end_ - start)%Q -> (end_ - start < 0)%Q ->
     exists t w',
       DateTimeGenerator.random_datetime start end_ w = Ok t w' /\
       (t == start)%Q /\ (end_ < t)%Q).
Proof.
  unfold DateTimeGenerator.random_datetime. split.
  - intros H. apply int_of_float_le_minus_one in H.
    apply bind_Raise. apply random_randint_empty. lia.
  - intros H1 H0. rewrite (int_of_float_small_negative _ H1 H0).
    destruct (random_randint_returns 0 0 w ltac:(lia)) as (k & w' & E & Hk).
    rewrite (bind_Ok _ _ _ _ _ E). exists (start + inject_Z k)%Q, w'.
    split; [reflexivity|].
    assert (k = 0) by lia. subst k. split; [unfold inject_Z; lra|].
    unfold inject_Z. lra.
Qed.

Lemma random_datetime_returned start end_ w t w' :
  (start <= end_)%Q ->
  DateTimeGenerator.random_datetime start end_ w = Ok t w' ->
  (start <= t)%Q /\ (t <= end_)%Q.
Proof.
  intros Hse. unfold DateTimeGenerator.random_datetime. intros H.
  bind_inv H. apply ret_Ok_inv in H as [<- _].
  apply random_randint_range in E.
  destruct (int_of_float_nonneg (end_ - start)%Q ltac:(lra)) as [H0 H1].
  assert (Hk0 : (0 <= inject_Z a)%Q) by (unfold Qle; simpl; lia).
  assert (Hk1 : (inject_Z a <= inject_Z (int_of_float (end_ - start)))%Q)
    by (unfold Qle; simpl; lia).
  split; lra.
Qed.

Lemma random_datetime_runs start end_ w :
  (start <= end_)%Q ->
  exists t w', DateTimeGenerator.random_datetime start end_ w = Ok t w'.
Proof.
  intros Hse. unfold DateTimeGenerator.random_datetime.
  destruct (int_of_float_nonneg (end_ - start)%Q ltac:(lra)) as [H0 _].
  destruct (random_randint_returns 0 _ w H0) as (k & w' & E & _).
  rewrite (bind_Ok _ _ _ _ _ E). eexists. eexists. reflexivity.
Qed.

(** X3: [generate_datetime_range] always returns a pair with
    2023-01-01T00:00:00 <= start <= end <= 2024-12-31T23:59:59. *)
Theorem generate_datetime_range_ordered (w : World) :
  exists start end_ w',
    DateTimeGenerator.generate_datetime_range w = Ok (start, end_) w' /\
    (DateTimeGenerator.start_range <= start)%Q /\
    (start <= end_)%Q /\
    (end_ <= DateTimeGenerator.end_range)%Q.
Proof.
  unfold DateTimeGenerator.generate_datetime_range.
  assert (Hrange : (DateTimeGenerator.start_range <= DateTimeGenerator.end_range)%Q)
    by (unfold Qle; simpl; lia).
  destruct (random_datetime_runs _ _ w Hrange) as (s & w1 & E1).
  destruct (random_datetime_returned _ _ _ _ _ Hrange E1) as [Hs0 Hs1].
  destruct (random_datetime_runs _ _ w1 Hs1) as (e & w2 & E2).
  destruct (random_datetime_returned _ _ _ _ _ Hs1 E2) as [He0 He1].
  rewrite (bind_Ok _ _ _ _ _ E1), (bind_Ok _ _ _ _ _ E2).
  exists s, e, w2. repeat split; assumption.
Qed.

(** ** generate_random_points: bounds and inputs that never return *)

Lemma candidate_bounds d c p :
  0 <= c -> (inject_Z (c + 21) <= d)%Q -> candidate d c p ->
  (1 <= p)%Q /\ (p <= d / inject_Z (c + 10) + (d - inject_Z (c + 20)))%Q.
Proof.
  intros Hc Hd (u & coin & H0 & H1 & ->).
  unfold fuzz_range_min, fuzz_range_max, over_run_count.
  replace (c + 10 * 2) with (c + 20) by lia.
  assert (H21 : (inject_Z (c + 21) == inject_Z (c + 20) + 1)%Q).
  { replace (c + 21) with (c + 20 + 1) by lia. rewrite inject_Z_plus. reflexivity. }
  set (F := (d - inject_Z (c + 20))%Q) in *.
  assert (HF : (1 <= F)%Q) by (unfold F; lra).
  assert (Hmean : (0 <= d / inject_Z (c + 10))%Q).
  { apply Qle_shift_div_l.
    - unfold Qlt. simpl. lia.
    - assert (0 <= inject_Z (c + 20))%Q by (unfold Qle; simpl; lia). lra. }
  set (mean := (d / inject_Z (c + 10))%Q) in *.
  assert (Hu0 : (0 <= (F - 1) * u)%Q) by (apply Qmult_le_0_compat; lra).
  assert (Hu1 : ((F - 1) * u <= (F - 1) * 1)%Q).
  { rewrite !(Qmult_comm (F - 1)). apply Qmult_le_compat_r; lra. }
  destruct coin; unfold fuzzed_time.
  - lra.
  - unfold max2. destruct (Qltb (mean - (1 + (F - 1) * u)) 1) eqn:E.
    + lra.
    + apply Qltb_false in E. lra.
Qed.



Lemma sum_from acc l : (fold_left Qplus l acc == acc + sum l)%Q.
Proof.
  unfold sum. revert acc. induction l as [|x l IH]; intros acc; simpl.
  - lra.
  - rewrite (IH (acc + x)%Q), (IH (0 + x)%Q). lra.
Qed.

Lemma sum_cons x l : (sum (x :: l) == x + sum l)%Q.
Proof. unfold sum at 1. simpl. rewrite sum_from. lra. Qed.

Lemma sum_le_bound (B : Q) l :
  Forall (fun p => (p <= B)%Q) l -> (sum l <= inject_Z (Z.of_nat (length l)) * B)%Q.
Proof.
  induction 1 as [|x l Hx Hl IH].
  - unfold sum. simpl. change (inject_Z 0) with 0%Q. lra.
  - rewrite sum_cons. simpl length. rewrite Nat2Z.inj_succ.
    unfold Z.succ. rewrite inject_Z_plus. change (inject_Z 1) with 1%Q. lra.
Qed.

(** X5: a window that cannot overflow is retried for ever.  For a positive
    count with [duration >= count + 21], if [count] offsets at their largest,
    [duration / (count + 10) + duration - (count + 20)] each, still sum to at
    most [duration], the call never returns a list, whatever is drawn and
    whatever depth the interpreter allows. *)
Theorem generate_random_points_cannot_overflow (d : Q) (c : Z) (depth : nat) (w : World) :
  0 < c -> (inject_Z (c + 21) <= d)%Q ->
  (inject_Z c * (d / inject_Z (c + 10) + (d - inject_Z (c + 20))) <= d)%Q ->
  generate_random_points depth d c w = Raise RecursionError.
Proof.
  intros Hc Hd Hfit. apply never_accepted_never_returns. clear depth w.
  intros w. destruct (attempt_total d c w ltac:(lia)) as (l & w' & E).
  exists l, w'. split; [exact E|].
  assert (Hc0 : 0 <= c) by lia.
  pose proof (attempt_length _ _ _ _ _ Hc0 E) as Hlen.
  pose proof (attempt_candidates _ _ _ _ _ Hc0 E) as Hall.
  assert (Hb : Forall (fun p => (p <= d / inject_Z (c + 10) + (d - inject_Z (c + 20)))%Q) l).
  { eapply Forall_impl; [|exact Hall]. intros p Hp.
    now apply (candidate_bounds d c p Hc0 Hd). }
  apply sum_le_bound in Hb. rewrite Hlen in Hb. lra.
Qed.

Lemma generate_random_points_cannot_overflow_witness :
  generate_random_points 50 231 1 all_high = Raise RecursionError.
Proof.
  apply (generate_random_points_cannot_overflow 231 1 50 all_high).
  - lia.
  - unfold Qle. simpl. lia.
  - unfold Qle. simpl. lia.
Defined.

(** X6: the edge counts.  With [count = 0] the truncated list is empty and
    sums to 0: a negative duration returns the empty list at once, any other
    duration is retried for ever.  With [count = -10] the mean divides by
    zero and every call raises [ZeroDivisionError]. *)
Theorem generate_random_points_edge_counts (d : Q) (depth : nat) (w : World) :
  ((0 <= d)%Q -> generate_random_points depth d 0 w = Raise RecursionError) /\
  ((d < 0)%Q -> exists w', generate_random_points (S depth) d 0 w = Ok [] w') /\
  generate_random_points (S depth) d (-10) w = Raise ZeroDivisionError.
Proof.
  assert (Hempty : forall w0, exists w', attempt d 0 w0 = Ok [] w').
  { intros w0. destruct (attempt_total d 0 w0 ltac:(lia)) as (l & w' & E).
    pose proof (attempt_length _ _ _ _ _ (Z.le_refl 0) E) as Hlen.
    destruct l; [|simpl in Hlen; lia]. now exists w'. }
  split; [|split].
  - intros Hd. apply never_accepted_never_returns.
    intros w0. destruct (Hempty w0) as (w' & E). exists [], w'.
    split; [exact E|]. unfold sum. simpl. exact Hd.
  - intros Hd. destruct (Hempty w) as (w' & E). exists w'.
    apply generate_random_points_accept; [exact E|]. unfold sum. simpl. exact Hd.
  - simpl. apply bind_Raise. unfold attempt. apply bind_Raise.
    unfold working_points. apply bind_Raise.
    now rewrite mean_response_time_undefined.
Qed.

(** ** generate_random_message_datetimes and generate_message_timeline *)

(** X7: for a count that is not negative, a returned timeline has exactly
    [count] instants, each of them [start] plus an offset, and the offsets
    sum to more than the whole seconds between [start] and [end]. *)
Theorem generate_random_message_datetimes_shape (depth : nat) (start end_ : Q) (c : Z)
    (w : World) (l : list Q) (w' : World) :
  0 <= c ->
  generate_random_message_datetimes depth start end_ c w = Ok l w' ->
  Z.of_nat (length l) = c /\
  exists deltas,
    l = map (fun delta => start + delta)%Q deltas /\
    (inject_Z (int_of_float (end_ - start)) < sum deltas)%Q.
Proof.
  intros Hc H. unfold generate_random_message_datetimes in H. bind_inv H.
  apply ret_Ok_inv in H as [<- _].
  apply generate_random_points_is_attempt in E as (w1 & E & Hs).
  split.
  - rewrite length_map. eapply attempt_length; eauto.
  - exists a. split; [reflexivity|exact Hs].
Qed.

Lemma generate_random_message_datetimes_shape_witness :
  exists l w',
    generate_random_message_datetimes 1 1672531200 1672617600 4 high_then_zero
      = Ok l w' /\
    Z.of_nat (length l) = 4.
Proof.
  eexists. eexists. split.
  - vm_compute. reflexivity.
  - eapply (generate_random_message_datetimes_shape 1 1672531200 1672617600 4
              high_then_zero).
    + lia.
    + vm_compute. reflexivity.
Defined.

Lemma weighted_random_message_count_returned w n w' :
  weighted_random_message_count w = Ok n w' -> 1 <= n <= 50.
Proof.
  unfold weighted_random_message_count. intros H. bind_inv H.
  destruct (random_choices1_spec [1; 2] [(1 # 2)%Q; (1 # 2)%Q] w)
    as (c1 & w1 & E1 & Hin1 & _); [discriminate|reflexivity|reflexivity|].
  rewrite E in E1. inversion E1; subst c1 w1; clear E1.
  destruct Hin1 as [<-|[<-|[]]].
  - change (1 =? 1) with true in H. cbv iota in H.
    destruct (random_choices1_spec [1; 2; 3; 4]
                [(3 # 10)%Q; (3 # 10)%Q; (2 # 10)%Q; (2 # 10)%Q] w0)
      as (m & w2 & E2 & Hin2 & _); [discriminate|reflexivity|reflexivity|].
    rewrite H in E2. inversion E2; subst m w2. simpl in Hin2. lia.
  - change (2 =? 1) with false in H. cbv iota in H.
    bind_inv H. apply ret_Ok_inv in H as [<- _]. lia.
Qed.

Lemma generate_random_message_datetimes_length depth start end_ c w l w' :
  0 <= c ->
  generate_random_message_datetimes depth start end_ c w = Ok l w' ->
  Z.of_nat (length l) = c.
Proof.
  intros Hc H. unfold generate_random_message_datetimes in H. bind_inv H.
  apply ret_Ok_inv in H as [<- _].
  apply generate_random_points_is_attempt in E as (w1 & E & _).
  rewrite length_map. eapply attempt_length; eauto.
Qed.

(** X8: a timeline that [generate_message_timeline] returns has as many
    instants as the positive [message_count] it was given; when the count is
    [None] or [0] the count is drawn instead, and the timeline has between 1
    and 50 instants. *)
Theorem generate_message_timeline_length (depth : nat) (start end_ : option Q)
    (message_count : option Z) (w : World) (l : list Q) (w' : World) :
  generate_message_timeline depth start end_ message_count w = Ok l w' ->
  (forall c, message_count = Some c -> 0 < c -> Z.of_nat (length l) = c) /\
  (message_count = None \/ message_count = Some 0 -> 1 <= Z.of_nat (length l) <= 50).
Proof.
  unfold generate_message_timeline. intros H. bind_inv H. bind_inv H.
  split.
  - intros c -> Hc. destruct (c =? 0) eqn:Ec; [lia|].
    apply ret_Ok_inv in E0 as [<- <-].
    eapply generate_random_message_datetimes_length; [|exact H]. lia.
  - intros Hm.
    assert (Hw : weighted_random_message_count w0 = Ok a0 w1)
      by (destruct Hm as [->| ->]; exact E0).
    apply weighted_random_message_count_returned in Hw.
    apply generate_random_message_datetimes_length in H; lia.
Qed.

Lemma generate_message_timeline_length_witness :
  exists l w',
    generate_message_timeline 1 None None (Some 0) high_even = Ok l w' /\
    1 <= Z.of_nat (length l) <= 50.
Proof.
  eexists. eexists. split.
  - vm_compute. reflexivity.
  - eapply (generate_message_timeline_length 1 None None (Some 0) high_even).
    + vm_compute. reflexivity.
    + now right.
Defined.

(** ** generate_attachment and generate_message *)

Lemma random_choice_In {A} (seq : list A) w a w' :
  random_choice seq w = Ok a w' -> In a seq.
Proof.
  destruct seq as [|x seq]; [discriminate|].
  unfold random_choice. intros H. bind_inv H. apply ret_Ok_inv in H as [<- _].
  unfold randbelow in E. bind_inv E. apply ret_Ok_inv in E as [<- _].
  apply nth_In.
  match goal with
  | |- context [?z mod ?n] =>
      assert (Hn : 0 < n) by (simpl; lia);
      pose proof (Z.mod_pos_bound z n Hn)
  end.
  lia.
Qed.

(** The functions that only read entropy leave the other sources alone. *)
Lemma random_choice_frame {A} (seq : list A) w a w' :
  random_choice seq w = Ok a w' ->
  uuid_src w' = uuid_src w /\ uuid_cursor w' = uuid_cursor w.
Proof.
  destruct seq as [|x seq]; [discriminate|].
  unfold random_choice. intros H. bind_inv H. apply ret_Ok_inv in H as [_ <-].
  unfold randbelow in E. bind_inv E. apply ret_Ok_inv in E as [_ <-].
  unfold next_cell in E0. inversion E0; subst. simpl. auto.
Qed.

Lemma random_choice_empty {A} w : @random_choice A [] w = Raise IndexError.
Proof. reflexivity. Qed.

Lemma lift_Ok_inv {A} (r : exn + A) w a w' : lift r w = Ok a w' -> r = inr a /\ w = w'.
Proof.
  destruct r as [e|x]; simpl; [discriminate|].
  intros H. apply ret_Ok_inv in H as [-> ->]. auto.
Qed.

Lemma generate_attachment_returned os_path_join cfg attachment_type message_uuid
    sender_uuid w a w' :
  AttachmentGenerator.generate_attachment os_path_join cfg attachment_type
    message_uuid sender_uuid w = Ok a w' ->
  Attachment.type a = attachment_type /\
  Attachment.uuid a = uuid_src w (uuid_cursor w) /\
  attachment_of os_path_join cfg message_uuid sender_uuid a.
Proof.
  unfold AttachmentGenerator.generate_attachment. intros H.
  bind_inv H. apply lift_Ok_inv in E as [Hget <-].
  bind_inv H. apply random_choice_In in E as Hin.
  destruct (random_choice_frame _ _ _ _ E) as [Hu1 Hu2].
  bind_inv H. apply ret_Ok_inv in H as [<- _].
  unfold uuid4_str in E0. inversion E0; subst. simpl.
  split; [reflexivity|]. split; [now rewrite Hu1, Hu2|].
  exists a0. simpl. auto.
Qed.

(** X9: [generate_attachment] raises [KeyError] for a type that is not
    configured and [IndexError] for a type without files; an attachment it
    returns has the requested type, a file of that type joined to the type's
    path, and the message and sender identifiers it was given. *)
Theorem generate_attachment_spec (os_path_join : string -> string -> string)
    (cfg : Config.t) (attachment_type message_uuid sender_uuid : string) (w : World) :
  (dict_get (Config.ATTACHMENT_TYPES cfg) attachment_type = inl KeyError ->
     AttachmentGenerator.generate_attachment os_path_join cfg attachment_type
       message_uuid sender_uuid w = Raise KeyError) /\
  (forall type_config,
     dict_get (Config.ATTACHMENT_TYPES cfg) attachment_type = inr type_config ->
     Config.files type_config = [] ->
     AttachmentGenerator.generate_attachment os_path_join cfg attachment_type
       message_uuid sender_uuid w = Raise IndexError) /\
  (forall type_config,
     dict_get (Config.ATTACHMENT_TYPES cfg) attachment_type = inr type_config ->
     Config.files type_config <> [] ->
     exists a w',
       AttachmentGenerator.generate_attachment os_path_join cfg attachment_type
         message_uuid sender_uuid w = Ok a w' /\
       Attachment.type a = attachment_type /\
       In (Attachment.file_name a) (Config.files type_config) /\
       Attachment.file_location a
         = os_path_join (Config.path type_config) (Attachment.file_name a) /\
       Attachment.message_uuid a = message_uuid /\
       Attachment.sender_uuid a = sender_uuid).
Proof.
  unfold AttachmentGenerator.generate_attachment. split; [|split].
  - intros Hget. rewrite Hget. reflexivity.
  - intros tc Hget Hfiles. rewrite Hget. simpl. unfold bind at 1. simpl.
    rewrite Hfiles. reflexivity.
  - intros tc Hget Hfiles. rewrite Hget. simpl. unfold bind at 1. simpl.
    destruct (total_random_choice _ Hfiles w) as (f & w1 & E).
    rewrite (bind_Ok _ _ _ _ _ E). apply random_choice_In in E.
    eexists. eexists. split; [reflexivity|]. simpl. auto.
Qed.

Lemma and_chance_returned status likelihood w b w' :
  and_chance status likelihood w = Ok b w' -> b = true -> status = true.
Proof.
  destruct status; [reflexivity|]. unfold and_chance. intros H.
  apply ret_Ok_inv in H as [<- _]. discriminate.
Qed.

Lemma delayed_datetime_returned cfg status key ref_dt w o w' :
  delayed_datetime cfg status key ref_dt w = Ok o w' ->
  delay_outcome cfg status key ref_dt o.
Proof.
  unfold delayed_datetime, delay_outcome. destruct status; intros H.
  - bind_inv H. apply lift_Ok_inv in E as [Hget <-]. bind_inv H.
    apply ret_Ok_inv in H as [<- _]. destruct a as [lo hi].
    exists lo, hi, a0. split; [exact Hget|]. split; [|reflexivity].
    eapply random_randint_range; eauto.
  - now apply ret_Ok_inv in H as [<- _].
Qed.

Lemma attachments_loop_returned os_path_join cfg message_uuid sender_uuid n w l w' :
  for_range n
    (fun acc =>
       attachment_type <- random_choice (map fst (Config.ATTACHMENT_TYPES cfg)) ;;
       a <- AttachmentGenerator.generate_attachment os_path_join cfg
              attachment_type message_uuid sender_uuid ;;
       ret (acc ++ [a])) [] w = Ok l w' ->
  length l = n /\ Forall (attachment_of os_path_join cfg message_uuid sender_uuid) l.
Proof.
  intros H.
  eapply (for_range_invariant _
            (fun i acc => length acc = i /\
               Forall (attachment_of os_path_join cfg message_uuid sender_uuid) acc))
    with (i := 0%nat) in H.
  - rewrite Nat.add_0_r in H. exact H.
  - intros i acc w1 acc' w2 [Hlen Hall] Hs. bind_inv Hs. bind_inv Hs.
    apply ret_Ok_inv in Hs as [<- _].
    apply generate_attachment_returned in E0 as (_ & _ & Hof).
    split; [rewrite length_app; simpl; lia|].
    apply Forall_app. split; [exact Hall|]. constructor; [exact Hof|constructor].
  - split; [reflexivity|constructor].
Qed.

(** Everything [generate_message] fixes about the pair it returns. *)
Lemma generate_message_returned os_path_join cfg ref_dt participant_uuid exhibit_uuid
    platform_name w msg atts w' :
  generate_message os_path_join cfg ref_dt participant_uuid exhibit_uuid platform_name w
    = Ok (msg, atts) w' ->
  Message.sender_uuid msg = participant_uuid /\
  Message.uuid msg = uuid_src w (uuid_cursor w) /\
  Message.platform_name msg = platform_name /\
  Message.exhibit_uuid msg = exhibit_uuid /\
  In (Message.text msg) (Config.MESSAGE_TEXTS cfg) /\
  (Message.delivered_status msg = true -> Message.sent_status msg = true) /\
  (Message.read_status msg = true -> Message.delivered_status msg = true) /\
  delay_outcome cfg (Message.delivered_status msg) "DELIVERY_DELAY" ref_dt
    (Message.delivered_datetime msg) /\
  delay_outcome cfg (Message.read_status msg) "READ_DELAY" ref_dt
    (Message.read_datetime msg) /\
  delay_outcome cfg (Message.deleted_status msg) "DELETE_DELAY" ref_dt
    (Message.deleted_datetime msg) /\
  (if Message.has_attachment msg then (1 <= length atts <= 4)%nat else atts = []) /\
  Forall (attachment_of os_path_join cfg (Message.uuid msg) participant_uuid) atts.
Proof.
  unfold generate_message. intros H.
  do 11 bind_inv H. cbv beta zeta in H.
  apply ret_Ok_inv in H as [H _]. inversion H; subst; clear H. simpl.
  unfold uuid4_str in E. inversion E; subst; clear E.
  split; [reflexivity|]. split; [reflexivity|]. split; [reflexivity|].
  split; [reflexivity|]. split; [eapply random_choice_In; eauto|].
  split; [eapply and_chance_returned; eauto|].
  split; [eapply and_chance_returned; eauto|].
  split; [eapply delayed_datetime_returned; eauto|].
  split; [eapply delayed_datetime_returned; eauto|].
  split; [eapply delayed_datetime_returned; eauto|].
  match goal with
  | Hatt : (if ?b then _ else _) _ = Ok _ _ |- _ => rename Hatt into Hatts; destruct b
  end.
  - bind_inv Hatts. apply random_randint_range in E.
    apply attachments_loop_returned in Hatts as [Hlen Hall].
    split; [lia|exact Hall].
  - apply ret_Ok_inv in Hatts as [<- _]. split; [reflexivity|constructor].
Qed.

Lemma delay_outcome_status cfg status key ref_dt o :
  delay_outcome cfg status key ref_dt o -> (o = None <-> status = false).
Proof.
  destruct status; simpl.
  - intros (lo & hi & k & _ & _ & ->). split; discriminate.
  - intros ->. tauto.
Qed.

Lemma delay_outcome_instant cfg status key ref_dt o t :
  delay_outcome cfg status key ref_dt o -> o = Some t ->
  exists lo hi k,
    dict_get (Config.MESSAGE_TIMING cfg) key = inr (lo, hi) /\
    lo <= k <= hi /\ t = (ref_dt + inject_Z k)%Q.
Proof.
  destruct status; simpl.
  - intros (lo & hi & k & Hget & Hk & ->) Ht. inversion Ht; subst.
    exists lo, hi, k. auto.
  - intros -> Ht. discriminate.
Qed.

(** X10: in every message [generate_message] returns, a read message is
    delivered and a delivered message is sent, and each of the delivered,
    read and deleted instants is present exactly when its status is true. *)
Theorem generate_message_status_chain
    (os_path_join : string -> string -> string) (cfg : Config.t) (ref_dt : Q)
    (participant_uuid exhibit_uuid platform_name : string)
    (w : World) (msg : Message.t) (atts : list Attachment.t) (w' : World) :
  generate_message os_path_join cfg ref_dt participant_uuid exhibit_uuid platform_name w
    = Ok (msg, atts) w' ->
  (Message.read_status msg = true -> Message.delivered_status msg = true) /\
  (Message.delivered_status msg = true -> Message.sent_status msg = true) /\
  (Message.delivered_datetime msg = None <-> Message.delivered_status msg = false) /\
  (Message.read_datetime msg = None <-> Message.read_status msg = false) /\
  (Message.deleted_datetime msg = None <-> Message.deleted_status msg = false).
Proof.
  intros H. apply generate_message_returned in H
    as (_ & _ & _ & _ & _ & Hds & Hrd & Hd & Hr & Hx & _).
  split; [exact Hrd|]. split; [exact Hds|].
  split; [eapply delay_outcome_status; eauto|].
  split; eapply delay_outcome_status; eauto.
Qed.

Lemma generate_message_status_chain_witness :
  exists msg atts w',
    generate_message append sample_config 1672531200 "p" "x" "Chat" all_zero
      = Ok (msg, atts) w' /\
    Message.read_status msg = true /\
    Message.delivered_status msg = true /\
    Message.sent_status msg = true.
Proof.
  eexists. eexists. eexists. split; [vm_compute; reflexivity|].
  split; [reflexivity|].
  pose proof (generate_message_status_chain append sample_config 1672531200
                "p" "x" "Chat" all_zero _ _ _ ltac:(vm_compute; reflexivity))
    as (Hrd & Hds & _).
  split; [apply Hrd; reflexivity|apply Hds, Hrd; reflexivity].
Defined.

(** X11: every delivered, read or deleted instant of a returned message is
    [ref_dt] plus a whole number of seconds within the range that
    [MESSAGE_TIMING] gives under ["DELIVERY_DELAY"], ["READ_DELAY"] or
    ["DELETE_DELAY"]. *)
Theorem generate_message_delays
    (os_path_join : string -> string -> string) (cfg : Config.t) (ref_dt : Q)
    (participant_uuid exhibit_uuid platform_name : string)
    (w : World) (msg : Message.t) (atts : list Attachment.t) (w' : World) :
  generate_message os_path_join cfg ref_dt participant_uuid exhibit_uuid platform_name w
    = Ok (msg, atts) w' ->
  forall key field,
    (key, field) = ("DELIVERY_DELAY"%string, Message.delivered_datetime msg) \/
    (key, field) = ("READ_DELAY"%string, Message.read_datetime msg) \/
    (key, field) = ("DELETE_DELAY"%string, Message.deleted_datetime msg) ->
    forall t, field = Some t ->
    exists lo hi k,
      dict_get (Config.MESSAGE_TIMING cfg) key = inr (lo, hi) /\
      lo <= k <= hi /\ t = (ref_dt + inject_Z k)%Q.
Proof.
  intros H key field Hkf t Ht. apply generate_message_returned in H
    as (_ & _ & _ & _ & _ & _ & _ & Hd & Hr & Hx & _).
  destruct Hkf as [Hkf|[Hkf|Hkf]]; inversion Hkf; subst;
    eapply delay_outcome_instant; eauto.
Qed.

Lemma generate_message_delays_witness :
  exists msg atts w' t,
    generate_message append sample_config 1672531200 "p" "x" "Chat" all_zero
      = Ok (msg, atts) w' /\
    Message.read_datetime msg = Some t /\
    exists lo hi k,
      dict_get (Config.MESSAGE_TIMING sample_config) "READ_DELAY" = inr (lo, hi) /\
      lo <= k <= hi /\ t = (1672531200 + inject_Z k)%Q.
Proof.
  eexists. eexists. eexists. eexists. split; [vm_compute; reflexivity|].
  split; [reflexivity|].
  eapply (generate_message_delays append sample_config 1672531200
            "p" "x" "Chat" all_zero _ _ _ ltac:(vm_compute; reflexivity)
            "READ_DELAY"%string).
  - right. left. reflexivity.
  - reflexivity.
Defined.

(** X12: a returned message without attachment flag comes with no
    attachment; with the flag it comes with one to four, and each of them is
    of a configured type, names a file of that type under the type's path,
    and carries the message's identifier and the sender's. *)
Theorem generate_message_attachments
    (os_path_join : string -> string -> string) (cfg : Config.t) (ref_dt : Q)
    (participant_uuid exhibit_uuid platform_name : string)
    (w : World) (msg : Message.t) (atts : list Attachment.t) (w' : World) :
  generate_message os_path_join cfg ref_dt participant_uuid exhibit_uuid platform_name w
    = Ok (msg, atts) w' ->
  (Message.has_attachment msg = false -> atts = []) /\
  (Message.has_attachment msg = true -> (1 <= length atts <= 4)%nat) /\
  Forall (attachment_of os_path_join cfg (Message.uuid msg) (Message.sender_uuid msg)) atts.
Proof.
  intros H. apply generate_message_returned in H
    as (Hs & _ & _ & _ & _ & _ & _ & _ & _ & _ & Hn & Hall).
  rewrite Hs. split; [|split; [|exact Hall]].
  - intros Hf. now rewrite Hf in Hn.
  - intros Ht. now rewrite Ht in Hn.
Qed.

Lemma generate_message_attachments_witness :
  exists msg atts w',
    generate_message append sample_config 1672531200 "p" "x" "Chat" all_zero
      = Ok (msg, atts) w' /\
    Message.has_attachment msg = true /\
    (1 <= length atts <= 4)%nat.
Proof.
  eexists. eexists. eexists. split; [vm_compute; reflexivity|].
  split; [reflexivity|].
  apply (generate_message_attachments append sample_config 1672531200
           "p" "x" "Chat" all_zero _ _ _ ltac:(vm_compute; reflexivity)).
  reflexivity.
Defined.

(** X13: a returned message carries the sender, exhibit and platform it
    was given and a text taken from [MESSAGE_TEXTS]; with an empty
    [MESSAGE_TEXTS] no call returns a message, every call raises. *)
Theorem generate_message_text
    (os_path_join : string -> string -> string) (cfg : Config.t) (ref_dt : Q)
    (participant_uuid exhibit_uuid platform_name : string) (w : World) :
  (forall msg atts w',
     generate_message os_path_join cfg ref_dt participant_uuid exhibit_uuid
       platform_name w = Ok (msg, atts) w' ->
     Message.sender_uuid msg = participant_uuid /\
     Message.exhibit_uuid msg = exhibit_uuid /\
     Message.platform_name msg = platform_name /\
     In (Message.text msg) (Config.MESSAGE_TEXTS cfg)) /\
  (Config.MESSAGE_TEXTS cfg = [] ->
     exists e,
       generate_message os_path_join cfg ref_dt participant_uuid exhibit_uuid
         platform_name w = Raise e).
Proof.
  split.
  - intros msg atts w' H. apply generate_message_returned in H
      as (Hs & _ & Hp & He & Ht & _). auto.
  - intros Hempty.
    destruct (generate_message os_path_join cfg ref_dt participant_uuid exhibit_uuid
                platform_name w) as [[msg atts] w'|e] eqn:E; [|now exists e].
    apply generate_message_returned in E as (_ & _ & _ & _ & Ht & _).
    rewrite Hempty in Ht. destruct Ht.
Qed.

(** ** generate_random_exhibit_ID and generate_exhibit *)

Lemma length_string_of_list_ascii (l : list ascii) :
  String.length (string_of_list_ascii l) = length l.
Proof. induction l as [|c l IH]; simpl; [reflexivity|now rewrite IH]. Qed.

Lemma remove_char_In c x s : In c (remove_char x s) -> In c s /\ c <> x.
Proof.
  unfold remove_char. intros H. apply filter_In in H as [Hin Hneq].
  split; [exact Hin|]. apply negb_true_iff in Hneq. now apply Ascii.eqb_neq.
Qed.

Lemma allowed_chars_spec c :
  In c ExhibitGenerator.allowed_chars ->
  In c (list_ascii_of_string (ExhibitGenerator.ascii_letters ++ ExhibitGenerator.digits)) /\
  c <> "I"%char /\ c <> "l"%char /\ c <> "O"%char /\ c <> "0"%char.
Proof.
  unfold ExhibitGenerator.allowed_chars. intros H.
  apply remove_char_In in H as [H H0]. apply remove_char_In in H as [H HO].
  apply remove_char_In in H as [H Hl]. apply remove_char_In in H as [H HI].
  auto.
Qed.

(** X14: [generate_random_exhibit_ID] always returns an identifier of
    exactly six characters, each an ASCII letter or digit and none of them
    one of the look-alikes [I], [l], [O] and [0]. *)
Theorem generate_random_exhibit_ID_spec (w : World) :
  exists s w',
    ExhibitGenerator.generate_random_exhibit_ID w = Ok s w' /\
    String.length s = 6%nat /\
    forall c, In c (list_ascii_of_string s) ->
      In c (list_ascii_of_string
              (ExhibitGenerator.ascii_letters ++ ExhibitGenerator.digits)) /\
      c <> "I"%char /\ c <> "l"%char /\ c <> "O"%char /\ c <> "0"%char.
Proof.
  destruct (total_generate_random_exhibit_ID w) as (s & w' & E).
  exists s, w'. split; [exact E|].
  unfold ExhibitGenerator.generate_random_exhibit_ID in E. bind_inv E.
  apply ret_Ok_inv in E as [<- _].
  eapply (for_range_invariant _
            (fun i acc => length acc = i /\
               Forall (fun c => In c ExhibitGenerator.allowed_chars) acc))
    with (i := 0%nat) in E0.
  - destruct E0 as [Hlen Hall]. split.
    + now rewrite length_string_of_list_ascii.
    + intros c Hc. rewrite list_ascii_of_string_of_list_ascii in Hc.
      rewrite Forall_forall in Hall. now apply allowed_chars_spec, Hall.
  - intros i acc w1 acc' w2 [Hlen Hall] Hs. bind_inv Hs.
    apply ret_Ok_inv in Hs as [<- _]. apply random_choice_In in E.
    split; [rewrite length_app; simpl; lia|].
    apply Forall_app. split; [exact Hall|]. constructor; [exact E|constructor].
  - split; [reflexivity|constructor].
Qed.

Lemma datetime_now_returned w t w' : datetime_now w = Ok t w' -> t = clock w.
Proof. unfold datetime_now. intros H. now inversion H. Qed.

Lemma uuid4_str_returned w s w' : uuid4_str w = Ok s w' -> s = uuid_src w (uuid_cursor w).
Proof. unfold uuid4_str. intros H. now inversion H. Qed.

Lemma keeps_clock_ret {A} (a : A) : keeps_clock (ret a).
Proof. intros w b w' H. now apply ret_Ok_inv in H as [_ <-]. Qed.

Lemma keeps_clock_bind {A B} (m : M A) (k : A -> M B) :
  keeps_clock m -> (forall a, keeps_clock (k a)) -> keeps_clock (bind m k).
Proof.
  intros Hm Hk w b w' H. bind_inv H.
  rewrite (Hk _ _ _ _ H). eapply Hm; eauto.
Qed.

Lemma keeps_clock_next_cell : keeps_clock next_cell.
Proof. intros w a w' H. unfold next_cell in H. now inversion H. Qed.

Lemma keeps_clock_randbelow n : keeps_clock (randbelow n).
Proof.
  apply keeps_clock_bind; [exact keeps_clock_next_cell|intros; apply keeps_clock_ret].
Qed.

Lemma keeps_clock_random_choice {A} (seq : list A) : keeps_clock (random_choice seq).
Proof.
  destruct seq as [|x seq]; [intros w a w' H; discriminate|].
  apply keeps_clock_bind; [apply keeps_clock_randbelow|intros; apply keeps_clock_ret].
Qed.

Lemma keeps_clock_random_randint a b : keeps_clock (random_randint a b).
Proof.
  unfold random_randint. destruct (b + 1 - a <=? 0); [intros w k w' H; discriminate|].
  apply keeps_clock_bind; [apply keeps_clock_randbelow|intros; apply keeps_clock_ret].
Qed.

Lemma keeps_clock_uuid4_str : keeps_clock uuid4_str.
Proof. intros w a w' H. unfold uuid4_str in H. now inversion H. Qed.

Lemma keeps_clock_for_range {A} (n : nat) (body : A -> M A) :
  (forall a, keeps_clock (body a)) -> forall acc, keeps_clock (for_range n body acc).
Proof.
  intros Hbody. induction n as [|n IH]; intros acc; simpl.
  - apply keeps_clock_ret.
  - apply keeps_clock_bind; [apply Hbody|exact IH].
Qed.

Lemma keeps_clock_generate_random_exhibit_ID :
  keeps_clock ExhibitGenerator.generate_random_exhibit_ID.
Proof.
  apply keeps_clock_bind; [|intros; apply keeps_clock_ret].
  apply keeps_clock_for_range. intros acc.
  apply keeps_clock_bind; [apply keeps_clock_random_choice|intros; apply keeps_clock_ret].
Qed.

Lemma timedelta_bounds days hours minutes seconds milliseconds :
  1 <= days <= 5 -> 1 <= hours <= 24 -> 1 <= minutes <= 61 ->
  1 <= seconds <= 61 -> 1 <= milliseconds <= 1001 ->
  (90061001 # 1000 <= timedelta days hours minutes seconds milliseconds)%Q /\
  (timedelta days hours minutes seconds milliseconds <= 522122001 # 1000)%Q.
Proof.
  intros Hd Hh Hm Hs Hms. unfold timedelta.
  set (whole := days * 86400 + hours * 3600 + minutes * 60 + seconds).
  assert (H1 : (90061 <= inject_Z whole)%Q) by (unfold Qle; simpl; unfold whole; lia).
  assert (H2 : (inject_Z whole <= 522121)%Q) by (unfold Qle; simpl; unfold whole; lia).
  assert (H3 : (1 # 1000 <= inject_Z milliseconds / 1000)%Q)
    by (unfold Qle, Qdiv, Qmult, Qinv; simpl; lia).
  assert (H4 : (inject_Z milliseconds / 1000 <= 1001 # 1000)%Q)
    by (unfold Qle, Qdiv, Qmult, Qinv; simpl; lia).
  set (fraction := (inject_Z milliseconds / 1000)%Q) in *.
  clearbody whole fraction. split; lra.
Qed.

(** X15: the exhibit [generate_exhibit] returns belongs to the case it was
    given, takes its identifier from [uuid4], and has an extraction date
    between 90061.001 s (1 d 1 h 1 min 1.001 s) and 522122.001 s before the
    current time. *)
Theorem generate_exhibit_fields (case_data : CaseData.t) (w : World) :
  exists e w',
    ExhibitGenerator.generate_exhibit case_data w = Ok e w' /\
    Exhibit.case_id e = CaseData.case_number case_data /\
    Exhibit.uuid e = uuid_src w (uuid_cursor w) /\
    (90061001 # 1000 <= clock w - Exhibit.extraction_date e)%Q /\
    (clock w - Exhibit.extraction_date e <= 522122001 # 1000)%Q.
Proof.
  destruct (total_generate_exhibit case_data w) as (e & w' & E).
  exists e, w'. split; [exact E|].
  revert E. unfold ExhibitGenerator.generate_exhibit. intros E.
  do 10 bind_inv E. apply ret_Ok_inv in E as [<- _].
  cbn [Exhibit.case_id Exhibit.uuid Exhibit.extraction_date].
  apply keeps_clock_uuid4_str in E0 as Hc0.
  apply keeps_clock_generate_random_exhibit_ID in E1 as Hc1.
  apply keeps_clock_random_randint in E2 as Hc2.
  apply datetime_now_returned in E3 as Hnow.
  apply uuid4_str_returned in E0 as Huuid.
  split; [reflexivity|]. split; [exact Huuid|].
  apply random_randint_range in E4, E5, E6, E7, E8.
  destruct (timedelta_bounds _ _ _ _ _ E4 E5 E6 E7 E8) as [Hlo Hhi].
  rewrite Hnow, Hc2, Hc1, Hc0.
  set (delta := timedelta a3 a4 a5 a6 a7) in *. clearbody delta. split; lra.
Qed.

(** ** class ParticipantGenerator *)

(** X16: when the keys of [STYLE_ID_TO_COLOR] are distinct, as the keys of
    a dict are, the identifiers returned for [1 <= n <= len] are pairwise
    distinct. *)
Theorem generate_distant_style_ids_distinct (cfg : Config.t) (n : Z) :
  NoDup (map fst (Config.STYLE_ID_TO_COLOR cfg)) ->
  1 <= n <= Z.of_nat (length (map fst (Config.STYLE_ID_TO_COLOR cfg))) ->
  exists ids,
    ParticipantGenerator.generate_distant_style_ids cfg n = inr ids /\ NoDup ids.
Proof.
  intros Hnd Hn. rewrite (generate_distant_style_ids_value cfg n Hn).
  set (available_ids := map fst (Config.STYLE_ID_TO_COLOR cfg)) in *.
  set (len := Z.of_nat (length available_ids)) in *.
  eexists. split; [reflexivity|].
  assert (Hstep : 0 < len / n) by (apply Z.div_str_pos; lia).
  assert (Hmul : n * (len / n) <= len) by (apply Z.mul_div_le; lia).
  apply NoDup_map_NoDup_ForallPairs; [|apply seq_NoDup].
  intros i j Hi Hj Heq. apply in_seq in Hi, Hj.
  apply (proj1 (NoDup_nth available_ids 0) Hnd) in Heq.
  - apply Z2Nat.inj in Heq; nia.
  - apply Nat2Z.inj_lt. rewrite Z2Nat.id by nia. fold len. nia.
  - apply Nat2Z.inj_lt. rewrite Z2Nat.id by nia. fold len. nia.
Qed.

Lemma generate_distant_style_ids_distinct_witness :
  exists ids,
    ParticipantGenerator.generate_distant_style_ids sample_config 2 = inr ids /\
    NoDup ids.
Proof.
  apply (generate_distant_style_ids_distinct sample_config 2).
  - simpl. repeat constructor; simpl; intuition discriminate.
  - simpl. lia.
Defined.

(** X17: what [generate_distant_style_ids] does outside [1 <= n]: [n = 0]
    raises [ZeroDivisionError]; a negative [n] returns the empty list when
    there are identifiers and raises [ValueError] (a zero [range] step) when
    there are none. *)
Theorem generate_distant_style_ids_nonpositive (cfg : Config.t) (n : Z) :
  (n = 0 ->
     ParticipantGenerator.generate_distant_style_ids cfg n = inl ZeroDivisionError) /\
  (n < 0 -> Config.STYLE_ID_TO_COLOR cfg <> [] ->
     ParticipantGenerator.generate_distant_style_ids cfg n = inr []) /\
  (n < 0 -> Config.STYLE_ID_TO_COLOR cfg = [] ->
     ParticipantGenerator.generate_distant_style_ids cfg n = inl ValueError).
Proof.
  unfold ParticipantGenerator.generate_distant_style_ids.
  set (available_ids := map fst (Config.STYLE_ID_TO_COLOR cfg)).
  set (len := Z.of_nat (length available_ids)).
  assert (Hlen : 0 <= len) by (unfold len; lia).
  split; [|split].
  - intros ->. destruct (len <? 0) eqn:E; [lia|]. reflexivity.
  - intros Hn Hne.
    assert (Hpos : 0 < len).
    { unfold len, available_ids. rewrite length_map.
      destruct (Config.STYLE_ID_TO_COLOR cfg); [congruence|simpl; lia]. }
    destruct (len <? n) eqn:E; [lia|]. clear E.
    unfold floordiv. destruct (n =? 0) eqn:E; [lia|]. clear E.
    pose proof (Z.div_mod len n ltac:(lia)) as Hdm.
    pose proof (Z.mod_neg_bound len n Hn) as Hmod.
    set (step := len / n) in *.
    assert (Hstep : step < 0) by nia.
    assert (Hstep' : - step <= len) by nia.
    unfold range3. destruct (step =? 0) eqn:E; [lia|]. clear E.
    destruct (0 <? step) eqn:E; [lia|]. clear E.
    assert (Hcnt : (0 - len - step - 1) / - step < 0)
      by (apply Z.div_lt_upper_bound; lia).
    replace (Z.to_nat ((0 - len - step - 1) / - step)) with 0%nat by lia. simpl.
    unfold slice_to. destruct (0 <=? n); now rewrite firstn_nil.
  - intros Hn Hempty.
    assert (Hzero : len = 0) by (unfold len, available_ids; now rewrite Hempty).
    rewrite Hzero. destruct (0 <? n) eqn:E; [lia|]. clear E.
    unfold floordiv. destruct (n =? 0) eqn:E; [lia|]. clear E.
    rewrite Z.div_0_l by lia. reflexivity.
Qed.

(** X18: [generate_participant_name] returns a first name and a last name
    of the catalog joined by a space, and an alias that is a seed of the
    catalog either unchanged, followed by [_k] with [1 <= k <= 1000], wrapped
    in double underscores, or followed by a suffix of the catalog. *)
Theorem generate_participant_name_forms (cat : Catalog.t) (w : World)
    (name alias : string) (w' : World) :
  ParticipantGenerator.generate_participant_name cat w = Ok (name, alias) w' ->
  exists first last seed,
    In first (Catalog.FIRST_NAMES cat) /\
    In last (Catalog.LAST_NAMES cat) /\
    In seed (Catalog.PLATFORM_ALIAS_SEEDS cat) /\
    name = (first ++ " " ++ last)%string /\
    (alias = seed \/
     (exists k, 1 <= k <= 1000 /\ alias = (seed ++ "_" ++ str_of_int k)%string) \/
     alias = ("__" ++ seed ++ "__")%string \/
     (exists suffix, In suffix (Catalog.ALIAS_SUFFIXES cat) /\
                     alias = (seed ++ suffix)%string)).
Proof.
  unfold ParticipantGenerator.generate_participant_name. intros H.
  do 5 bind_inv H. apply ret_Ok_inv in H as [H _]. inversion H; subst; clear H.
  apply random_choice_In in E, E0, E1.
  exists a, a0, a1. repeat (split; [assumption || reflexivity|]).
  destruct a2.
  - bind_inv E3. destruct a2.
    + bind_inv E3. apply ret_Ok_inv in E3 as [<- _].
      apply random_randint_range in E5. right. left. eauto.
    + bind_inv E3. destruct a2.
      * apply ret_Ok_inv in E3 as [<- _]. auto.
      * bind_inv E3. destruct a2.
        -- bind_inv E3. apply ret_Ok_inv in E3 as [<- _].
           apply random_choice_In in E7. right. right. right. eauto.
        -- apply ret_Ok_inv in E3 as [<- _]. auto.
  - apply ret_Ok_inv in E3 as [<- _]. auto.
Qed.

Lemma generate_participant_name_forms_witness :
  exists name alias w',
    ParticipantGenerator.generate_participant_name sample_catalog all_zero
      = Ok (name, alias) w' /\
    name = "Ada Lovelace"%string /\
    exists first last seed,
      In first (Catalog.FIRST_NAMES sample_catalog) /\
      In last (Catalog.LAST_NAMES sample_catalog) /\
      In seed (Catalog.PLATFORM_ALIAS_SEEDS sample_catalog) /\
      name = (first ++ " " ++ last)%string /\
      (alias = seed \/
       (exists k, 1 <= k <= 1000 /\ alias = (seed ++ "_" ++ str_of_int k)%string) \/
       alias = ("__" ++ seed ++ "__")%string \/
       (exists suffix, In suffix (Catalog.ALIAS_SUFFIXES sample_catalog) /\
                       alias = (seed ++ suffix)%string)).
Proof.
  eexists. eexists. eexists. split; [vm_compute; reflexivity|].
  split; [reflexivity|].
  apply (generate_participant_name_forms sample_catalog all_zero _ _ _
           ltac:(vm_compute; reflexivity)).
Defined.

Lemma dict_get_int_In {V} (d : list (Z * V)) key v :
  dict_get_int d key = inr v -> In key (map fst d) /\ In (key, v) d.
Proof.
  induction d as [|[k x] d IH]; simpl; [discriminate|].
  destruct (k =? key) eqn:E.
  - apply Z.eqb_eq in E. subst k. intros H. inversion H; subst. auto.
  - intros H. destruct (IH H). auto.
Qed.

Lemma dict_get_int_missing {V} (d : list (Z * V)) key :
  ~ In key (map fst d) -> dict_get_int d key = inl KeyError.
Proof.
  induction d as [|[k x] d IH]; simpl; [reflexivity|]. intros Hn.
  destruct (k =? key) eqn:E.
  - apply Z.eqb_eq in E. tauto.
  - apply IH. tauto.
Qed.

Lemma replace_from_skip old new s :
  replace_from old new (String.length s) s = EmptyString.
Proof. induction s as [|c s IH]; simpl; [reflexivity|exact IH]. Qed.

Lemma append_empty_r (s : string) : (s ++ "")%string = s.
Proof. induction s as [|c s IH]; simpl; [reflexivity|now rewrite IH]. Qed.

Lemma prefix_png_head c s : c <> "."%char -> prefix ".png" (String c s) = false.
Proof.
  intros Hc. cbn [prefix]. destruct (ascii_dec "." c) as [E|E]; [congruence|reflexivity].
Qed.

Lemma dotless_cons c s : dotless (String c s) -> c <> "."%char /\ dotless s.
Proof. unfold dotless. cbn [list_ascii_of_string In]. intros H. split; intros E; tauto. Qed.

Lemma str_replace_dotless new s :
  dotless s -> str_replace ".png" new s = s.
Proof.
  unfold str_replace. induction s as [|c s IH]; [reflexivity|].
  intros Hn. apply dotless_cons in Hn as [Hc Hs].
  cbn [replace_from]. rewrite (prefix_png_head c s Hc), (IH Hs). reflexivity.
Qed.

Lemma str_replace_png_suffix new stem :
  dotless stem -> str_replace ".png" new (stem ++ ".png") = (stem ++ new)%string.
Proof.
  unfold str_replace. induction stem as [|c s IH].
  - intros _. cbn. now rewrite append_empty_r.
  - intros Hn. apply dotless_cons in Hn as [Hc Hs].
    cbn [append replace_from]. rewrite (prefix_png_head c _ Hc), (IH Hs). reflexivity.
Qed.

(** X19: the participant [generate_participant] returns always has a style
    identifier that is a key of [STYLE_ID_TO_COLOR], the requested one when
    that is a key, and the colour stored under it.  Its three avatar paths
    are the style's avatar with [.png] replaced by [_l.png], [_r.png] and
    [_c.png]: [stem_l.png] and so on for an avatar [stem.png] whose stem has
    no dot, and three times the avatar itself when it has no dot at all. *)
Theorem generate_participant_style (cfg : Config.t) (cat : Catalog.t)
    (style_id : option Z) (w : World) (p : Participant.t) (w' : World) :
  ParticipantGenerator.generate_participant cfg cat style_id w = Ok p w' ->
  In (Participant.style_id p) (map fst (Config.STYLE_ID_TO_COLOR cfg)) /\
  dict_get_int (Config.STYLE_ID_TO_COLOR cfg) (Participant.style_id p)
    = inr (Participant.color p) /\
  (forall s, style_id = Some s ->
     In s (map fst (Config.STYLE_ID_TO_COLOR cfg)) -> Participant.style_id p = s) /\
  exists avatar_base,
    dict_get_int (Catalog.STYLE_ID_TO_AVATAR cat) (Participant.style_id p)
      = inr avatar_base /\
    (forall stem, avatar_base = (stem ++ ".png")%string -> dotless stem ->
       Participant.avatars p =
         [("left", stem ++ "_l.png"); ("right", stem ++ "_r.png");
          ("center", stem ++ "_c.png")]%string) /\
    (dotless avatar_base ->
       Participant.avatars p =
         [("left", avatar_base); ("right", avatar_base);
          ("center", avatar_base)]%string).
Proof.
  unfold ParticipantGenerator.generate_participant. intros H.
  do 6 bind_inv H. apply ret_Ok_inv in H as [<- _]. simpl.
  apply lift_Ok_inv in E1 as [Hav _]. apply lift_Ok_inv in E4 as [Hcol _].
  destruct (dict_get_int_In _ _ _ Hcol) as [Hkey _].
  split; [exact Hkey|]. split; [exact Hcol|]. split.
  - intros s -> Hs.
    assert (Hmem : dict_mem_int (Config.STYLE_ID_TO_COLOR cfg) s = true).
    { unfold dict_mem_int. apply existsb_exists.
      apply in_map_iff in Hs as ([k v] & <- & Hin).
      exists (k, v). split; [exact Hin|apply Z.eqb_refl]. }
    rewrite Hmem in E0. now apply ret_Ok_inv in E0 as [<- _].
  - exists a1. split; [exact Hav|]. split.
    + intros stem -> Hstem. now rewrite !str_replace_png_suffix.
    + intros Hbase. now rewrite !str_replace_dotless.
Qed.

Lemma generate_participant_style_witness :
  exists p w',
    ParticipantGenerator.generate_participant sample_config sample_catalog (Some 2)
      all_zero = Ok p w' /\
    Participant.style_id p = 2 /\
    Participant.color p = "#00ff00"%string /\
    Participant.avatars p =
      [("left", "avatars/green_l.png"); ("right", "avatars/green_r.png");
       ("center", "avatars/green_c.png")]%string.
Proof.
  eexists. eexists. split; [vm_compute; reflexivity|].
  split; [|split; reflexivity].
  destruct (generate_participant_style sample_config sample_catalog (Some 2) all_zero
              _ _ ltac:(vm_compute; reflexivity)) as (_ & _ & Hs & _).
  apply (Hs 2); [reflexivity|]. simpl. auto.
Defined.

(** ** class ChatBuilder: the sort of [_generate_messages] *)

Lemma key_lt_inv a b r :
  ChatBuilder.key_lt a b = inr r ->
  exists x y, a = Some x /\ b = Some y /\ r = Qltb x y.
Proof.
  destruct a as [x|], b as [y|]; simpl; intros H; inversion H; eauto.
Qed.

Lemma key_lt_error a b e : ChatBuilder.key_lt a b = inl e -> e = TypeError.
Proof. destruct a, b; simpl; intros H; now inversion H. Qed.

Lemma insert_message_error m sorted e :
  ChatBuilder.insert_message m sorted = inl e -> e = TypeError.
Proof.
  induction sorted as [|x rest IH]; simpl; [discriminate|].
  destruct (ChatBuilder.key_lt _ _) as [e'|[|]] eqn:E.
  - intros H. inversion H; subst. eapply key_lt_error; eauto.
  - discriminate.
  - destruct (ChatBuilder.insert_message m rest) as [e'|placed]; [|discriminate].
    intros H. inversion H; subst. now apply IH.
Qed.

Lemma insert_message_compares m x rest r :
  ChatBuilder.insert_message m (x :: rest) = inr r ->
  has_send_time m /\ has_send_time x.
Proof.
  simpl. destruct (ChatBuilder.key_lt _ _) as [e'|b] eqn:E; [discriminate|].
  apply key_lt_inv in E as (tm & tx & Hm & Hx & _).
  unfold ChatBuilder.sort_key in Hm, Hx. unfold has_send_time.
  intros _. split; congruence.
Qed.

Lemma insert_message_returned m sorted r :
  ChatBuilder.insert_message m sorted = inr r ->
  Permutation (m :: sorted) r /\
  (Sorted not_later sorted -> Sorted not_later r) /\
  (forall x, HdRel not_later x sorted -> not_later x m -> HdRel not_later x r).
Proof.
  revert r. induction sorted as [|x rest IH]; simpl; intros r H.
  - inversion H; subst. split; [reflexivity|].
    split; [intros _; repeat constructor|]. intros x _ Hxm. now constructor.
  - destruct (ChatBuilder.key_lt _ _) as [e'|b] eqn:E; [discriminate|].
    apply key_lt_inv in E as (tm & tx & Hm & Hx & ->).
    unfold ChatBuilder.sort_key in Hm, Hx.
    destruct (Qltb tm tx) eqn:Hlt.
    + inversion H; subst; clear H. apply Qltb_true in Hlt.
      assert (Hmx : not_later m x) by (unfold not_later; rewrite Hm, Hx; lra).
      split; [reflexivity|].
      split; [intros Hs; constructor; [exact Hs|constructor; exact Hmx]|].
      intros y _ Hym. now constructor.
    + apply Qltb_false in Hlt.
      destruct (ChatBuilder.insert_message m rest) as [e'|placed] eqn:Hins;
        [discriminate|].
      inversion H; subst; clear H.
      destruct (IH placed eq_refl) as (Hperm & Hsorted & Hhd).
      assert (Hxm : not_later x m) by (unfold not_later; rewrite Hm, Hx; exact Hlt).
      split; [rewrite perm_swap; now constructor|]. split.
      * intros Hs. inversion Hs as [|? ? Hrest Hhdx]; subst.
        constructor; [now apply Hsorted|]. now apply Hhd.
      * intros y Hy _. inversion Hy; subst. now constructor.
Qed.

(** The accumulator of [sort_messages]: sorted, and wholly sent as soon as
    it holds two messages. *)
Lemma sort_messages_from msgs : forall acc r,
  Sorted not_later acc ->
  (2 <= length acc -> Forall has_send_time acc)%nat ->
  fold_left (fun acc m => match acc with
                          | inl e => inl e
                          | inr sorted => ChatBuilder.insert_message m sorted
                          end) msgs (inr acc) = inr r ->
  Permutation (acc ++ msgs) r /\ Sorted not_later r /\
  (2 <= length r -> Forall has_send_time r)%nat.
Proof.
  induction msgs as [|m msgs IH]; intros acc r Hs Hsent H; simpl in H.
  - inversion H; subst. rewrite app_nil_r. auto.
  - destruct (ChatBuilder.insert_message m acc) as [e|placed] eqn:Hins.
    + exfalso. clear -H. induction msgs as [|x msgs IHm]; simpl in H; [discriminate|auto].
    + destruct (insert_message_returned _ _ _ Hins) as (Hperm & Hsorted & _).
      destruct (IH placed r (Hsorted Hs)) as (Hp & Hr & Hall).
      * intros Hlen. eapply Permutation_Forall; [exact Hperm|].
        destruct acc as [|x rest].
        -- apply Permutation_length in Hperm. simpl in Hperm. lia.
        -- destruct (insert_message_compares _ _ _ _ Hins) as [Hm Hx].
           constructor; [exact Hm|].
           destruct rest as [|y rest]; [repeat constructor; exact Hx|].
           apply Hsent. simpl. lia.
      * exact H.
      * split; [|auto].
        etransitivity; [symmetry; apply Permutation_middle|].
        etransitivity; [|exact Hp].
        change (m :: acc ++ msgs) with ((m :: acc) ++ msgs).
        now apply Permutation_app_tail.
Qed.

Lemma sort_messages_error_from msgs : forall start e,
  fold_left (fun acc m => match acc with
                          | inl e => inl e
                          | inr sorted => ChatBuilder.insert_message m sorted
                          end) msgs start = inl e ->
  start = inl TypeError \/ (exists acc, start = inr acc) ->
  e = TypeError.
Proof.
  induction msgs as [|m msgs IH]; intros start e H Hstart; simpl in H.
  - destruct Hstart as [->|(acc & ->)]; [now inversion H|discriminate].
  - eapply IH; [exact H|].
    destruct Hstart as [->|(acc & ->)]; [now left|].
    destruct (ChatBuilder.insert_message m acc) as [e'|placed] eqn:Hins.
    + left. f_equal. eapply insert_message_error; eauto.
    + right. now exists placed.
Qed.

(** X20: the sort of [_generate_messages].  When it returns, the result is
    a rearrangement of the messages in which no message is sent later than
    its successor, and with two messages or more every one of them has a
    send time.  So two or more messages of which one has no send time make
    the sort raise, and the exception is [TypeError]; a single message is
    returned as it is. *)
Theorem sort_messages_spec (msgs : list Message.t) :
  (forall r, ChatBuilder.sort_messages msgs = inr r ->
     Permutation msgs r /\ Sorted not_later r /\
     ((2 <= length msgs)%nat -> Forall has_send_time msgs)) /\
  ((2 <= length msgs)%nat -> Exists (fun m => Message.send_datetime m = None) msgs ->
     ChatBuilder.sort_messages msgs = inl TypeError) /\
  (forall m, msgs = [m] -> ChatBuilder.sort_messages msgs = inr [m]).
Proof.
  assert (Hret : forall r, ChatBuilder.sort_messages msgs = inr r ->
            Permutation msgs r /\ Sorted not_later r /\
            ((2 <= length msgs)%nat -> Forall has_send_time msgs)).
  { intros r H. unfold ChatBuilder.sort_messages in H.
    apply sort_messages_from in H as (Hp & Hs & Hall);
      [|constructor|simpl; lia].
    simpl in Hp. split; [exact Hp|]. split; [exact Hs|].
    intros Hlen. eapply Permutation_Forall; [symmetry; exact Hp|].
    apply Hall. now rewrite <- (Permutation_length Hp). }
  split; [exact Hret|]. split.
  - intros Hlen Hex.
    destruct (ChatBuilder.sort_messages msgs) as [e|r] eqn:E.
    + f_equal. unfold ChatBuilder.sort_messages in E.
      eapply sort_messages_error_from; [exact E|]. right. now exists [].
    + exfalso. destruct (Hret r eq_refl) as (_ & _ & Hall).
      specialize (Hall Hlen). apply Exists_exists in Hex as (m & Hin & Hnone).
      rewrite Forall_forall in Hall. now apply (Hall m Hin).
  - intros m ->. reflexivity.
Qed.

(** ** class ChatBuilder: the ["messages"] entry of [save] *)

Lemma dict_get_set_same {V} (d : list (string * V)) key v :
  dict_get (dict_set d key v) key = inr v.
Proof.
  induction d as [|[k x] d IH]; simpl.
  - now rewrite String.eqb_refl.
  - destruct (String.eqb k key) eqn:E; simpl; rewrite E; [reflexivity|exact IH].
Qed.

Lemma dict_get_set_other {V} (d : list (string * V)) key v key' :
  key' <> key -> dict_get (dict_set d key v) key' = dict_get d key'.
Proof.
  intros Hne. induction d as [|[k x] d IH]; simpl.
  - destruct (String.eqb key key') eqn:E; [|reflexivity].
    apply String.eqb_eq in E. congruence.
  - destruct (String.eqb k key) eqn:E; simpl.
    + apply String.eqb_eq in E. subst k.
      destruct (String.eqb key key') eqn:E'; [|reflexivity].
      apply String.eqb_eq in E'. congruence.
    + destruct (String.eqb k key'); [reflexivity|exact IH].
Qed.

Lemma dict_set_keys {V} (d : list (string * V)) key v :
  (In key (map fst d) -> map fst (dict_set d key v) = map fst d) /\
  (~ In key (map fst d) -> map fst (dict_set d key v) = map fst d ++ [key]).
Proof.
  induction d as [|[k x] d [IH1 IH2]]; simpl.
  - split; [tauto|reflexivity].
  - destruct (String.eqb k key) eqn:E; simpl.
    + apply String.eqb_eq in E. subst k. split; [reflexivity|tauto].
    + apply String.eqb_neq in E. split.
      * intros [Hk|Hin]; [congruence|]. now rewrite IH1.
      * intros Hn. rewrite IH2; [reflexivity|tauto].
Qed.

Lemma dict_set_NoDup {V} (d : list (string * V)) key v :
  NoDup (map fst d) -> NoDup (map fst (dict_set d key v)).
Proof.
  intros Hnd. destruct (in_dec string_dec key (map fst d)) as [Hin|Hn].
  - now rewrite (proj1 (dict_set_keys d key v) Hin).
  - rewrite (proj2 (dict_set_keys d key v) Hn).
    apply NoDup_app; [exact Hnd|repeat constructor; simpl; tauto|].
    intros x Hx [<-|[]]. contradiction.
Qed.

Lemma dict_set_keys_iff {V} (d : list (string * V)) key v x :
  In x (map fst (dict_set d key v)) <-> x = key \/ In x (map fst d).
Proof.
  destruct (in_dec string_dec key (map fst d)) as [Hin|Hn].
  - rewrite (proj1 (dict_set_keys d key v) Hin). split; [tauto|].
    intros [->|H]; assumption.
  - rewrite (proj2 (dict_set_keys d key v) Hn), in_app_iff. simpl.
    split; [intros [H|[H|[]]]; auto|intros [H|H]; auto].
Qed.

Section SaveMessages.
Variable isoformat : Q -> string.

Lemma save_messages_snoc msgs m :
  ChatBuilder.save_messages isoformat (msgs ++ [m])
  = match ChatBuilder.save_messages isoformat msgs with
    | inl e => inl e
    | inr d =>
        match ChatBuilder.save_key isoformat m with
        | inl e => inl e
        | inr key => inr (dict_set d key m)
        end
    end.
Proof. unfold ChatBuilder.save_messages. now rewrite fold_left_app. Qed.

Lemma save_key_returned m key :
  ChatBuilder.save_key isoformat m = inr key ->
  exists t, Message.send_datetime m = Some t /\ key = isoformat t.
Proof.
  unfold ChatBuilder.save_key. destruct (Message.send_datetime m) as [t|];
    intros H; inversion H; eauto.
Qed.

Lemma save_messages_returned msgs : forall d,
  ChatBuilder.save_messages isoformat msgs = inr d ->
  Forall has_send_time msgs /\
  NoDup (map fst d) /\
  (forall key, In key (map fst d) <->
               exists m, In m msgs /\ ChatBuilder.save_key isoformat m = inr key) /\
  (forall before m after,
     msgs = before ++ m :: after ->
     (forall x, In x after ->
        ChatBuilder.save_key isoformat x <> ChatBuilder.save_key isoformat m) ->
     exists key, ChatBuilder.save_key isoformat m = inr key /\ dict_get d key = inr m).
Proof.
  induction msgs as [|m msgs IH] using rev_ind; intros d H.
  - inversion H; subst. split; [constructor|]. split; [constructor|]. split.
    + intros key. simpl. split; [tauto|]. intros (m & [] & _).
    + intros before m after Heq. destruct before; discriminate.
  - rewrite save_messages_snoc in H.
    destruct (ChatBuilder.save_messages isoformat msgs) as [e|d0]; [discriminate|].
    destruct (ChatBuilder.save_key isoformat m) as [e|key] eqn:Hkey; [discriminate|].
    inversion H; subst d; clear H.
    destruct (IH d0 eq_refl) as (Hsent & Hnd & Hkeys & Hlast).
    split; [|split; [|split]].
    + apply Forall_app. split; [exact Hsent|]. constructor; [|constructor].
      apply save_key_returned in Hkey as (t & Ht & _). unfold has_send_time. congruence.
    + now apply dict_set_NoDup.
    + intros k. rewrite dict_set_keys_iff, Hkeys. split.
      * intros [->|(x & Hx & Hk)].
        -- exists m. split; [apply in_or_app; right; now left|exact Hkey].
        -- exists x. split; [apply in_or_app; now left|exact Hk].
      * intros (x & Hx & Hk). apply in_app_or in Hx as [Hx|[<-|[]]].
        -- right. eauto.
        -- left. congruence.
    + intros before x after Heq Hafter.
      destruct after as [|y after] using rev_ind.
      * apply app_inj_tail in Heq as [_ <-]. exists key.
        split; [exact Hkey|apply dict_get_set_same].
      * clear IHafter. rewrite app_comm_cons, app_assoc in Heq.
        apply app_inj_tail in Heq as [Heq <-].
        destruct (Hlast before x after Heq) as (kx & Hkx & Hget).
        { intros z Hz. apply Hafter. apply in_or_app. now left. }
        exists kx. split; [exact Hkx|]. rewrite dict_get_set_other; [exact Hget|].
        intros ->. apply (Hafter m); [apply in_or_app; right; now left|congruence].
Qed.

Lemma save_messages_error msgs e :
  ChatBuilder.save_messages isoformat msgs = inl e -> e = AttributeError.
Proof.
  induction msgs as [|m msgs IH] using rev_ind; [discriminate|].
  rewrite save_messages_snoc.
  destruct (ChatBuilder.save_messages isoformat msgs) as [e0|d0].
  - intros H. inversion H; subst. now apply IH.
  - unfold ChatBuilder.save_key.
    destruct (Message.send_datetime m); [discriminate|]. intros H. now inversion H.
Qed.

Lemma save_messages_total msgs :
  Forall has_send_time msgs -> exists d, ChatBuilder.save_messages isoformat msgs = inr d.
Proof.
  induction msgs as [|m msgs IH] using rev_ind; intros Hall.
  - now exists [].
  - apply Forall_app in Hall as [Hall Hm]. destruct (IH Hall) as (d & E).
    rewrite save_messages_snoc, E. unfold ChatBuilder.save_key.
    inversion Hm as [|? ? Hs _]; subst. unfold has_send_time in Hs.
    destruct (Message.send_datetime m); [eauto|congruence].
Qed.

(** X21: the ["messages"] entry that [save] builds.  One message without
    send time makes it raise [AttributeError].  Otherwise the entry has one
    record per distinct send time and not one per message: its keys are
    distinct, each key holds the last message sent at that time, and when two
    messages share a send time the entry has fewer records than there are
    messages. *)
Theorem save_messages_spec (msgs : list Message.t) :
  (Exists (fun m => Message.send_datetime m = None) msgs ->
     ChatBuilder.save_messages isoformat msgs = inl AttributeError) /\
  (Forall has_send_time msgs ->
     exists d,
       ChatBuilder.save_messages isoformat msgs = inr d /\
       NoDup (map fst d) /\
       (length d <= length msgs)%nat /\
       (forall before m after,
          msgs = before ++ m :: after ->
          (forall x, In x after ->
             ChatBuilder.save_key isoformat x <> ChatBuilder.save_key isoformat m) ->
          exists key,
            ChatBuilder.save_key isoformat m = inr key /\ dict_get d key = inr m) /\
       (~ NoDup (map (ChatBuilder.save_key isoformat) msgs) ->
          (length d < length msgs)%nat)).
Proof.
  split.
  - intros Hex. destruct (ChatBuilder.save_messages isoformat msgs) as [e|d] eqn:E.
    + f_equal. eapply save_messages_error; eauto.
    + exfalso. apply save_messages_returned in E as (Hsent & _).
      apply Exists_exists in Hex as (m & Hin & Hnone).
      rewrite Forall_forall in Hsent. now apply (Hsent m Hin).
  - intros Hall. destruct (save_messages_total msgs Hall) as (d & E).
    exists d. split; [exact E|].
    destruct (save_messages_returned msgs d E) as (_ & Hnd & Hkeys & Hlast).
    assert (Hnd' : NoDup (map (@inr exn string) (map fst d))).
    { apply NoDup_map_NoDup_ForallPairs; [|exact Hnd].
      intros x y _ _ Hxy. now inversion Hxy. }
    assert (Hincl : incl (map (@inr exn string) (map fst d))
                         (map (ChatBuilder.save_key isoformat) msgs)).
    { intros k Hk. apply in_map_iff in Hk as (key & <- & Hin).
      apply Hkeys in Hin as (m & Hm & Hkey). rewrite <- Hkey. now apply in_map. }
    assert (Hlen : (length d <= length msgs)%nat).
    { pose proof (NoDup_incl_length Hnd' Hincl) as Hle.
      now rewrite !length_map in Hle. }
    split; [exact Hnd|]. split; [exact Hlen|]. split; [exact Hlast|].
    intros Hdup. destruct (Nat.lt_ge_cases (length d) (length msgs)) as [Hlt|Hge];
      [exact Hlt|].
    exfalso. apply Hdup. eapply NoDup_incl_NoDup; [exact Hnd'| |exact Hincl].
    now rewrite !length_map.
Qed.

End SaveMessages.

(** ** class ChatBuilder: the generating methods *)

Lemma generate_datetime_range_returned w range w' :
  DateTimeGenerator.generate_datetime_range w = Ok range w' ->
  (DateTimeGenerator.start_range <= fst range)%Q /\
  (fst range <= snd range)%Q /\
  (snd range <= DateTimeGenerator.end_range)%Q.
Proof.
  unfold DateTimeGenerator.generate_datetime_range. intros H.
  bind_inv H. bind_inv H. apply ret_Ok_inv in H as [<- _]. simpl.
  apply random_datetime_returned in E as [Hs0 Hs1];
    [|unfold Qle; simpl; lia].
  apply random_datetime_returned in E0 as [He0 He1]; [|exact Hs1].
  auto.
Qed.

Lemma generate_case_data_fresh cat ps self w self' w' :
  ChatBuilder.p_case_data ps = None ->
  ChatBuilder._generate_case_data cat ps self w = Ok self' w' ->
  same_but_case_data self self' /\
  exists cd, ChatBuilder.case_data self' = Some cd /\ generated_case cat cd.
Proof.
  unfold ChatBuilder._generate_case_data. intros -> H.
  do 5 bind_inv H. apply ret_Ok_inv in H as [<- _].
  split; [unfold same_but_case_data; simpl; auto 10|].
  eexists. split; [reflexivity|].
  apply generate_datetime_range_returned in E as (Hr0 & Hr1 & Hr2).
  apply random_randint_range in E0, E1, E2. apply random_choice_In in E3.
  unfold generated_case. simpl.
  split; [exists a0, a1; auto|]. split; [exists a2; auto|]. auto 10.
Qed.

(** X22: [_generate_case_data] touches the case only.  A case given in
    [params] is taken as it is; otherwise the case has a file number
    [a/b] with [230000 <= a <= 240000] and [1000 <= b <= 9999], the number
    [HTCGc] with [24000 <= c <= 24400], an operation name of the catalog,
    dates with 2023-01-01 <= start <= end <= 2024-12-31T23:59:59, no exhibit
    and no note. *)
Theorem _generate_case_data_spec (cat : Catalog.t) (ps : ChatBuilder.params)
    (self : ChatBuilder.t) (w : World) (self' : ChatBuilder.t) (w' : World) :
  ChatBuilder._generate_case_data cat ps self w = Ok self' w' ->
  same_but_case_data self self' /\
  match ChatBuilder.p_case_data ps with
  | Some given => ChatBuilder.case_data self' = Some given
  | None => exists cd, ChatBuilder.case_data self' = Some cd /\ generated_case cat cd
  end.
Proof.
  destruct (ChatBuilder.p_case_data ps) as [given|] eqn:Hps; intros H.
  - revert H. unfold ChatBuilder._generate_case_data. rewrite Hps. intros H.
    apply ret_Ok_inv in H as [<- _]. unfold same_but_case_data. simpl. auto 10.
  - eapply generate_case_data_fresh; eauto.
Qed.

Lemma _generate_case_data_spec_witness :
  exists self' w',
    ChatBuilder._generate_case_data sample_catalog ChatBuilder.no_params
      (ChatBuilder.mk "Signal" [] [] [] [] None) all_zero = Ok self' w' /\
    same_but_case_data (ChatBuilder.mk "Signal" [] [] [] [] None) self' /\
    exists cd, ChatBuilder.case_data self' = Some cd /\ generated_case sample_catalog cd.
Proof.
  eexists. eexists. split; [vm_compute; reflexivity|].
  apply (_generate_case_data_spec sample_catalog ChatBuilder.no_params
           (ChatBuilder.mk "Signal" [] [] [] [] None) all_zero _ _
           ltac:(vm_compute; reflexivity)).
Defined.

Lemma generate_exhibit_case_id case_data w e w' :
  ExhibitGenerator.generate_exhibit case_data w = Ok e w' ->
  Exhibit.case_id e = CaseData.case_number case_data.
Proof.
  unfold ExhibitGenerator.generate_exhibit. intros H.
  do 10 bind_inv H. now apply ret_Ok_inv in H as [<- _].
Qed.

Lemma dict_set_Forall {V} (P : string * V -> Prop) (d : list (string * V)) key v :
  Forall P d -> P (key, v) -> Forall P (dict_set d key v).
Proof.
  intros Hd Hv. induction d as [|[k x] d IH]; simpl.
  - now repeat constructor.
  - inversion Hd; subst. destruct (String.eqb k key) eqn:E.
    + apply String.eqb_eq in E. subst k. now constructor.
    + constructor; auto.
Qed.

Lemma extend_case_app cd names n :
  extend_case (extend_case cd names) [n] = extend_case cd (names ++ [n]).
Proof. unfold extend_case. simpl. now rewrite app_assoc. Qed.

Lemma extend_case_nil cd : extend_case cd [] = cd.
Proof. destruct cd. unfold extend_case. simpl. now rewrite app_nil_r. Qed.

Lemma generate_exhibits_fresh ps self w self' w' :
  ChatBuilder.p_exhibits ps = None ->
  ChatBuilder._generate_exhibits ps self w = Ok self' w' ->
  same_but_exhibits_and_case self self' /\
  forall cd, ChatBuilder.case_data self = Some cd ->
    exists names,
      ChatBuilder.case_data self' = Some (extend_case cd names) /\
      length names = length (ChatBuilder.participants self) /\
      Forall (exhibit_name_of cd) names /\
      Forall (exhibit_entry cd (ChatBuilder.exhibits self)) (ChatBuilder.exhibits self').
Proof.
  unfold ChatBuilder._generate_exhibits. intros -> H.
  eapply (for_range_invariant _
            (fun i st =>
               same_but_exhibits_and_case self st /\
               forall cd, ChatBuilder.case_data self = Some cd ->
                 exists names,
                   ChatBuilder.case_data st = Some (extend_case cd names) /\
                   length names = i /\
                   Forall (exhibit_name_of cd) names /\
                   Forall (exhibit_entry cd (ChatBuilder.exhibits self))
                          (ChatBuilder.exhibits st)))
    with (i := 0%nat) in H.
  - rewrite Nat.add_0_r in H. exact H.
  - intros i st w1 st' w2 [Hsame Hcase] Hs.
    destruct (ChatBuilder.case_data st) as [cd'|] eqn:Hcd'; [|discriminate].
    bind_inv Hs. apply ret_Ok_inv in Hs as [<- _].
    destruct Hsame as (Hp & Hpa & Ha & Hm).
    split; [unfold same_but_exhibits_and_case; simpl; auto|].
    intros cd Hcd. destruct (Hcase cd Hcd) as (names & Hst & Hlen & Hnames & Hentries).
    inversion Hst; subst cd'; clear Hst.
    exists (names ++ [Exhibit.name a]). simpl.
    split; [now rewrite <- extend_case_app|].
    split; [rewrite length_app; simpl; lia|].
    split.
    + apply Forall_app. split; [exact Hnames|]. constructor; [|constructor].
      destruct (generate_exhibit_returned _ _ _ _ E) as (k & Hk & _ & Hname).
      exists k, (Exhibit.police_number a). split; [exact Hk|exact Hname].
    + apply dict_set_Forall; [exact Hentries|]. right. simpl.
      split; [reflexivity|]. now apply generate_exhibit_case_id in E.
  - split; [unfold same_but_exhibits_and_case; auto|].
    intros cd Hcd. exists []. rewrite extend_case_nil.
    split; [exact Hcd|]. split; [reflexivity|]. split; [constructor|].
    apply Forall_forall. intros entry Hin. now left.
Qed.

(** X23: [_generate_exhibits].  Exhibits given in [params] replace the
    dict and leave the case alone.  Otherwise one exhibit is generated per
    participant: the case gains as many names in [exhibits_used], each of the
    form [case_number_k (police_id)] with [1 <= k <= 20], and every new
    entry of the dict is an exhibit of that case stored under its own
    identifier.  Without a case, a chat that has participants raises
    [AttributeError]. *)
Theorem _generate_exhibits_spec (ps : ChatBuilder.params) (self : ChatBuilder.t)
    (w : World) :
  (ChatBuilder.p_exhibits ps = None -> ChatBuilder.case_data self = None ->
   ChatBuilder.participants self <> [] ->
     ChatBuilder._generate_exhibits ps self w = Raise AttributeError) /\
  (forall self' w',
     ChatBuilder._generate_exhibits ps self w = Ok self' w' ->
     same_but_exhibits_and_case self self' /\
     match ChatBuilder.p_exhibits ps with
     | Some given =>
         ChatBuilder.exhibits self' = given /\
         ChatBuilder.case_data self' = ChatBuilder.case_data self
     | None =>
         forall cd, ChatBuilder.case_data self = Some cd ->
           exists names,
             ChatBuilder.case_data self' = Some (extend_case cd names) /\
             length names = length (ChatBuilder.participants self) /\
             Forall (exhibit_name_of cd) names /\
             Forall (exhibit_entry cd (ChatBuilder.exhibits self))
                    (ChatBuilder.exhibits self')
     end).
Proof.
  split.
  - unfold ChatBuilder._generate_exhibits. intros -> Hcase Hne.
    destruct (ChatBuilder.participants self) as [|kp rest]; [congruence|].
    simpl. now rewrite Hcase.
  - intros self' w'. destruct (ChatBuilder.p_exhibits ps) as [given|] eqn:Hps; intros H.
    + revert H. unfold ChatBuilder._generate_exhibits. rewrite Hps. intros H.
      apply ret_Ok_inv in H as [<- _].
      unfold same_but_exhibits_and_case. simpl. auto 10.
    + eapply generate_exhibits_fresh; eauto.
Qed.

Lemma for_each_invariant {A B} (body : B -> A -> M B)
    (I : list A -> World -> B -> Prop) :
  (forall done x acc w1 acc' w2,
     I done w1 acc -> body acc x w1 = Ok acc' w2 -> I (done ++ [x]) w2 acc') ->
  forall xs done acc w r w',
    I done w acc -> for_each xs body acc w = Ok r w' -> I (done ++ xs) w' r.
Proof.
  intros Hstep. induction xs as [|x xs IH]; intros done acc w r w' Hacc Hrun;
    simpl in Hrun.
  - apply ret_Ok_inv in Hrun as [<- <-]. now rewrite app_nil_r.
  - bind_inv Hrun. replace (done ++ x :: xs) with ((done ++ [x]) ++ xs)
      by (now rewrite <- app_assoc).
    eapply IH; [|exact Hrun]. eapply Hstep; eauto.
Qed.

Lemma keeps_uuids_ret {A} (a : A) : keeps_uuids (ret a).
Proof. intros w b w' H. now apply ret_Ok_inv in H as [_ <-]. Qed.

Lemma keeps_uuids_bind {A B} (m : M A) (k : A -> M B) :
  keeps_uuids m -> (forall a, keeps_uuids (k a)) -> keeps_uuids (bind m k).
Proof.
  intros Hm Hk w b w' H. bind_inv H.
  destruct (Hk _ _ _ _ H) as [H1 H2]. destruct (Hm _ _ _ E) as [H3 H4].
  split; congruence.
Qed.

Lemma keeps_uuids_lift {A} (r : exn + A) : keeps_uuids (lift r).
Proof. intros w a w' H. now apply lift_Ok_inv in H as [_ <-]. Qed.

Lemma keeps_uuids_random_choice {A} (seq : list A) : keeps_uuids (random_choice seq).
Proof. intros w a w' H. eapply random_choice_frame; eauto. Qed.

Lemma keeps_uuids_random_randint a b : keeps_uuids (random_randint a b).
Proof.
  unfold random_randint. destruct (b + 1 - a <=? 0); [intros w k w' H; discriminate|].
  apply keeps_uuids_bind; [|intros; apply keeps_uuids_ret].
  unfold randbelow. apply keeps_uuids_bind; [|intros; apply keeps_uuids_ret].
  intros w z w' H. unfold next_cell in H. now inversion H.
Qed.

Lemma keeps_uuids_generate_participant_name cat :
  keeps_uuids (ParticipantGenerator.generate_participant_name cat).
Proof.
  unfold ParticipantGenerator.generate_participant_name.
  repeat first
    [ apply keeps_uuids_ret
    | apply keeps_uuids_random_choice
    | apply keeps_uuids_random_randint
    | apply keeps_uuids_bind; [|intros ?]
    | match goal with |- keeps_uuids (if ?b then _ else _) => destruct b end ].
Qed.

Lemma uuid4_str_step w s w' :
  uuid4_str w = Ok s w' ->
  s = uuid_src w (uuid_cursor w) /\ uuid_src w' = uuid_src w /\
  uuid_cursor w' = S (uuid_cursor w).
Proof. unfold uuid4_str. intros H. now inversion H. Qed.

(** What [generate_participant] fixes about the participant and about the
    [uuid4] source. *)
Lemma generate_participant_returned cfg cat style_id w p w' :
  ParticipantGenerator.generate_participant cfg cat style_id w = Ok p w' ->
  Participant.uuid p = uuid_src w (uuid_cursor w) /\
  uuid_src w' = uuid_src w /\ uuid_cursor w' = S (uuid_cursor w) /\
  In (Participant.style_id p) (map fst (Config.STYLE_ID_TO_COLOR cfg)) /\
  dict_get_int (Config.STYLE_ID_TO_COLOR cfg) (Participant.style_id p)
    = inr (Participant.color p).
Proof.
  unfold ParticipantGenerator.generate_participant. intros H.
  do 6 bind_inv H. apply ret_Ok_inv in H as [<- <-]. simpl.
  apply keeps_uuids_generate_participant_name in E as [Hs0 Hc0].
  assert (H1 : uuid_src w1 = uuid_src w0 /\ uuid_cursor w1 = uuid_cursor w0).
  { destruct style_id as [s|].
    - destruct (dict_mem_int (Config.STYLE_ID_TO_COLOR cfg) s).
      + now apply ret_Ok_inv in E0 as [_ <-].
      + eapply keeps_uuids_random_choice; eauto.
    - eapply keeps_uuids_random_choice; eauto. }
  destruct H1 as [Hs1 Hc1].
  apply lift_Ok_inv in E1 as [_ <-].
  apply keeps_uuids_random_choice in E2 as [Hs2 Hc2].
  apply uuid4_str_step in E3 as (-> & Hs3 & Hc3).
  apply lift_Ok_inv in E4 as [Hcol <-].
  destruct (dict_get_int_In _ _ _ Hcol) as [Hkey _].
  repeat split; try congruence; assumption.
Qed.

Lemma dict_set_length {V} (d : list (string * V)) key v :
  (length d <= length (dict_set d key v) <= S (length d))%nat /\
  (~ In key (map fst d) -> length (dict_set d key v) = S (length d)).
Proof.
  destruct (in_dec string_dec key (map fst d)) as [Hin|Hn].
  - pose proof (proj1 (dict_set_keys d key v) Hin) as Hk.
    apply (f_equal (@length string)) in Hk. rewrite !length_map in Hk.
    split; [lia|tauto].
  - pose proof (proj2 (dict_set_keys d key v) Hn) as Hk.
    apply (f_equal (@length string)) in Hk. rewrite length_app, !length_map in Hk.
    simpl in Hk. split; [lia|intros _; lia].
Qed.

Lemma generate_distant_style_ids_length cfg n ids :
  2 <= n -> ParticipantGenerator.generate_distant_style_ids cfg n = inr ids ->
  Z.of_nat (length ids) = n.
Proof.
  intros Hn H.
  destruct (Z_lt_le_dec (Z.of_nat (length (map fst (Config.STYLE_ID_TO_COLOR cfg)))) n)
    as [Hlt|Hle].
  - exfalso. revert H. unfold ParticipantGenerator.generate_distant_style_ids.
    destruct (_ <? n) eqn:E; [discriminate|lia].
  - rewrite generate_distant_style_ids_value in H by lia.
    inversion H; subst. rewrite length_map, length_seq. lia.
Qed.

Lemma participants_loop cfg cat w style_ids entries w' :
  for_each style_ids
    (fun acc style_id =>
       key <- uuid4_str ;;
       p <- ParticipantGenerator.generate_participant cfg cat (Some style_id) ;;
       ret (dict_set acc key p)) [] w = Ok entries w' ->
  Forall (participant_entry cfg w) entries /\
  (length entries <= length style_ids)%nat /\
  (style_ids <> [] -> entries <> []) /\
  (distinct_uuids w ->
     length entries = length style_ids /\
     Forall (fun entry => fst entry <> Participant.uuid (snd entry)) entries).
Proof.
  intros H.
  eapply (for_each_invariant _
            (fun done w1 acc =>
               uuid_src w1 = uuid_src w /\
               Forall (fun entry =>
                         exists i, (S i < uuid_cursor w1)%nat /\
                           fst entry = uuid_src w i /\
                           Participant.uuid (snd entry) = uuid_src w (S i) /\
                           In (Participant.style_id (snd entry))
                              (map fst (Config.STYLE_ID_TO_COLOR cfg)) /\
                           dict_get_int (Config.STYLE_ID_TO_COLOR cfg)
                             (Participant.style_id (snd entry))
                           = inr (Participant.color (snd entry))) acc /\
               (length acc <= length done)%nat /\
               (done <> [] -> acc <> []) /\
               (distinct_uuids w -> length acc = length done)))
    with (done := []) in H.
  - simpl in H. destruct H as (_ & Hall & Hlen & Hne & Hdistinct).
    split.
    { eapply Forall_impl; [|exact Hall].
      intros entry (i & _ & Hk & Hu & Hs & Hc). exists i. auto. }
    split; [exact Hlen|]. split; [exact Hne|].
    intros Hinj. split; [auto|].
    eapply Forall_impl; [|exact Hall].
    intros entry (i & _ & Hk & Hu & _) Heq. rewrite Hk, Hu in Heq.
    apply Hinj in Heq. lia.
  - intros done sid acc w1 acc' w2 (Hsrc & Hall & Hlen & Hne & Hdistinct) Hs.
    bind_inv Hs. bind_inv Hs. apply ret_Ok_inv in Hs as [<- <-].
    match goal with
    | Hk : uuid4_str _ = Ok _ _ |- _ => apply uuid4_str_step in Hk as (Hkey & Hs1 & Hc1)
    end.
    match goal with
    | Hp : ParticipantGenerator.generate_participant _ _ _ _ = Ok _ _ |- _ =>
        apply generate_participant_returned in Hp as (Hu & Hs2 & Hc2 & Hsty & Hcol)
    end.
    set (c := uuid_cursor w1) in *.
    rewrite Hsrc in Hkey. rewrite Hs1, Hc1, Hsrc in Hu.
    rewrite Hs1, Hsrc in Hs2. rewrite Hc1 in Hc2.
    assert (Hold : Forall (fun entry =>
                     exists i, (S i < S (S c))%nat /\
                       fst entry = uuid_src w i /\
                       Participant.uuid (snd entry) = uuid_src w (S i) /\
                       In (Participant.style_id (snd entry))
                          (map fst (Config.STYLE_ID_TO_COLOR cfg)) /\
                       dict_get_int (Config.STYLE_ID_TO_COLOR cfg)
                         (Participant.style_id (snd entry))
                       = inr (Participant.color (snd entry))) acc).
    { eapply Forall_impl; [|exact Hall].
      intros entry (i & Hi & Hrest). exists i. split; [lia|exact Hrest]. }
    rewrite Hc2, Hkey.
    destruct (dict_set_length acc (uuid_src w c) a0) as [Hl Hnew].
    split; [exact Hs2|]. split.
    { apply dict_set_Forall; [exact Hold|].
      exists c. simpl. split; [lia|]. auto. }
    split; [rewrite length_app; simpl; lia|]. split.
    { intros _ Hnil. destruct acc as [|[k x] acc]; simpl in Hnil; [discriminate|].
      destruct (String.eqb k (uuid_src w c)); discriminate. }
    intros Hinj. rewrite length_app. simpl. rewrite Hnew, (Hdistinct Hinj); [lia|].
    intros Hin. apply in_map_iff in Hin as (entry & Hk & Hentry).
    rewrite Forall_forall in Hall. destruct (Hall entry Hentry) as (i & Hi & Hki & _).
    rewrite Hki in Hk. apply Hinj in Hk. lia.
  - split; [reflexivity|]. split; [constructor|]. split; [simpl; lia|].
    split; [congruence|]. reflexivity.
Qed.

Lemma generate_participants_fresh cfg cat ps self w self' w' :
  ChatBuilder.p_participants ps = None ->
  ChatBuilder._generate_participants cfg cat ps self w = Ok self' w' ->
  same_but_participants self self' /\
  1 <= Z.of_nat (length (ChatBuilder.participants self'))
    <= Catalog.MAX_PARTICIPANTS cat /\
  Forall (participant_entry cfg w) (ChatBuilder.participants self') /\
  (distinct_uuids w ->
     2 <= Z.of_nat (length (ChatBuilder.participants self')) /\
     Forall (fun entry => fst entry <> Participant.uuid (snd entry))
            (ChatBuilder.participants self')).
Proof.
  unfold ChatBuilder._generate_participants.
  intros -> H. bind_inv H. bind_inv H. bind_inv H.
  apply ret_Ok_inv in H as [<- _].
  split; [unfold same_but_participants; simpl; auto|]. simpl.
  destruct (keeps_uuids_random_randint _ _ _ _ _ E) as [Hsrc _].
  apply random_randint_range in E. apply lift_Ok_inv in E0 as [Hids <-].
  apply generate_distant_style_ids_length in Hids; [|lia].
  apply participants_loop in E1 as (Hall & Hlen & Hne & Hdistinct).
  unfold participant_entry, distinct_uuids in *. rewrite Hsrc in Hall, Hdistinct.
  assert (Hpos : a1 <> []).
  { apply Hne. intros ->. simpl in Hids. lia. }
  split.
  { destruct a1; [congruence|]. simpl length in *. lia. }
  split; [exact Hall|].
  intros Hinj. destruct (Hdistinct Hinj) as [Heq Hkeys].
  split; [lia|exact Hkeys].
Qed.

(** X24: [_generate_participants].  Participants given in [params] are
    taken as they are.  Otherwise a [MAX_PARTICIPANTS] below 2 or fewer than
    two styles raise [ValueError]; when the method returns, the dict has
    between 1 and [MAX_PARTICIPANTS] entries, each a participant with a
    configured style and its colour, stored under a key that is one [uuid4]
    draw while the participant's own identifier is the next draw.  When
    [uuid4] never repeats, the dict has at least two entries and no key
    equals the identifier of the participant it holds. *)
Theorem _generate_participants_spec (cfg : Config.t) (cat : Catalog.t)
    (ps : ChatBuilder.params) (self : ChatBuilder.t) (w : World) :
  (forall given, ChatBuilder.p_participants ps = Some given ->
     ChatBuilder._generate_participants cfg cat ps self w
     = Ok (ChatBuilder.mk (ChatBuilder.platform self) given (ChatBuilder.exhibits self)
             (ChatBuilder.attachments self) (ChatBuilder.messages self)
             (ChatBuilder.case_data self)) w) /\
  (ChatBuilder.p_participants ps = None ->
   Catalog.MAX_PARTICIPANTS cat < 2 \/ (length (Config.STYLE_ID_TO_COLOR cfg) < 2)%nat ->
     ChatBuilder._generate_participants cfg cat ps self w = Raise ValueError) /\
  (forall self' w',
     ChatBuilder.p_participants ps = None ->
     ChatBuilder._generate_participants cfg cat ps self w = Ok self' w' ->
     same_but_participants self self' /\
     1 <= Z.of_nat (length (ChatBuilder.participants self'))
       <= Catalog.MAX_PARTICIPANTS cat /\
     Forall (participant_entry cfg w) (ChatBuilder.participants self') /\
     (distinct_uuids w ->
        2 <= Z.of_nat (length (ChatBuilder.participants self')) /\
        Forall (fun entry => fst entry <> Participant.uuid (snd entry))
               (ChatBuilder.participants self'))).
Proof.
  split; [|split].
  - unfold ChatBuilder._generate_participants. intros given ->. reflexivity.
  - unfold ChatBuilder._generate_participants. intros -> Hbad.
    destruct (Z_lt_le_dec (Catalog.MAX_PARTICIPANTS cat) 2) as [Hmax|Hmax].
    + apply bind_Raise. apply random_randint_empty. exact Hmax.
    + destruct Hbad as [Hbad|Hbad]; [lia|].
      destruct (random_randint_returns 2 _ w Hmax) as (num & w1 & E & Hnum).
      rewrite (bind_Ok _ _ _ _ _ E). apply bind_Raise.
      unfold ParticipantGenerator.generate_distant_style_ids.
      rewrite length_map.
      destruct (_ <? num) eqn:Hlt; [reflexivity|lia].
  - intros self' w' Hps H. eapply generate_participants_fresh; eauto.
Qed.

Lemma generate_message_timeline_drawn depth w timeline w' :
  generate_message_timeline depth None None None w = Ok timeline w' ->
  1 <= Z.of_nat (length timeline) <= 50.
Proof.
  unfold generate_message_timeline. intros H. bind_inv H. bind_inv H.
  apply weighted_random_message_count_returned in E0.
  apply generate_random_message_datetimes_length in H; lia.
Qed.

Lemma messages_loop os_path_join cfg (self : ChatBuilder.t) timeline w st w' :
  for_each timeline
    (fun self ref_dt =>
       participant_uuid <- random_choice (map fst (ChatBuilder.participants self)) ;;
       exhibit_uuid <- random_choice (map fst (ChatBuilder.exhibits self)) ;;
       generated <- MessageGenerator.generate_message os_path_join cfg ref_dt
                      participant_uuid exhibit_uuid (ChatBuilder.platform self) ;;
       ret (ChatBuilder.mk (ChatBuilder.platform self) (ChatBuilder.participants self)
              (ChatBuilder.exhibits self)
              (ChatBuilder.attachments self ++ snd generated)
              (ChatBuilder.messages self ++ [fst generated])
              (ChatBuilder.case_data self)))
    self w = Ok st w' ->
  ChatBuilder.platform st = ChatBuilder.platform self /\
  ChatBuilder.participants st = ChatBuilder.participants self /\
  ChatBuilder.exhibits st = ChatBuilder.exhibits self /\
  ChatBuilder.case_data st = ChatBuilder.case_data self /\
  exists new_messages new_attachments,
    ChatBuilder.messages st = ChatBuilder.messages self ++ new_messages /\
    ChatBuilder.attachments st = ChatBuilder.attachments self ++ new_attachments /\
    length new_messages = length timeline /\
    Forall (message_of self) new_messages /\
    Forall (attached_to new_messages) new_attachments.
Proof.
  intros H.
  eapply (for_each_invariant _
            (fun done (_ : World) st =>
               ChatBuilder.platform st = ChatBuilder.platform self /\
               ChatBuilder.participants st = ChatBuilder.participants self /\
               ChatBuilder.exhibits st = ChatBuilder.exhibits self /\
               ChatBuilder.case_data st = ChatBuilder.case_data self /\
               exists new_messages new_attachments,
                 ChatBuilder.messages st = ChatBuilder.messages self ++ new_messages /\
                 ChatBuilder.attachments st
                   = ChatBuilder.attachments self ++ new_attachments /\
                 length new_messages = length done /\
                 Forall (message_of self) new_messages /\
                 Forall (attached_to new_messages) new_attachments))
    with (done := []) in H.
  - exact H.
  - clear H. intros done ref_dt acc w1 acc' w2
      (Hp & Hpa & He & Hc & newm & newa & Hm & Ha & Hlen & Hall & Hatt) Hs.
    do 3 bind_inv Hs. apply ret_Ok_inv in Hs as [<- _]. simpl.
    apply random_choice_In in E, E0. destruct a1 as [msg atts].
    apply generate_message_returned in E1
      as (Hsender & _ & Hplat & Hex & _ & _ & _ & _ & _ & _ & _ & Hatts).
    repeat (split; [assumption|]).
    exists (newm ++ [msg]), (newa ++ atts). simpl.
    split; [rewrite Hm; now rewrite app_assoc|].
    split; [rewrite Ha; now rewrite app_assoc|].
    split; [rewrite !length_app; simpl; lia|]. split.
    + apply Forall_app. split; [exact Hall|]. constructor; [|constructor].
      unfold message_of. rewrite Hsender, Hex, Hplat, <- Hpa, <- He, <- Hp. auto.
    + apply Forall_app. split.
      * eapply Forall_impl; [|exact Hatt]. intros att (m & Hin & Hrest).
        exists m. split; [apply in_or_app; now left|exact Hrest].
      * eapply Forall_impl; [|exact Hatts].
        intros att (_ & _ & _ & _ & Hmu & Hsu). exists msg.
        split; [apply in_or_app; right; now left|]. split; congruence.
  - repeat (split; [reflexivity|]). exists [], [].
    rewrite !app_nil_r. repeat (split; [reflexivity|]). split; constructor.
Qed.

Lemma generate_messages_fresh os_path_join cfg depth ps self w self' w' :
  ChatBuilder.p_messages ps = None -> ChatBuilder.messages self = [] ->
  ChatBuilder._generate_messages os_path_join cfg depth ps self w = Ok self' w' ->
  ChatBuilder.platform self' = ChatBuilder.platform self /\
  ChatBuilder.participants self' = ChatBuilder.participants self /\
  ChatBuilder.exhibits self' = ChatBuilder.exhibits self /\
  ChatBuilder.case_data self' = ChatBuilder.case_data self /\
  1 <= Z.of_nat (length (ChatBuilder.messages self')) <= 50 /\
  Sorted not_later (ChatBuilder.messages self') /\
  ((2 <= length (ChatBuilder.messages self'))%nat ->
     Forall has_send_time (ChatBuilder.messages self')) /\
  Forall (message_of self) (ChatBuilder.messages self') /\
  exists new_attachments,
    ChatBuilder.attachments self' = ChatBuilder.attachments self ++ new_attachments /\
    Forall (attached_to (ChatBuilder.messages self')) new_attachments.
Proof.
  unfold ChatBuilder._generate_messages.
  intros -> Hnone H. do 3 bind_inv H. apply ret_Ok_inv in H as [<- _].
  simpl. apply generate_message_timeline_drawn in E.
  apply messages_loop in E0
    as (Hp & Hpa & He & Hc & newm & newa & Hm & Ha & Hlen & Hall & Hatt).
  rewrite Hnone in Hm. simpl in Hm.
  apply lift_Ok_inv in E1 as [Hsort _]. rewrite Hm in Hsort.
  unfold ChatBuilder.sort_messages in Hsort.
  apply sort_messages_from in Hsort as (Hperm & Hsorted & Hsent);
    [|constructor|simpl; lia].
  simpl in Hperm.
  repeat (split; [assumption|]).
  split; [rewrite <- (Permutation_length Hperm); lia|].
  split; [exact Hsorted|]. split; [exact Hsent|].
  split; [eapply Permutation_Forall; eauto|].
  exists newa. split; [exact Ha|].
  eapply Forall_impl; [|exact Hatt]. intros att (m & Hin & Hrest).
  exists m. split; [eapply Permutation_in; eauto|exact Hrest].
Qed.

(** X25: [_generate_messages].  Messages given in [params] are taken as
    they are.  Otherwise, starting without messages, a call that returns
    leaves between 1 and 50 messages, in an order in which no message is sent
    later than its successor; each is sent by a participant of the chat, tied
    to one of its exhibits and on its platform, and each new attachment
    belongs to one of them.  With two messages or more, every message has a
    send time: a draw in which one of several messages is unsent makes the
    method raise instead. *)
Theorem _generate_messages_spec (os_path_join : string -> string -> string)
    (cfg : Config.t) (depth : nat) (ps : ChatBuilder.params) (self : ChatBuilder.t)
    (w : World) :
  (forall given, ChatBuilder.p_messages ps = Some given ->
     ChatBuilder._generate_messages os_path_join cfg depth ps self w
     = Ok (ChatBuilder.mk (ChatBuilder.platform self) (ChatBuilder.participants self)
             (ChatBuilder.exhibits self) (ChatBuilder.attachments self) given
             (ChatBuilder.case_data self)) w) /\
  (forall self' w',
     ChatBuilder.p_messages ps = None -> ChatBuilder.messages self = [] ->
     ChatBuilder._generate_messages os_path_join cfg depth ps self w = Ok self' w' ->
     ChatBuilder.platform self' = ChatBuilder.platform self /\
     ChatBuilder.participants self' = ChatBuilder.participants self /\
     ChatBuilder.exhibits self' = ChatBuilder.exhibits self /\
     ChatBuilder.case_data self' = ChatBuilder.case_data self /\
     1 <= Z.of_nat (length (ChatBuilder.messages self')) <= 50 /\
     Sorted not_later (ChatBuilder.messages self') /\
     ((2 <= length (ChatBuilder.messages self'))%nat ->
        Forall has_send_time (ChatBuilder.messages self')) /\
     Forall (message_of self) (ChatBuilder.messages self') /\
     exists new_attachments,
       ChatBuilder.attachments self'
         = ChatBuilder.attachments self ++ new_attachments /\
       Forall (attached_to (ChatBuilder.messages self')) new_attachments).
Proof.
  split.
  - unfold ChatBuilder._generate_messages. intros given ->. reflexivity.
  - intros self' w' Hps Hnone H. eapply generate_messages_fresh; eauto.
Qed.

(** X26: [initialize_chat].  With an empty [PLATFORMS] it raises
    [IndexError] whatever [params] holds, a platform included, because the
    default platform is drawn before [params] is consulted.  A chat built
    without [params] is coherent: its platform is a configured one; it has
    between 1 and [MAX_PARTICIPANTS] participants; its case is a generated
    case that lists one exhibit name per participant; every exhibit is
    stored under its own identifier and belongs to the case; it has between
    1 and 50 messages in send order, each sent by a participant of the chat,
    tied to an exhibit of the chat and on its platform; every attachment
    belongs to one of the messages; and with two messages or more every
    message has a send time. *)
Theorem initialize_chat_spec (os_path_join : string -> string -> string)
    (cfg : Config.t) (cat : Catalog.t) (depth : nat) (w : World) :
  (forall ps, Catalog.PLATFORMS cat = [] ->
     ChatBuilder.initialize_chat os_path_join cfg cat depth ps w = Raise IndexError) /\
  (forall chat w',
     ChatBuilder.initialize_chat os_path_join cfg cat depth None w = Ok chat w' ->
     In (ChatBuilder.platform chat) (Catalog.PLATFORMS cat) /\
     1 <= Z.of_nat (length (ChatBuilder.participants chat))
       <= Catalog.MAX_PARTICIPANTS cat /\
     (exists cd names,
        generated_case cat cd /\
        ChatBuilder.case_data chat = Some (extend_case cd names) /\
        length names = length (ChatBuilder.participants chat) /\
        Forall (exhibit_name_of cd) names /\
        Forall (fun entry => fst entry = Exhibit.uuid (snd entry) /\
                             Exhibit.case_id (snd entry) = CaseData.case_number cd)
               (ChatBuilder.exhibits chat)) /\
     1 <= Z.of_nat (length (ChatBuilder.messages chat)) <= 50 /\
     Sorted not_later (ChatBuilder.messages chat) /\
     ((2 <= length (ChatBuilder.messages chat))%nat ->
        Forall has_send_time (ChatBuilder.messages chat)) /\
     Forall (message_of chat) (ChatBuilder.messages chat) /\
     Forall (attached_to (ChatBuilder.messages chat)) (ChatBuilder.attachments chat)).
Proof.
  unfold ChatBuilder.initialize_chat. split.
  - intros ps Hempty. rewrite Hempty. reflexivity.
  - intros chat w' H. do 4 bind_inv H. simpl in E0.
    apply random_choice_In in E.
    apply generate_participants_fresh in E0
      as ((Hp1 & He1 & Ha1 & Hm1 & Hc1) & Hcount & _); [|reflexivity].
    apply generate_case_data_fresh in E1
      as ((Hp2 & Hpa2 & He2 & Ha2 & Hm2) & cd & Hcase & Hgen); [|reflexivity].
    apply generate_exhibits_fresh in E2 as ((Hp3 & Hpa3 & Ha3 & Hm3) & Hex);
      [|reflexivity].
    destruct (Hex cd Hcase) as (names & Hcase3 & Hlen & Hnames & Hentries).
    apply generate_messages_fresh in H
      as (Hp4 & Hpa4 & He4 & Hc4 & Hmcount & Hsorted & Hsent & Hmsgs & newa & Hatt & Hnew);
      [|reflexivity|].
    2:{ rewrite Hm3, Hm2. exact Hm1. }
    simpl in *.
    split; [rewrite Hp4, Hp3, Hp2, Hp1; exact E|].
    split; [rewrite Hpa4, Hpa3, Hpa2; exact Hcount|].
    split.
    { exists cd, names. split; [exact Hgen|]. split; [congruence|].
      split; [rewrite Hpa4, Hpa3; exact Hlen|]. split; [exact Hnames|].
      rewrite He4. eapply Forall_impl; [|exact Hentries].
      intros entry [Hin|Hnew']; [|exact Hnew'].
      rewrite He2, He1 in Hin. destruct Hin. }
    split; [exact Hmcount|]. split; [exact Hsorted|]. split; [exact Hsent|].
    split.
    { eapply Forall_impl; [|exact Hmsgs]. unfold message_of.
      rewrite Hpa4, He4, Hp4. auto. }
    rewrite Hatt, Ha3, Ha2, Ha1. simpl. exact Hnew.
Qed.

(** ** Further concrete runs *)

Example generate_message_without_texts :
  generate_message append textless_config 1672531200 "p" "x" "Chat" all_high
  = Raise IndexError.
Proof. vm_compute. reflexivity. Qed.

(** A chat of four messages that all fall on the same second: the keys of
    the participants differ from the participants' own identifiers, the
    messages name the key, and [save] keeps one record for the four. *)
Example initialize_chat_four_messages :
  exists chat w',
    ChatBuilder.initialize_chat append sample_config sample_catalog 1 None four_messages
      = Ok chat w' /\
    map fst (ChatBuilder.participants chat) = ["0"; "2"]%string /\
    map (fun entry => Participant.uuid (snd entry)) (ChatBuilder.participants chat)
      = ["1"; "3"]%string /\
    map Message.sender_uuid (ChatBuilder.messages chat) = ["0"; "0"; "0"; "0"]%string /\
    exists d,
      ChatBuilder.save_messages seconds_text (ChatBuilder.messages chat) = inr d /\
      map fst d = ["1672531201"]%string.
Proof.
  eexists. eexists. split; [vm_compute; reflexivity|].
  split; [reflexivity|]. split; [reflexivity|]. split; [reflexivity|].
  eexists. split; vm_compute; reflexivity.
Qed.
